(** * OpenSend worker core: queue claims, SMTP classification, retry state
      machines, suppression and webhook dispatch.

    Shallow embedding of
      - the SQL functions [claim_next_message] and
        [claim_next_webhook_delivery] (initial schema),
      - [packages/shared/src/db/client.ts] (messages, suppressions,
        domains, webhooks, webhookDeliveries operations),
      - [packages/worker/src/smtp/client.ts] ([classifySmtpError],
        [isHardBounce], [SmtpClient.send]),
      - [packages/worker/src/processors/email.processor.ts] and
        [webhook.processor.ts],
      - the API services over the same store: [queue.service.ts],
        [email.service.ts], [suppression.service.ts] and, of
        [webhook.service.ts], [get] and [remove],
      - the rate limit middleware [middleware/rate-limit.ts].

    Conventions.
      - Tables are lists of rows in insertion order.  A [Date] and a
        [TIMESTAMPTZ] are milliseconds since the epoch, in [Z]; counters
        and response codes are in [Z].
      - JavaScript strings are modelled by their UTF-8 bytes ([string]).
        [toLowerCase] and [trim] are the runtime's, the two members of the
        class [Js.Strings]: the embedding and the theorems are over any
        such pair of functions and assume nothing of them, so an address
        the code lowers twice is written as lowered twice.  Only the runs
        on concrete stores fix the pair, to the functions on ASCII text.
      - A row id is a string that stands for a UUID.  An id handed to the
        store is taken to be a well-formed UUID in its canonical spelling:
        the database error the store answers to other text is not
        modelled, and no statement speaks of such an id.
      - The store is the ideal one: a statement fails only by a violated
        unique constraint, never by a lost connection.  A stored JSON
        payload is read back as it was written (key order is kept).
        The table [api_keys] is not modelled: a tenant is its id, taken to
        exist; column lengths and CHECK constraints are not modelled.
      - The clock does not move within a step of a worker or of a service;
        it moves between steps.
      - Each SQL statement is one atomic step.  Row locks held by other
        transactions are a list of row ids in the [World]; it is empty in
        a sequential run.
      - Asynchronous code is run sequentially in a state-and-exception
        monad over the [World]; the SMTP transport and the HTTP endpoint
        are oracles of the environment, and every call to them is logged
        in the [World].
      - Debug logging, the back-off value (computed, then only logged) and
        the [hasMore] flags of the processors are left out. *)

From Stdlib Require Import ZArith List String Ascii Bool Lia DecimalString Permutation.
Import ListNotations.
Set Warnings "-register-all".
Local Open Scope string_scope.
Local Open Scope list_scope.
Local Open Scope Z_scope.

Infix "+++" := String.append (right associativity, at level 60).

(* ====================================================================== *)
(** * JavaScript runtime helpers *)
(* ====================================================================== *)

Module Js.

(** [String.prototype.toLowerCase] and [String.prototype.trim] follow the
    Unicode tables of the runtime (every cased letter is lowered, every
    Unicode space is trimmed).  They are taken from the runtime as they
    are: the program is embedded over any such pair of functions, and
    nothing is assumed of them. *)
Class Strings : Type := {
  toLowerCase : string -> string;
  trim : string -> string
}.

(** The two functions on ASCII text, where they lower the letters A-Z and
    trim tab, line feed, vertical tab, form feed, carriage return and
    space.  The runs on concrete stores use them. *)
Definition ascii_toLowerCase (c : ascii) : ascii :=
  let n := nat_of_ascii c in
  if (65 <=? n)%nat && (n <=? 90)%nat then ascii_of_nat (n + 32) else c.

Fixpoint lower_ascii (s : string) : string :=
  match s with
  | EmptyString => EmptyString
  | String c s' => String (ascii_toLowerCase c) (lower_ascii s')
  end.

Definition is_space (c : ascii) : bool :=
  let n := nat_of_ascii c in
  ((9 <=? n)%nat && (n <=? 13)%nat) || (n =? 32)%nat.

Fixpoint trim_start (s : string) : string :=
  match s with
  | EmptyString => EmptyString
  | String c s' => if is_space c then trim_start s' else s
  end.

Fixpoint trim_end (s : string) : string :=
  match s with
  | EmptyString => EmptyString
  | String c s' =>
      match trim_end s' with
      | EmptyString => if is_space c then EmptyString else String c EmptyString
      | rest => String c rest
      end
  end.

Definition trim_ascii (s : string) : string := trim_end (trim_start s).

Definition ascii_strings : Strings :=
  {| toLowerCase := lower_ascii; trim := trim_ascii |}.

(** [Array.prototype.includes] on strings and on numbers. *)
Definition includes_str (l : list string) (x : string) : bool :=
  existsb (String.eqb x) l.

Definition includes_num (l : list Z) (x : Z) : bool :=
  existsb (Z.eqb x) l.

(** [Number.prototype.toString] on an integer. *)
Definition num_toString (z : Z) : string :=
  NilZero.string_of_int (Z.to_int z).

(** Decimal digits of [z], left-padded with zeros to [width]
    ([String.prototype.padStart]). *)
Fixpoint zeros (n : nat) : string :=
  match n with
  | O => EmptyString
  | S n' => String "0" (zeros n')
  end.

Definition digits (width : nat) (z : Z) : string :=
  let s := num_toString z in
  zeros (width - String.length s) +++ s.

(** [Date.prototype.toISOString]: the proleptic Gregorian calendar date of
    a millisecond epoch, as [YYYY-MM-DDTHH:mm:ss.sssZ] (years outside
    0..9999 in the signed six-digit form). *)
Definition civil_from_days (days : Z) : Z * Z * Z :=
  let z := days + 719468 in
  let era := z / 146097 in
  let doe := z - era * 146097 in
  let yoe := (doe - doe / 1460 + doe / 36524 - doe / 146096) / 365 in
  let y := yoe + era * 400 in
  let doy := doe - (365 * yoe + yoe / 4 - yoe / 100) in
  let mp := (5 * doy + 2) / 153 in
  let d := doy - (153 * mp + 2) / 5 + 1 in
  let m := if mp <? 10 then mp + 3 else mp - 9 in
  (if m <=? 2 then y + 1 else y, m, d).

Definition year_toString (y : Z) : string :=
  if (0 <=? y) && (y <=? 9999) then digits 4 y
  else if y <? 0 then "-" +++ digits 6 (- y)
  else "+" +++ digits 6 y.

Definition toISOString (ms : Z) : string :=
  let days := ms / 86400000 in
  let rest := ms mod 86400000 in
  let '(y, m, d) := civil_from_days days in
  year_toString y +++ "-" +++ digits 2 m +++ "-" +++ digits 2 d +++ "T" +++
  digits 2 (rest / 3600000) +++ ":" +++
  digits 2 ((rest / 60000) mod 60) +++ ":" +++
  digits 2 ((rest / 1000) mod 60) +++ "." +++
  digits 3 (rest mod 1000) +++ "Z".

(** UTF-8 bytes of a string, as numbers. *)
Definition bytes_of_string (s : string) : list Z :=
  map (fun c => Z.of_nat (nat_of_ascii c)) (list_ascii_of_string s).

End Js.

(* ====================================================================== *)
(** * JSON values and [JSON.stringify] *)
(* ====================================================================== *)

Module Json.

Inductive t : Type :=
| JNull
| JBool (b : bool)
| JNum (z : Z)
| JStr (s : string)
| JArr (l : list t)
| JObj (fields : list (string * t)).

Definition dquote : ascii := "034"%char.
Definition backslash : ascii := "092"%char.

Definition hex_digit (n : nat) : ascii :=
  match n with
  | 0 => "0" | 1 => "1" | 2 => "2" | 3 => "3" | 4 => "4" | 5 => "5"
  | 6 => "6" | 7 => "7" | 8 => "8" | 9 => "9" | 10 => "a" | 11 => "b"
  | 12 => "c" | 13 => "d" | 14 => "e" | _ => "f"
  end%nat%char.

(** Escape of one character inside a JSON string literal. *)
Definition escape_char (c : ascii) : string :=
  let n := nat_of_ascii c in
  if Ascii.eqb c dquote then String backslash (String dquote EmptyString)
  else if Ascii.eqb c backslash then String backslash (String backslash EmptyString)
  else if (n =? 8)%nat then String backslash "b"
  else if (n =? 9)%nat then String backslash "t"
  else if (n =? 10)%nat then String backslash "n"
  else if (n =? 12)%nat then String backslash "f"
  else if (n =? 13)%nat then String backslash "r"
  else if (n <? 32)%nat then
    String backslash ("u00" +++
      String (hex_digit (n / 16)) (String (hex_digit (n mod 16)) EmptyString))
  else String c EmptyString.

Fixpoint escape (s : string) : string :=
  match s with
  | EmptyString => EmptyString
  | String c s' => escape_char c +++ escape s'
  end.

Definition quote (s : string) : string :=
  String dquote (escape s +++ String dquote EmptyString).

Fixpoint stringify (j : t) : string :=
  match j with
  | JNull => "null"
  | JBool true => "true"
  | JBool false => "false"
  | JNum z => Js.num_toString z
  | JStr s => quote s
  | JArr l =>
      let fix elems (l : list t) : string :=
        match l with
        | [] => EmptyString
        | [x] => stringify x
        | x :: rest => stringify x +++ "," +++ elems rest
        end in
      "[" +++ elems l +++ "]"
  | JObj fs =>
      let fix members (fs : list (string * t)) : string :=
        match fs with
        | [] => EmptyString
        | [(k, v)] => quote k +++ ":" +++ stringify v
        | (k, v) :: rest => quote k +++ ":" +++ stringify v +++ "," +++ members rest
        end in
      "{" +++ members fs +++ "}"
  end.

(** Property write [obj[k] = v]: an existing key keeps its place. *)
Fixpoint set_field (k : string) (v : t) (fs : list (string * t)) : list (string * t) :=
  match fs with
  | [] => [(k, v)]
  | (k', v') :: rest =>
      if String.eqb k k' then (k, v) :: rest else (k', v') :: set_field k v rest
  end.

(** Object spread [{...a, ...b}]. *)
Definition spread (a b : list (string * t)) : list (string * t) :=
  fold_left (fun acc kv => set_field (fst kv) (snd kv) acc) b a.

Fixpoint get_field (k : string) (fs : list (string * t)) : option t :=
  match fs with
  | [] => None
  | (k', v) :: rest => if String.eqb k k' then Some v else get_field k rest
  end.

End Json.

(* ====================================================================== *)
(** * Node's [crypto.createHmac('sha256', key).update(data).digest('hex')] *)
(* ====================================================================== *)

Module Sha256.

Definition mask32 : Z := 0xffffffff.
Definition add32 (x y : Z) : Z := Z.land (x + y) mask32.
Definition rotr (n x : Z) : Z :=
  Z.lor (Z.shiftr x n) (Z.land (Z.shiftl x (32 - n)) mask32).
Definition xor3 (a b c : Z) : Z := Z.lxor (Z.lxor a b) c.

Definition Ch (x y z : Z) : Z :=
  Z.lxor (Z.land x y) (Z.land (Z.lxor x mask32) z).
Definition Maj (x y z : Z) : Z :=
  xor3 (Z.land x y) (Z.land x z) (Z.land y z).
Definition Sigma0 (x : Z) : Z := xor3 (rotr 2 x) (rotr 13 x) (rotr 22 x).
Definition Sigma1 (x : Z) : Z := xor3 (rotr 6 x) (rotr 11 x) (rotr 25 x).
Definition sigma0 (x : Z) : Z := xor3 (rotr 7 x) (rotr 18 x) (Z.shiftr x 3).
Definition sigma1 (x : Z) : Z := xor3 (rotr 17 x) (rotr 19 x) (Z.shiftr x 10).

(** FIPS 180-4, 4.2.2: the round constants are the first thirty-two bits
    of the fractional parts of the cube roots of the first sixty-four
    primes. *)
Definition is_prime (n : Z) : bool :=
  (1 <? n)
  && forallb (fun d => negb (n mod d =? 0))
             (map Z.of_nat (seq 2 (Z.to_nat n - 2))).

Definition primes : list Z := filter is_prime (map Z.of_nat (seq 2 310)).

(** Integer cube root, one bit at a time from the top. *)
Fixpoint cube_root (bits : nat) (n r : Z) : Z :=
  match bits with
  | O => r
  | S b =>
      let c := r + Z.shiftl 1 (Z.of_nat b) in
      if c * c * c <=? n then cube_root b n c else cube_root b n r
  end.

Definition K : list Z :=
  Eval vm_compute in
    map (fun p => Z.land (cube_root 36 (Z.shiftl p 96) 0) mask32) primes.

Record state : Type := mkState {
  ha : Z; hb : Z; hc : Z; hd : Z; he : Z; hf : Z; hg : Z; hh : Z
}.

(** FIPS 180-4, 5.3.3: the initial hash value, from the square roots of
    the first eight primes. *)
Definition H0 : state :=
  Eval vm_compute in
    match map (fun p => Z.land (Z.sqrt (Z.shiftl p 64)) mask32) (firstn 8 primes) with
    | [a; b; c; d; e; f; g; h] => mkState a b c d e f g h
    | _ => mkState 0 0 0 0 0 0 0 0
    end.

(** Big-endian words of a block, and bytes of a word. *)
Fixpoint words_of_bytes (n : nat) (bs : list Z) : list Z :=
  match n, bs with
  | S n', b0 :: b1 :: b2 :: b3 :: rest =>
      (Z.shiftl b0 24 + Z.shiftl b1 16 + Z.shiftl b2 8 + b3)
        :: words_of_bytes n' rest
  | _, _ => []
  end.

Definition byte_of (x sh : Z) : Z := Z.land (Z.shiftr x sh) 0xff.

Definition bytes_of_word (x : Z) : list Z :=
  [byte_of x 24; byte_of x 16; byte_of x 8; byte_of x 0].

(** Message schedule: [w] holds the last sixteen words, oldest first. *)
Fixpoint schedule (n : nat) (w : list Z) : list Z :=
  match n, w with
  | S n', w16 :: rest =>
      let nw := add32 (add32 (sigma1 (nth 13 rest 0)) (nth 8 rest 0))
                      (add32 (sigma0 (nth 0 rest 0)) w16) in
      nw :: schedule n' (rest ++ [nw])
  | _, _ => []
  end.

Definition round (s : state) (kw : Z * Z) : state :=
  let t1 := add32 (add32 (add32 (hh s) (Sigma1 (he s)))
                         (add32 (Ch (he s) (hf s) (hg s)) (fst kw))) (snd kw) in
  let t2 := add32 (Sigma0 (ha s)) (Maj (ha s) (hb s) (hc s)) in
  mkState (add32 t1 t2) (ha s) (hb s) (hc s) (add32 (hd s) t1) (he s) (hf s) (hg s).

Definition compress (s : state) (block : list Z) : state :=
  let w := words_of_bytes 16 block in
  let s' := fold_left round (combine K (w ++ schedule 48 w)) s in
  mkState (add32 (ha s) (ha s')) (add32 (hb s) (hb s')) (add32 (hc s) (hc s'))
          (add32 (hd s) (hd s')) (add32 (he s) (he s')) (add32 (hf s) (hf s'))
          (add32 (hg s) (hg s')) (add32 (hh s) (hh s')).

Definition pad (msg : list Z) : list Z :=
  let len := Z.of_nat (List.length msg) in
  let bits := 8 * len in
  msg ++ [0x80] ++ repeat 0 (Z.to_nat ((55 - len) mod 64))
      ++ bytes_of_word (Z.shiftr bits 32) ++ bytes_of_word (Z.land bits mask32).

Fixpoint blocks (fuel : nat) (s : state) (bs : list Z) : state :=
  match fuel, bs with
  | S fuel', _ :: _ => blocks fuel' (compress s (firstn 64 bs)) (skipn 64 bs)
  | _, _ => s
  end.

Definition digest_bytes (s : state) : list Z :=
  bytes_of_word (ha s) ++ bytes_of_word (hb s) ++ bytes_of_word (hc s) ++
  bytes_of_word (hd s) ++ bytes_of_word (he s) ++ bytes_of_word (hf s) ++
  bytes_of_word (hg s) ++ bytes_of_word (hh s).

Definition sha256 (msg : list Z) : list Z :=
  let p := pad msg in
  digest_bytes (blocks (List.length p) H0 p).

Definition hmac (key msg : list Z) : list Z :=
  let k0 := if (64 <? List.length key)%nat then sha256 key else key in
  let k := k0 ++ repeat 0 (64 - List.length k0)%nat in
  sha256 (map (Z.lxor 0x5c) k ++ sha256 (map (Z.lxor 0x36) k ++ msg)).

(** [digest('hex')]: two lowercase hexadecimal digits per byte. *)
Definition hex_of_byte (b : Z) : string :=
  String (Json.hex_digit (Z.to_nat (Z.shiftr b 4)))
    (String (Json.hex_digit (Z.to_nat (Z.land b 15))) EmptyString).

Definition hex (bs : list Z) : string :=
  fold_right (fun b acc => hex_of_byte b +++ acc) EmptyString bs.

Definition hmac_hex (key data : string) : string :=
  hex (hmac (Js.bytes_of_string key) (Js.bytes_of_string data)).

End Sha256.

(* ====================================================================== *)
(** * Data model ([types.ts], [db/schema.ts])

    The row-to-entity mappers ([toMessage], [toSuppression], ...) only
    rename columns, so one record stands for the row and its entity. *)
(* ====================================================================== *)

Module MessageStatus.
Inductive t : Type :=
| QUEUED | PROCESSING | SENT | DELIVERED | BOUNCED | FAILED | REJECTED.

Definition eqb (a b : t) : bool :=
  match a, b with
  | QUEUED, QUEUED | PROCESSING, PROCESSING | SENT, SENT
  | DELIVERED, DELIVERED | BOUNCED, BOUNCED | FAILED, FAILED
  | REJECTED, REJECTED => true
  | _, _ => false
  end.
End MessageStatus.

Module SuppressionReason.
Inductive t : Type :=
| HARD_BOUNCE | SOFT_BOUNCE | COMPLAINT | UNSUBSCRIBE | MANUAL.

Definition toString (r : t) : string :=
  match r with
  | HARD_BOUNCE => "hard_bounce"
  | SOFT_BOUNCE => "soft_bounce"
  | COMPLAINT => "complaint"
  | UNSUBSCRIBE => "unsubscribe"
  | MANUAL => "manual"
  end.
End SuppressionReason.

Module WebhookDeliveryStatus.
Inductive t : Type := PENDING | DELIVERED | FAILED.

Definition eqb (a b : t) : bool :=
  match a, b with
  | PENDING, PENDING | DELIVERED, DELIVERED | FAILED, FAILED => true
  | _, _ => false
  end.
End WebhookDeliveryStatus.

Module Message.
Record t : Type := mk {
  id : string;
  apiKeyId : string;
  idempotencyKey : option string;
  type : string;
  status : MessageStatus.t;
  fromAddress : string;
  toAddress : string;
  subject : option string;
  body : option string;
  htmlBody : option string;
  metadata : option Json.t;
  attempts : Z;
  createdAt : Z;
  sentAt : option Z;
  deliveredAt : option Z;
  failedAt : option Z;
  failureReason : option string
}.
End Message.

Module Suppression.
Record t : Type := mk {
  id : string;
  apiKeyId : string;
  email : string;
  reason : SuppressionReason.t;
  createdAt : Z
}.
End Suppression.

Module Domain.
Record t : Type := mk {
  id : string;
  apiKeyId : string;
  domain : string;
  verified : bool;
  dkimSelector : string;
  dkimPrivateKey : option string;
  createdAt : Z;
  verifiedAt : option Z
}.
End Domain.

Module Webhook.
Record t : Type := mk {
  id : string;
  apiKeyId : string;
  url : string;
  events : list string;
  secret : string;
  active : bool;
  createdAt : Z
}.
End Webhook.

Module WebhookDelivery.
Record t : Type := mk {
  id : string;
  webhookId : string;
  messageId : option string;
  event : string;
  payload : Json.t;
  status : WebhookDeliveryStatus.t;
  attempts : Z;
  lastAttemptAt : option Z;
  createdAt : Z
}.
End WebhookDelivery.

(** Partial updates: [None] is an absent key, [Some None] writes NULL. *)
Module MessageUpdate.
Record t : Type := mk {
  status : option MessageStatus.t;
  attempts : option Z;
  sent_at : option (option Z);
  delivered_at : option (option Z);
  failed_at : option (option Z);
  failure_reason : option (option string)
}.

Definition empty : t := mk None None None None None None.

(** [Object.keys(data).length === 0]. *)
Definition is_empty (u : t) : bool :=
  match u with
  | mk None None None None None None => true
  | _ => false
  end.

Definition or_keep {A : Type} (o : option A) (old : A) : A :=
  match o with Some v => v | None => old end.

(** [UPDATE messages SET ${sql(data)}] on one row. *)
Definition apply (u : t) (m : Message.t) : Message.t :=
  Message.mk (Message.id m) (Message.apiKeyId m) (Message.idempotencyKey m)
    (Message.type m) (or_keep (status u) (Message.status m))
    (Message.fromAddress m) (Message.toAddress m) (Message.subject m)
    (Message.body m) (Message.htmlBody m) (Message.metadata m)
    (or_keep (attempts u) (Message.attempts m)) (Message.createdAt m)
    (or_keep (sent_at u) (Message.sentAt m))
    (or_keep (delivered_at u) (Message.deliveredAt m))
    (or_keep (failed_at u) (Message.failedAt m))
    (or_keep (failure_reason u) (Message.failureReason m)).
End MessageUpdate.

Module WebhookDeliveryUpdate.
Record t : Type := mk {
  status : option WebhookDeliveryStatus.t;
  attempts : option Z;
  last_attempt_at : option (option Z)
}.

Definition is_empty (u : t) : bool :=
  match u with
  | mk None None None => true
  | _ => false
  end.

Definition apply (u : t) (d : WebhookDelivery.t) : WebhookDelivery.t :=
  WebhookDelivery.mk (WebhookDelivery.id d) (WebhookDelivery.webhookId d)
    (WebhookDelivery.messageId d) (WebhookDelivery.event d)
    (WebhookDelivery.payload d)
    (MessageUpdate.or_keep (status u) (WebhookDelivery.status d))
    (MessageUpdate.or_keep (attempts u) (WebhookDelivery.attempts d))
    (MessageUpdate.or_keep (last_attempt_at u) (WebhookDelivery.lastAttemptAt d))
    (WebhookDelivery.createdAt d).
End WebhookDeliveryUpdate.

Module SuppressionInsert.
Record t : Type := mk {
  id : option string;
  api_key_id : string;
  email : string;
  reason : SuppressionReason.t
}.
End SuppressionInsert.

Module WebhookDeliveryInsert.
Record t : Type := mk {
  id : option string;
  webhook_id : string;
  message_id : option string;
  event : string;
  payload : Json.t;
  status : option WebhookDeliveryStatus.t;
  attempts : option Z
}.
End WebhookDeliveryInsert.

(* ====================================================================== *)
(** * The SQL claim functions (initial schema) *)
(* ====================================================================== *)

Module Sql.

(** [ORDER BY key ASC LIMIT 1]; among equal keys the row stored first. *)
Fixpoint first_by {A : Type} (key : A -> Z) (l : list A) : option A :=
  match l with
  | [] => None
  | x :: rest =>
      match first_by key rest with
      | Some y => if key y <? key x then Some y else Some x
      | None => Some x
      end
  end.

(** [FOR UPDATE SKIP LOCKED]: rows locked by another transaction are
    passed over; [locked] lists their ids. *)
Definition unlocked (locked : list string) (rid : string) : bool :=
  negb (Js.includes_str locked rid).

(** The sub-select of [claim_next_message]. *)
Definition select_next_queued (locked : list string) (rows : list Message.t)
  : option Message.t :=
  first_by Message.createdAt
    (filter (fun m => MessageStatus.eqb (Message.status m) MessageStatus.QUEUED
                      && unlocked locked (Message.id m)) rows).

Definition set_processing (m : Message.t) : Message.t :=
  MessageUpdate.apply
    (MessageUpdate.mk (Some MessageStatus.PROCESSING) None None None None None) m.

(** [claim_next_message(worker_id)]: the rows [RETURNING *] yields and the
    table after the statement.  [worker_id] is not used by the body. *)
Definition claim_next_message (worker_id : string) (locked : list string)
    (rows : list Message.t) : list Message.t * list Message.t :=
  match select_next_queued locked rows with
  | None => ([], rows)
  | Some sel =>
      let hit (m : Message.t) := String.eqb (Message.id m) (Message.id sel) in
      let rows' := map (fun m => if hit m then set_processing m else m) rows in
      (filter hit rows', rows')
  end.

(** The sub-select of [claim_next_webhook_delivery]; [now] is [NOW()]. *)
Definition ready (now : Z) (d : WebhookDelivery.t) : bool :=
  WebhookDeliveryStatus.eqb (WebhookDelivery.status d) WebhookDeliveryStatus.PENDING
  && match WebhookDelivery.lastAttemptAt d with
     | None => true
     | Some t => t <? now - 30000
     end.

Definition select_next_pending (now : Z) (locked : list string)
    (rows : list WebhookDelivery.t) : option WebhookDelivery.t :=
  first_by WebhookDelivery.createdAt
    (filter (fun d => ready now d && unlocked locked (WebhookDelivery.id d)) rows).

Definition set_claimed (now : Z) (d : WebhookDelivery.t) : WebhookDelivery.t :=
  WebhookDeliveryUpdate.apply
    (WebhookDeliveryUpdate.mk (Some WebhookDeliveryStatus.PENDING)
       (Some (WebhookDelivery.attempts d + 1)) (Some (Some now))) d.

Definition claim_next_webhook_delivery (now : Z) (locked : list string)
    (rows : list WebhookDelivery.t)
  : list WebhookDelivery.t * list WebhookDelivery.t :=
  match select_next_pending now locked rows with
  | None => ([], rows)
  | Some sel =>
      let hit (d : WebhookDelivery.t) :=
        String.eqb (WebhookDelivery.id d) (WebhookDelivery.id sel) in
      let rows' := map (fun d => if hit d then set_claimed now d else d) rows in
      (filter hit rows', rows')
  end.

End Sql.

(* ====================================================================== *)
(** * SMTP error classification ([smtp/client.ts]) *)
(* ====================================================================== *)

Module SmtpErrorType.
Inductive t : Type := permanent | temporary | connection | unknown.

Definition eqb (a b : t) : bool :=
  match a, b with
  | permanent, permanent | temporary, temporary
  | connection, connection | unknown, unknown => true
  | _, _ => false
  end.
End SmtpErrorType.

(** The error object nodemailer rejects with. *)
Module NodeError.
Record t : Type := mk {
  message : string;
  code : option string;
  responseCode : option Z
}.
End NodeError.

Module SmtpError.
Record t : Type := mk {
  message : string;
  type : SmtpErrorType.t;
  code : option string;
  responseCode : option Z;
  shouldRetry : bool
}.

(** The constructor: [shouldRetry] is derived from the type. *)
Definition new (message : string) (type : SmtpErrorType.t)
    (responseCode : option Z) (code : option string) : t :=
  mk message type code responseCode
     (SmtpErrorType.eqb type SmtpErrorType.temporary
      || SmtpErrorType.eqb type SmtpErrorType.connection).
End SmtpError.

Definition HARD_BOUNCE_CODES : list Z := [550; 551; 552; 553; 554].

Definition SOFT_BOUNCE_CODES : list Z := [450; 451; 452].

Definition CONNECTION_ERROR_CODES : list string :=
  ["ECONNREFUSED"; "ECONNRESET"; "ETIMEDOUT"; "ENOTFOUND";
   "EHOSTUNREACH"; "ENETUNREACH"; "ESOCKET"; "ECONNECTION"].

(** [error.code && CONNECTION_ERROR_CODES.includes(error.code)]. *)
Definition has_connection_code (error : NodeError.t) : bool :=
  match NodeError.code error with
  | Some c => negb (String.eqb c EmptyString)
              && Js.includes_str CONNECTION_ERROR_CODES c
  | None => false
  end.

Definition classifySmtpError (error : NodeError.t) : SmtpError.t :=
  if has_connection_code error then
    SmtpError.new (NodeError.message error) SmtpErrorType.connection None
                  (NodeError.code error)
  else
    match NodeError.responseCode error with
    | Some rc =>
        if rc =? 0 then
          SmtpError.new (NodeError.message error) SmtpErrorType.unknown None None
        else if Js.includes_num HARD_BOUNCE_CODES rc then
          SmtpError.new (NodeError.message error) SmtpErrorType.permanent (Some rc) None
        else if Js.includes_num SOFT_BOUNCE_CODES rc then
          SmtpError.new (NodeError.message error) SmtpErrorType.temporary (Some rc) None
        else if (500 <=? rc) && (rc <? 600) then
          SmtpError.new (NodeError.message error) SmtpErrorType.permanent (Some rc) None
        else if (400 <=? rc) && (rc <? 500) then
          SmtpError.new (NodeError.message error) SmtpErrorType.temporary (Some rc) None
        else
          SmtpError.new (NodeError.message error) SmtpErrorType.unknown None None
    | None =>
        SmtpError.new (NodeError.message error) SmtpErrorType.unknown None None
    end.

Definition isHardBounce (error : SmtpError.t) : bool :=
  SmtpErrorType.eqb (SmtpError.type error) SmtpErrorType.permanent
  && match SmtpError.responseCode error with
     | Some rc => Js.includes_num HARD_BOUNCE_CODES rc
     | None => false
     end.

(* ====================================================================== *)
(** * The world: store, clock, and the traffic to the outside *)
(* ====================================================================== *)

Module EmailMessage.
Record t : Type := mk {
  from : string;
  to : string;
  subject : string;
  text : option string;
  html : option string;
  messageId : option string
}.
End EmailMessage.

Module DkimConfig.
Record t : Type := mk {
  domainName : string;
  selector : string;
  privateKey : string
}.
End DkimConfig.

(** One call of [transporter.sendMail]. *)
Record SmtpCall : Type := mkSmtpCall {
  call_mail : EmailMessage.t;
  call_dkim : option DkimConfig.t
}.

(** One call of [fetch]. *)
Module HttpRequest.
Record t : Type := mk {
  url : string;
  method : string;
  headers : list (string * string);
  body : string
}.
End HttpRequest.

Fixpoint header (name : string) (hs : list (string * string)) : option string :=
  match hs with
  | [] => None
  | (k, v) :: rest => if String.eqb k name then Some v else header name rest
  end.

Record World : Type := mkWorld {
  messages : list Message.t;
  suppressions : list Suppression.t;
  domains : list Domain.t;
  webhooks : list Webhook.t;
  webhook_deliveries : list WebhookDelivery.t;
  (** ids of the rows other transactions hold a row lock on *)
  row_locks : list string;
  (** [NOW()], [Date.now()], [new Date()] *)
  now : Z;
  (** supply of [uuid_generate_v4()] *)
  next_uuid : nat;
  (** calls of the SMTP transport and of [fetch], oldest first *)
  smtp_log : list SmtpCall;
  http_log : list HttpRequest.t
}.

Definition with_messages (f : list Message.t -> list Message.t) (w : World) : World :=
  mkWorld (f (messages w)) (suppressions w) (domains w) (webhooks w)
          (webhook_deliveries w) (row_locks w) (now w) (next_uuid w)
          (smtp_log w) (http_log w).

Definition with_suppressions (f : list Suppression.t -> list Suppression.t)
    (w : World) : World :=
  mkWorld (messages w) (f (suppressions w)) (domains w) (webhooks w)
          (webhook_deliveries w) (row_locks w) (now w) (next_uuid w)
          (smtp_log w) (http_log w).

Definition with_webhook_deliveries
    (f : list WebhookDelivery.t -> list WebhookDelivery.t) (w : World) : World :=
  mkWorld (messages w) (suppressions w) (domains w) (webhooks w)
          (f (webhook_deliveries w)) (row_locks w) (now w) (next_uuid w)
          (smtp_log w) (http_log w).

Definition with_next_uuid (n : nat) (w : World) : World :=
  mkWorld (messages w) (suppressions w) (domains w) (webhooks w)
          (webhook_deliveries w) (row_locks w) (now w) n
          (smtp_log w) (http_log w).

Definition with_smtp_log (l : list SmtpCall) (w : World) : World :=
  mkWorld (messages w) (suppressions w) (domains w) (webhooks w)
          (webhook_deliveries w) (row_locks w) (now w) (next_uuid w)
          l (http_log w).

Definition with_http_log (l : list HttpRequest.t) (w : World) : World :=
  mkWorld (messages w) (suppressions w) (domains w) (webhooks w)
          (webhook_deliveries w) (row_locks w) (now w) (next_uuid w)
          (smtp_log w) l.

(** The clock moves between the steps of the worker. *)
Definition advance (ms : Z) (w : World) : World :=
  mkWorld (messages w) (suppressions w) (domains w) (webhooks w)
          (webhook_deliveries w) (row_locks w) (now w + ms) (next_uuid w)
          (smtp_log w) (http_log w).

(** ** State and exceptions *)

Inductive Outcome (A : Type) : Type :=
| Returned (value : A)
| Thrown (message : string).
Arguments Returned {A} value.
Arguments Thrown {A} message.

Definition M (A : Type) : Type := World -> Outcome A * World.

Definition ret {A : Type} (a : A) : M A := fun w => (Returned a, w).

Definition bind {A B : Type} (c : M A) (k : A -> M B) : M B :=
  fun w =>
    match c w with
    | (Returned a, w') => k a w'
    | (Thrown e, w') => (Thrown e, w')
    end.

Definition throw {A : Type} (message : string) : M A :=
  fun w => (Thrown message, w).

(** [try { c } catch (e) { handler(e.message) }]. *)
Definition try_catch {A : Type} (c : M A) (handler : string -> M A) : M A :=
  fun w =>
    match c w with
    | (Returned a, w') => (Returned a, w')
    | (Thrown e, w') => handler e w'
    end.

Definition get : M World := fun w => (Returned w, w).

Definition modify (f : World -> World) : M unit := fun w => (Returned tt, f w).

Notation "x <- c ;; k" := (bind c (fun x => k))
  (at level 61, c at next level, right associativity).
Notation "c ;;; k" := (bind c (fun _ => k))
  (at level 61, right associativity).

Fixpoint for_each {A : Type} (l : list A) (body : A -> M unit) : M unit :=
  match l with
  | [] => ret tt
  | x :: rest => body x ;;; for_each rest body
  end.

Definition uuid_generate_v4 : M string :=
  w <- get ;;
  modify (with_next_uuid (S (next_uuid w))) ;;;
  ret ("uuid-" +++ Js.num_toString (Z.of_nat (next_uuid w))).

(* ====================================================================== *)
(** * The store client ([db/client.ts])

    Every operation runs inside [withErrorHandling], so it returns a
    [Result] and never throws.  Primary keys and the unique index of
    [suppressions] are enforced; foreign keys are not checked (the rows the
    worker refers to were read just before). *)
(* ====================================================================== *)

Module DbError.
Record t : Type := mk {
  message : string;
  code : string;
  statusCode : Z
}.

Definition duplicate (entity field : string) : t :=
  mk (entity +++ " with this " +++ field +++ " already exists")
     "DUPLICATE_RECORD" 409.

Definition database_error (message : string) : t :=
  mk message "DATABASE_ERROR" 500.
End DbError.

Inductive Result (A : Type) : Type :=
| ok (value : A)
| err (error : DbError.t).
Arguments ok {A} value.
Arguments err {A} error.

(** A string used as a condition: [undefined], [null] and the empty
    string are falsy. *)
Definition truthy (o : option string) : option string :=
  match o with
  | Some s => if String.eqb s EmptyString then None else Some s
  | None => None
  end.

Module Db.

(** ** messages *)

Definition messages_findById (id : string) : M (Result (option Message.t)) :=
  w <- get ;;
  ret (ok (hd_error (filter (fun m => String.eqb (Message.id m) id) (messages w)))).

Definition messages_update (id : string) (data : MessageUpdate.t)
  : M (Result (option Message.t)) :=
  if MessageUpdate.is_empty data then
    findResult <- messages_findById id ;;
    ret (ok (match findResult with ok v => v | err _ => None end))
  else
    let hit (m : Message.t) := String.eqb (Message.id m) id in
    modify (with_messages
              (map (fun m => if hit m then MessageUpdate.apply data m else m))) ;;;
    w <- get ;;
    ret (ok (hd_error (filter hit (messages w)))).

Definition messages_claimNext : M (Result (option Message.t)) :=
  w <- get ;;
  let '(rows, table) := Sql.claim_next_message "worker" (row_locks w) (messages w) in
  modify (with_messages (fun _ => table)) ;;;
  ret (ok (hd_error rows)).

(** ** suppressions *)

Definition suppression_matches (apiKeyId email : string) (s : Suppression.t) : bool :=
  String.eqb (Suppression.apiKeyId s) apiKeyId
  && String.eqb (Suppression.email s) email.

Definition suppressions_findByEmail {rt : Js.Strings} (apiKeyId email : string)
  : M (Result (option Suppression.t)) :=
  w <- get ;;
  ret (ok (hd_error (filter (suppression_matches apiKeyId (Js.toLowerCase email))
                            (suppressions w)))).

Definition suppressions_create {rt : Js.Strings} (data : SuppressionInsert.t)
  : M (Result Suppression.t) :=
  let normalizedEmail := Js.toLowerCase (SuppressionInsert.email data) in
  let same := suppression_matches (SuppressionInsert.api_key_id data) normalizedEmail in
  w <- get ;;
  if existsb same (suppressions w) then
    (* ON CONFLICT (api_key_id, email) DO NOTHING: no row comes back *)
    match filter same (suppressions w) with
    | existing :: _ => ret (ok existing)
    | [] => ret (err (DbError.database_error "Cannot read properties of undefined"))
    end
  else
    match truthy (SuppressionInsert.id data) with
    | Some id =>
        if existsb (fun s => String.eqb (Suppression.id s) id) (suppressions w) then
          (* unique violation 23505 on the primary key *)
          ret (err (DbError.duplicate "Suppression" "suppressions_pkey"))
        else
          let row := Suppression.mk id (SuppressionInsert.api_key_id data)
                       normalizedEmail (SuppressionInsert.reason data) (now w) in
          modify (with_suppressions (fun t => t ++ [row])) ;;;
          ret (ok row)
    | None =>
        id <- uuid_generate_v4 ;;
        let row := Suppression.mk id (SuppressionInsert.api_key_id data)
                     normalizedEmail (SuppressionInsert.reason data) (now w) in
        modify (with_suppressions (fun t => t ++ [row])) ;;;
        ret (ok row)
    end.

(** ** domains *)

Definition domains_findByDomain (apiKeyId domain : string)
  : M (Result (option Domain.t)) :=
  w <- get ;;
  ret (ok (hd_error (filter (fun d => String.eqb (Domain.apiKeyId d) apiKeyId
                                      && String.eqb (Domain.domain d) domain)
                            (domains w)))).

(** ** webhooks *)

Definition webhooks_findById (id : string) : M (Result (option Webhook.t)) :=
  w <- get ;;
  ret (ok (hd_error (filter (fun h => String.eqb (Webhook.id h) id) (webhooks w)))).

(** [ORDER BY created_at DESC], stable. *)
Fixpoint insert_desc (x : Webhook.t) (l : list Webhook.t) : list Webhook.t :=
  match l with
  | [] => [x]
  | y :: rest =>
      if Webhook.createdAt y <? Webhook.createdAt x then x :: y :: rest
      else y :: insert_desc x rest
  end.

Definition order_by_created_at_desc (l : list Webhook.t) : list Webhook.t :=
  fold_left (fun acc x => insert_desc x acc) l [].

Definition webhooks_findActiveByApiKey (apiKeyId : string)
  : M (Result (list Webhook.t)) :=
  w <- get ;;
  ret (ok (order_by_created_at_desc
             (filter (fun h => String.eqb (Webhook.apiKeyId h) apiKeyId
                               && Webhook.active h) (webhooks w)))).

(** ** webhook_deliveries *)

Definition new_delivery (id : string) (created : Z) (data : WebhookDeliveryInsert.t)
  : WebhookDelivery.t :=
  WebhookDelivery.mk id (WebhookDeliveryInsert.webhook_id data)
    (truthy (WebhookDeliveryInsert.message_id data))
    (WebhookDeliveryInsert.event data) (WebhookDeliveryInsert.payload data)
    (match WebhookDeliveryInsert.status data with
     | Some s => s
     | None => WebhookDeliveryStatus.PENDING
     end)
    (match WebhookDeliveryInsert.attempts data with
     | Some n => n
     | None => 0
     end)
    None created.

Definition webhookDeliveries_create (data : WebhookDeliveryInsert.t)
  : M (Result WebhookDelivery.t) :=
  w <- get ;;
  match truthy (WebhookDeliveryInsert.id data) with
  | Some id =>
      if existsb (fun d => String.eqb (WebhookDelivery.id d) id)
                 (webhook_deliveries w) then
        ret (err (DbError.duplicate "WebhookDelivery" "webhook_deliveries_pkey"))
      else
        let row := new_delivery id (now w) data in
        modify (with_webhook_deliveries (fun t => t ++ [row])) ;;;
        ret (ok row)
  | None =>
      id <- uuid_generate_v4 ;;
      let row := new_delivery id (now w) data in
      modify (with_webhook_deliveries (fun t => t ++ [row])) ;;;
      ret (ok row)
  end.

Definition webhookDeliveries_update (id : string) (data : WebhookDeliveryUpdate.t)
  : M (Result (option WebhookDelivery.t)) :=
  let hit (d : WebhookDelivery.t) := String.eqb (WebhookDelivery.id d) id in
  if WebhookDeliveryUpdate.is_empty data then
    w <- get ;;
    ret (ok (hd_error (filter hit (webhook_deliveries w))))
  else
    modify (with_webhook_deliveries
              (map (fun d => if hit d then WebhookDeliveryUpdate.apply data d else d))) ;;;
    w <- get ;;
    ret (ok (hd_error (filter hit (webhook_deliveries w)))).

Definition webhookDeliveries_claimNext : M (Result (option WebhookDelivery.t)) :=
  w <- get ;;
  let '(rows, table) :=
    Sql.claim_next_webhook_delivery (now w) (row_locks w) (webhook_deliveries w) in
  modify (with_webhook_deliveries (fun _ => table)) ;;;
  ret (ok (hd_error rows)).

End Db.

(* ====================================================================== *)
(** * Configuration and the environment *)
(* ====================================================================== *)

Record WorkerConfig : Type := mkConfig {
  maxRetries : Z;
  retryDelayMs : Z;
  maxWebhookRetries : Z
}.

(** [loadConfig] with an empty environment. *)
Definition default_config : WorkerConfig := mkConfig 3 5000 5.

(** What [transporter.sendMail] does with a mail: it resolves, it rejects
    with an error object, or something is thrown that [send] does not turn
    into a result (its [catch] block faults on a rejection that is not an
    object). *)
Inductive TransportOutcome : Type :=
| Accepted (messageId response : string)
| Refused (error : NodeError.t)
| Faulted (message : string).

(** What [fetch] does with a request. *)
Inductive FetchOutcome : Type :=
| Response (status : Z) (statusText : string)
| AbortError
| FetchFailed (message : string).

(** Both oracles see the calls made before. *)
Record Env : Type := mkEnv {
  sendMail : list SmtpCall -> SmtpCall -> TransportOutcome;
  fetch : list HttpRequest.t -> HttpRequest.t -> FetchOutcome
}.

Inductive SendResult : Type :=
| SendOk (messageId response : string)
| SendFailed (error : SmtpError.t).

(** [SmtpClient.send]. *)
Definition SmtpClient_send (env : Env) (message : EmailMessage.t)
    (dkim : option DkimConfig.t) : M SendResult :=
  w <- get ;;
  let call := mkSmtpCall message dkim in
  modify (with_smtp_log (smtp_log w ++ [call])) ;;;
  match sendMail env (smtp_log w) call with
  | Accepted messageId response => ret (SendOk messageId response)
  | Refused e => ret (SendFailed (classifySmtpError e))
  | Faulted message => throw message
  end.

(* ====================================================================== *)
(** * The email processor ([processors/email.processor.ts]) *)
(* ====================================================================== *)

(** [String.prototype.split] on a one-character separator. *)
Fixpoint split (sep : ascii) (s : string) : list string :=
  match s with
  | EmptyString => [EmptyString]
  | String c s' =>
      if Ascii.eqb c sep then EmptyString :: split sep s'
      else match split sep s' with
           | piece :: pieces => String c piece :: pieces
           | [] => [String c EmptyString]
           end
  end.

Module EmailProcessor.

Record ProcessResult : Type := mkResult {
  messageId : string;
  success : bool;
  status : MessageStatus.t;
  error : option string;
  shouldRetry : option bool
}.

Definition triggerWebhookEvent (apiKeyId messageId event : string)
    (additionalPayload : list (string * Json.t)) : M unit :=
  try_catch
    (webhooksResult <- Db.webhooks_findActiveByApiKey apiKeyId ;;
     match webhooksResult with
     | err _ => ret tt
     | ok [] => ret tt
     | ok hooks =>
         w <- get ;;
         let payload :=
           Json.JObj (Json.spread
             [("event", Json.JStr event);
              ("timestamp", Json.JStr (Js.toISOString (now w)));
              ("messageId", Json.JStr messageId)]
             additionalPayload) in
         for_each hooks (fun webhook =>
           if Js.includes_str (Webhook.events webhook) event then
             Db.webhookDeliveries_create
               (WebhookDeliveryInsert.mk None (Webhook.id webhook) (Some messageId)
                  event payload (Some WebhookDeliveryStatus.PENDING) None) ;;;
             ret tt
           else ret tt)
     end)
    (fun _ => ret tt).

Definition getDkimConfig (message : Message.t) : M (option DkimConfig.t) :=
  try_catch
    (match truthy (nth_error (split "@" (Message.fromAddress message)) 1) with
     | None => ret None
     | Some fromDomain =>
         domainResult <- Db.domains_findByDomain (Message.apiKeyId message) fromDomain ;;
         match domainResult with
         | ok (Some domain) =>
             match Domain.verified domain, truthy (Domain.dkimPrivateKey domain) with
             | true, Some key =>
                 ret (Some (DkimConfig.mk (Domain.domain domain)
                                          (Domain.dkimSelector domain) key))
             | _, _ => ret None
             end
         | _ => ret None
         end
     end)
    (fun _ => ret None).

(** [{ suppressed, reason }] as an option: [Some reason] when suppressed. *)
Definition checkSuppression {rt : Js.Strings} (apiKeyId email : string)
  : M (option SuppressionReason.t) :=
  result <- Db.suppressions_findByEmail apiKeyId email ;;
  match result with
  | err _ => ret None
  | ok (Some s) => ret (Some (Suppression.reason s))
  | ok None => ret None
  end.

Definition addToSuppression {rt : Js.Strings} (apiKeyId email : string)
    (reason : SuppressionReason.t) : M unit :=
  Db.suppressions_create (SuppressionInsert.mk None apiKeyId email reason) ;;;
  ret tt.

Definition bounce_payload (error : SmtpError.t) : list (string * Json.t) :=
  [("bounceType", Json.JStr "hard")]
  ++ match SmtpError.responseCode error with
     | Some rc => [("bounceCode", Json.JNum rc)]
     | None => []
     end
  ++ [("bounceMessage", Json.JStr (SmtpError.message error))].

Definition processMessage {rt : Js.Strings} (config : WorkerConfig) (env : Env)
    (message : Message.t) : M ProcessResult :=
  let messageId := Message.id message in
  suppression <- checkSuppression (Message.apiKeyId message) (Message.toAddress message) ;;
  match suppression with
  | Some reason =>
      let why := "Recipient suppressed: " +++ SuppressionReason.toString reason in
      w <- get ;;
      Db.messages_update messageId
        (MessageUpdate.mk (Some MessageStatus.REJECTED) None None None
           (Some (Some (now w))) (Some (Some why))) ;;;
      ret (mkResult messageId false MessageStatus.REJECTED (Some why) (Some false))
  | None =>
      dkimConfig <- getDkimConfig message ;;
      sendResult <- SmtpClient_send env
        (EmailMessage.mk (Message.fromAddress message) (Message.toAddress message)
           (match Message.subject message with Some s => s | None => EmptyString end)
           (Message.body message) (Message.htmlBody message)
           (Some ("<" +++ messageId +++ "@mailforge>")))
        dkimConfig ;;
      match sendResult with
      | SendOk smtpMessageId _ =>
          w <- get ;;
          Db.messages_update messageId
            (MessageUpdate.mk (Some MessageStatus.SENT) None (Some (Some (now w)))
               None None None) ;;;
          triggerWebhookEvent (Message.apiKeyId message) messageId "message.sent"
            [("smtpMessageId", Json.JStr smtpMessageId)] ;;;
          ret (mkResult messageId true MessageStatus.SENT None None)
      | SendFailed error =>
          let newAttempts := Message.attempts message + 1 in
          let maxRetriesReached := maxRetries config <=? newAttempts in
          let shouldRetry := SmtpError.shouldRetry error && negb maxRetriesReached in
          if shouldRetry then
            Db.messages_update messageId
              (MessageUpdate.mk (Some MessageStatus.QUEUED) (Some newAttempts)
                 None None None (Some (Some (SmtpError.message error)))) ;;;
            ret (mkResult messageId false MessageStatus.QUEUED
                   (Some (SmtpError.message error)) (Some true))
          else
            w <- get ;;
            Db.messages_update messageId
              (MessageUpdate.mk (Some MessageStatus.FAILED) (Some newAttempts)
                 None None (Some (Some (now w)))
                 (Some (Some (SmtpError.message error)))) ;;;
            (if isHardBounce error then
               addToSuppression (Message.apiKeyId message) (Message.toAddress message)
                 SuppressionReason.HARD_BOUNCE ;;;
               triggerWebhookEvent (Message.apiKeyId message) messageId
                 "message.bounced" (bounce_payload error)
             else
               triggerWebhookEvent (Message.apiKeyId message) messageId
                 "message.failed"
                 [("failureReason", Json.JStr (SmtpError.message error))]) ;;;
            ret (mkResult messageId false MessageStatus.FAILED
                   (Some (SmtpError.message error)) (Some false))
      end
  end.

Definition processNext {rt : Js.Strings} (config : WorkerConfig) (env : Env)
  : M (option ProcessResult) :=
  claimResult <- Db.messages_claimNext ;;
  match claimResult with
  | err _ => ret None
  | ok None => ret None
  | ok (Some message) =>
      try_catch
        (r <- processMessage config env message ;; ret (Some r))
        (fun error_message =>
           try_catch
             (Db.messages_update (Message.id message)
                (MessageUpdate.mk (Some MessageStatus.QUEUED)
                   (Some (Message.attempts message + 1)) None None None
                   (Some (Some ("Processing error: " +++ error_message)))) ;;;
              ret tt)
             (fun _ => ret tt) ;;;
           ret (Some (mkResult (Message.id message) false MessageStatus.QUEUED
                        (Some error_message) (Some true))))
  end.

End EmailProcessor.

(* ====================================================================== *)
(** * The webhook processor ([processors/webhook.processor.ts]) *)
(* ====================================================================== *)

Module WebhookProcessor.

Record WebhookProcessResult : Type := mkResult {
  deliveryId : string;
  success : bool;
  status : WebhookDeliveryStatus.t;
  httpStatus : option Z;
  error : option string;
  shouldRetry : option bool
}.

Definition generateSignature (payload secret : string) : string :=
  Sha256.hmac_hex secret payload.

(** [timestamp] is [Date.now().toString()]. *)
Definition generateWebhookHeaders (payload secret event : string)
  : M (list (string * string)) :=
  w <- get ;;
  let timestamp := Js.num_toString (now w) in
  let signatureData := timestamp +++ "." +++ payload in
  let signature := generateSignature signatureData secret in
  ret [("Content-Type", "application/json");
       ("X-OpenSend-Event", event);
       ("X-OpenSend-Timestamp", timestamp);
       ("X-OpenSend-Signature", "v1=" +++ signature)].

Definition getWebhook (webhookId : string) : M (option Webhook.t) :=
  result <- Db.webhooks_findById webhookId ;;
  match result with
  | err _ => ret None
  | ok v => ret v
  end.

Record DispatchResult : Type := mkDispatch {
  d_success : bool;
  d_status : option Z;
  d_error : option string
}.

Definition dispatchWebhook (env : Env) (delivery : WebhookDelivery.t)
    (webhook : Webhook.t) : M DispatchResult :=
  let payloadStr := Json.stringify (WebhookDelivery.payload delivery) in
  headers <- generateWebhookHeaders payloadStr (Webhook.secret webhook)
               (WebhookDelivery.event delivery) ;;
  w <- get ;;
  let request := HttpRequest.mk (Webhook.url webhook) "POST" headers payloadStr in
  modify (with_http_log (http_log w ++ [request])) ;;;
  match fetch env (http_log w) request with
  | Response status statusText =>
      if (200 <=? status) && (status <? 300) then
        ret (mkDispatch true (Some status) None)
      else
        ret (mkDispatch false (Some status)
               (Some ("HTTP " +++ Js.num_toString status +++ ": " +++ statusText)))
  | AbortError =>
      ret (mkDispatch false None (Some "Request timed out after 30 seconds"))
  | FetchFailed message =>
      ret (mkDispatch false None (Some ("Request failed: " +++ message)))
  end.

Definition write_back (deliveryId : string) (status : WebhookDeliveryStatus.t)
    (attempts : Z) : M unit :=
  w <- get ;;
  Db.webhookDeliveries_update deliveryId
    (WebhookDeliveryUpdate.mk (Some status) (Some attempts) (Some (Some (now w)))) ;;;
  ret tt.

Definition processDelivery (config : WorkerConfig) (env : Env)
    (delivery : WebhookDelivery.t) : M WebhookProcessResult :=
  let deliveryId := WebhookDelivery.id delivery in
  let maxRetries := maxWebhookRetries config in
  webhook <- getWebhook (WebhookDelivery.webhookId delivery) ;;
  match webhook with
  | None =>
      write_back deliveryId WebhookDeliveryStatus.FAILED
        (WebhookDelivery.attempts delivery + 1) ;;;
      ret (mkResult deliveryId false WebhookDeliveryStatus.FAILED None
             (Some "Webhook configuration not found") (Some false))
  | Some webhook =>
      if negb (Webhook.active webhook) then
        write_back deliveryId WebhookDeliveryStatus.FAILED
          (WebhookDelivery.attempts delivery + 1) ;;;
        ret (mkResult deliveryId false WebhookDeliveryStatus.FAILED None
               (Some "Webhook is inactive") (Some false))
      else
        result <- dispatchWebhook env delivery webhook ;;
        let newAttempts := WebhookDelivery.attempts delivery + 1 in
        if d_success result then
          write_back deliveryId WebhookDeliveryStatus.DELIVERED newAttempts ;;;
          ret (mkResult deliveryId true WebhookDeliveryStatus.DELIVERED
                 (d_status result) None None)
        else
          let maxRetriesReached := maxRetries <=? newAttempts in
          let shouldRetry := negb maxRetriesReached in
          if shouldRetry then
            write_back deliveryId WebhookDeliveryStatus.PENDING newAttempts ;;;
            ret (mkResult deliveryId false WebhookDeliveryStatus.PENDING
                   (d_status result) (d_error result) (Some true))
          else
            write_back deliveryId WebhookDeliveryStatus.FAILED newAttempts ;;;
            ret (mkResult deliveryId false WebhookDeliveryStatus.FAILED
                   (d_status result) (d_error result) (Some false))
  end.

Definition processNext (config : WorkerConfig) (env : Env)
  : M (option WebhookProcessResult) :=
  claimResult <- Db.webhookDeliveries_claimNext ;;
  match claimResult with
  | err _ => ret None
  | ok None => ret None
  | ok (Some delivery) =>
      try_catch
        (r <- processDelivery config env delivery ;; ret (Some r))
        (fun error_message =>
           try_catch
             (write_back (WebhookDelivery.id delivery) WebhookDeliveryStatus.PENDING
                (WebhookDelivery.attempts delivery + 1))
             (fun _ => ret tt) ;;;
           ret (Some (mkResult (WebhookDelivery.id delivery) false
                        WebhookDeliveryStatus.PENDING None
                        (Some error_message) (Some true))))
  end.

End WebhookProcessor.

(* ====================================================================== *)
(** * Definitions used by the statements: the specification's table,
      readings of the processors' steps, and concrete stores *)
(* ====================================================================== *)

(** The classification table of the specification, read top to bottom:
    a network error code first (refused, reset, timeout, not found, host
    or network unreachable, socket, connection), then the response code. *)
Definition spec_network_code (error : NodeError.t) : bool :=
  match NodeError.code error with
  | Some c =>
      Js.includes_str
        ["ECONNREFUSED"; "ECONNRESET"; "ETIMEDOUT"; "ENOTFOUND";
         "EHOSTUNREACH"; "ENETUNREACH"; "ESOCKET"; "ECONNECTION"] c
  | None => false
  end.

Definition spec_kind (error : NodeError.t) : SmtpErrorType.t :=
  if spec_network_code error then SmtpErrorType.connection
  else
    match NodeError.responseCode error with
    | Some rc =>
        if Js.includes_num [450; 451; 452] rc || ((400 <=? rc) && (rc <? 500))
        then SmtpErrorType.temporary
        else if (500 <=? rc) && (rc <? 600) then SmtpErrorType.permanent
        else SmtpErrorType.unknown
    | None => SmtpErrorType.unknown
    end.

Definition spec_retry (kind : SmtpErrorType.t) : bool :=
  match kind with
  | SmtpErrorType.connection | SmtpErrorType.temporary => true
  | SmtpErrorType.permanent | SmtpErrorType.unknown => false
  end.

(** C2, as the specification words it for the message queue: the claim
    itself would change the [attempts] counter of the row it claims. *)
Definition claim_next_message_counts_attempt : Prop :=
  forall (worker : string) (locked : list string) (rows : list Message.t)
         (m r : Message.t) (rest table' : list Message.t),
    NoDup (map Message.id rows) ->
    Sql.select_next_queued locked rows = Some m ->
    Sql.claim_next_message worker locked rows = (r :: rest, table') ->
    Message.attempts r <> Message.attempts m.

Definition hook_a : Webhook.t :=
  Webhook.mk "wh-a" "key-1" "https://hooks.example.test/a"
    ["message.sent"; "message.bounced"; "message.failed"] "s3cret" true 10.

Definition hook_b : Webhook.t :=
  Webhook.mk "wh-b" "key-1" "https://hooks.example.test/b"
    ["message.sent"] "other" true 20.

Definition msg_a : Message.t :=
  Message.mk "m-a" "key-1" None "email" MessageStatus.QUEUED
    "sender@t.example" "Gone@Example.com" (Some "Hello") (Some "Body") None None
    0 50 None None None None.

Definition msg_b : Message.t :=
  Message.mk "m-b" "key-1" None "email" MessageStatus.QUEUED
    "sender@t.example" "someone@example.com" (Some "Hi") (Some "Text") None None
    7 60 None None None None.

Definition del_a : WebhookDelivery.t :=
  WebhookDelivery.mk "d-a" "wh-a" (Some "m-a") "message.sent"
    (Json.JObj [("event", Json.JStr "message.sent");
                ("timestamp", Json.JStr "1970-01-01T00:00:00.100Z");
                ("messageId", Json.JStr "m-a")])
    WebhookDeliveryStatus.PENDING 0 None 100.

Ltac solve_nodup :=
  repeat (apply NoDup_cons; [simpl; intuition discriminate |]); apply NoDup_nil.

(** The mail [processMessage] hands to the SMTP client. *)
Definition mail_of (message : Message.t) : EmailMessage.t :=
  EmailMessage.mk (Message.fromAddress message) (Message.toAddress message)
    (match Message.subject message with Some s => s | None => EmptyString end)
    (Message.body message) (Message.htmlBody message)
    (Some ("<" +++ Message.id message +++ "@mailforge>")).

(** The DKIM configuration [getDkimConfig] finds in a store. *)
Definition dkim_for (w : World) (message : Message.t) : option DkimConfig.t :=
  match fst (EmailProcessor.getDkimConfig message w) with
  | Returned d => d
  | Thrown _ => None
  end.

(** What the transport answers when [message] is sent from world [w]. *)
Definition transport_outcome (env : Env) (w : World) (message : Message.t)
  : TransportOutcome :=
  sendMail env (smtp_log w) (mkSmtpCall (mail_of message) (dkim_for w message)).

(** The suppression rows [findByEmail] looks through for a message. *)
Definition suppression_rows_for {rt : Js.Strings} (w : World) (message : Message.t)
  : list Suppression.t :=
  filter (Db.suppression_matches (Message.apiKeyId message)
            (Js.toLowerCase (Message.toAddress message))) (suppressions w).

(** [UPDATE messages SET ... WHERE id = ...] on the table. *)
Definition update_rows (id : string) (data : MessageUpdate.t)
    (rows : list Message.t) : list Message.t :=
  map (fun m => if String.eqb (Message.id m) id then MessageUpdate.apply data m else m) rows.

(** The specification's reading of a status write, column by column: the
    row [m] with its status, attempt counter, [failed_at] and failure
    reason as given, and every other column as it was. *)
Definition row_written (m : Message.t) (status : MessageStatus.t) (attempts : Z)
    (failedAt : option Z) (failureReason : option string) : Message.t :=
  Message.mk (Message.id m) (Message.apiKeyId m) (Message.idempotencyKey m)
    (Message.type m) status (Message.fromAddress m) (Message.toAddress m)
    (Message.subject m) (Message.body m) (Message.htmlBody m) (Message.metadata m)
    attempts (Message.createdAt m) (Message.sentAt m) (Message.deliveredAt m)
    failedAt failureReason.

(** The table [rows] with every row of id [id] replaced by its image under
    [f] and every other row left as it is, in place. *)
Definition rows_with (id : string) (f : Message.t -> Message.t)
    (rows : list Message.t) : list Message.t :=
  map (fun m => if String.eqb (Message.id m) id then f m else m) rows.

(** The unique index [(api_key_id, email)] of [suppressions]. *)
Definition suppressions_unique (rows : list Suppression.t) : Prop :=
  NoDup (map (fun s => (Suppression.apiKeyId s, Suppression.email s)) rows).

(** The webhooks an event of a tenant is delivered to, in the order the
    store lists them. *)
Definition subscribers (w : World) (apiKeyId event : string) : list Webhook.t :=
  filter (fun h => Js.includes_str (Webhook.events h) event)
    (Db.order_by_created_at_desc
       (filter (fun h => String.eqb (Webhook.apiKeyId h) apiKeyId && Webhook.active h)
               (webhooks w))).

Definition event_payload (event messageId : string) (time : Z)
    (extra : list (string * Json.t)) : Json.t :=
  Json.JObj (Json.spread
    [("event", Json.JStr event);
     ("timestamp", Json.JStr (Js.toISOString time));
     ("messageId", Json.JStr messageId)] extra).

Definition uuid (n : nat) : string := "uuid-" +++ Js.num_toString (Z.of_nat n).

(** The rows [triggerWebhookEvent] inserts, one per subscriber. *)
Fixpoint enqueued (hooks : list Webhook.t) (messageId event : string)
    (payload : Json.t) (time : Z) (n : nat) : list WebhookDelivery.t :=
  match hooks with
  | [] => []
  | h :: rest =>
      WebhookDelivery.mk (uuid n) (Webhook.id h) (truthy (Some messageId)) event
        payload WebhookDeliveryStatus.PENDING 0 None time
      :: enqueued rest messageId event payload time (S n)
  end.

(** [w'] is [w] with [added] appended to [webhook_deliveries] (and as many
    generated ids consumed). *)
Definition only_deliveries_added (w w' : World) (added : list WebhookDelivery.t) : Prop :=
  messages w' = messages w
  /\ suppressions w' = suppressions w
  /\ domains w' = domains w
  /\ webhooks w' = webhooks w
  /\ webhook_deliveries w' = webhook_deliveries w ++ added
  /\ row_locks w' = row_locks w
  /\ now w' = now w
  /\ next_uuid w' = (next_uuid w + List.length added)%nat
  /\ smtp_log w' = smtp_log w
  /\ http_log w' = http_log w.

Definition lower_hex (c : ascii) : bool :=
  existsb (Ascii.eqb c) (list_ascii_of_string "0123456789abcdef").

Fixpoint all_chars (p : ascii -> bool) (s : string) : bool :=
  match s with
  | EmptyString => true
  | String c s' => p c && all_chars p s'
  end.

Definition env_503 : Env :=
  mkEnv (fun _ _ => Accepted "<id@relay>" "250 OK")
        (fun _ _ => Response 503 "Service Unavailable").

Definition world_hook : World :=
  mkWorld [] [] [] [hook_a] [del_a] [] 1000 0 [] [].

(** [n] wake-ups of the dispatcher, [gap] milliseconds apart. *)
Fixpoint webhook_polls (config : WorkerConfig) (env : Env) (gap : Z) (n : nat)
    (w : World) : World :=
  match n with
  | O => w
  | S n' =>
      webhook_polls config env gap n'
        (snd (WebhookProcessor.processNext config env (advance gap w)))
  end.

(** What a run shows of a delivery: the POSTs made so far, and the status
    and the counter of each row. *)
Definition observed (w : World)
  : nat * list (WebhookDeliveryStatus.t * Z) :=
  (List.length (http_log w),
   map (fun d => (WebhookDelivery.status d, WebhookDelivery.attempts d))
       (webhook_deliveries w)).

Definition env_550 : Env :=
  mkEnv (fun _ _ => Refused (NodeError.mk "550 5.1.1 user unknown"
                               (Some "EENVELOPE") (Some 550)))
        (fun _ _ => Response 200 "OK").

Definition env_421 : Env :=
  mkEnv (fun _ _ => Refused (NodeError.mk "421 4.3.2 try again later"
                               (Some "EENVELOPE") (Some 421)))
        (fun _ _ => Response 200 "OK").

Definition env_fault : Env :=
  mkEnv (fun _ _ => Faulted "Cannot read properties of undefined (reading 'code')")
        (fun _ _ => Response 200 "OK").

Definition sup_gone : Suppression.t :=
  Suppression.mk "s-1" "key-1" "gone@example.com" SuppressionReason.MANUAL 5.

Definition world_mail : World :=
  mkWorld [msg_b; msg_a] [] [] [hook_b; hook_a] [] [] 1000 0 [] [].

Definition world_suppressed : World :=
  mkWorld [msg_a] [sup_gone] [] [hook_a] [] [] 1000 0 [] [].

Definition world_worn : World :=
  mkWorld [msg_b] [] [] [hook_a] [] [] 1000 0 [] [].

(** An endpoint that answers 500 to its first four requests, then 200. *)
Definition env_recovers : Env :=
  mkEnv (fun _ _ => Accepted "<id@relay>" "250 OK")
        (fun earlier _ =>
           if (List.length earlier <? 4)%nat then Response 500 "Internal Server Error"
           else Response 200 "OK").

(* ====================================================================== *)
(** * More of the store client ([db/client.ts]) *)
(* ====================================================================== *)

Module MessageType.
Inductive t : Type := email | sms.

Definition toString (ty : t) : string :=
  match ty with
  | email => "email"
  | sms => "sms"
  end.
End MessageType.

(** The keys of [MessageInsert] that [messages.create] reads. *)
Module MessageInsert.
Record t : Type := mk {
  id : option string;
  api_key_id : string;
  idempotency_key : option string;
  type : MessageType.t;
  status : option MessageStatus.t;
  from_address : string;
  to_address : string;
  subject : option string;
  body : option string;
  html_body : option string;
  metadata : option Json.t;
  attempts : option Z
}.
End MessageInsert.

Module Store.

(** ** messages *)

Definition messages_findByIdempotencyKey (apiKeyId key : string)
  : M (Result (option Message.t)) :=
  w <- get ;;
  ret (ok (hd_error
             (filter (fun m =>
                        String.eqb (Message.apiKeyId m) apiKeyId
                        && match Message.idempotencyKey m with
                           | Some k => String.eqb k key
                           | None => false
                           end)
                     (messages w)))).

(** The row an insert stores: absent and falsy optional keys take the
    column default. *)
Definition new_message (id : string) (created : Z) (data : MessageInsert.t)
  : Message.t :=
  Message.mk id (MessageInsert.api_key_id data)
    (truthy (MessageInsert.idempotency_key data))
    (MessageType.toString (MessageInsert.type data))
    (match MessageInsert.status data with
     | Some s => s
     | None => MessageStatus.QUEUED
     end)
    (MessageInsert.from_address data) (MessageInsert.to_address data)
    (truthy (MessageInsert.subject data)) (truthy (MessageInsert.body data))
    (truthy (MessageInsert.html_body data)) (MessageInsert.metadata data)
    (match MessageInsert.attempts data with
     | Some n => n
     | None => 0
     end)
    created None None None None.

(** [UNIQUE(api_key_id, idempotency_key)]: rows without a key never
    collide. *)
Definition idempotency_taken (apiKeyId : string) (key : option string)
    (rows : list Message.t) : bool :=
  match key with
  | None => false
  | Some k =>
      existsb (fun m =>
                 String.eqb (Message.apiKeyId m) apiKeyId
                 && match Message.idempotencyKey m with
                    | Some k' => String.eqb k' k
                    | None => false
                    end) rows
  end.

Definition messages_create (data : MessageInsert.t) : M (Result Message.t) :=
  w <- get ;;
  let key := truthy (MessageInsert.idempotency_key data) in
  match truthy (MessageInsert.id data) with
  | Some id =>
      if existsb (fun m => String.eqb (Message.id m) id) (messages w) then
        ret (err (DbError.duplicate "Message" "messages_pkey"))
      else if idempotency_taken (MessageInsert.api_key_id data) key (messages w) then
        ret (err (DbError.duplicate "Message"
                    "messages_api_key_id_idempotency_key_key"))
      else
        let row := new_message id (now w) data in
        modify (with_messages (fun t => t ++ [row])) ;;;
        ret (ok row)
  | None =>
      if idempotency_taken (MessageInsert.api_key_id data) key (messages w) then
        ret (err (DbError.duplicate "Message"
                    "messages_api_key_id_idempotency_key_key"))
      else
        id <- uuid_generate_v4 ;;
        let row := new_message id (now w) data in
        modify (with_messages (fun t => t ++ [row])) ;;;
        ret (ok row)
  end.

(** ** suppressions *)

Definition suppressions_isEmailSuppressed {rt : Js.Strings} (apiKeyId email : string)
  : M (Result bool) :=
  w <- get ;;
  ret (ok (existsb (Db.suppression_matches apiKeyId (Js.toLowerCase email))
                   (suppressions w))).

(** [DELETE ... WHERE api_key_id = ... AND email = ...]; the answer is
    [result.count > 0]. *)
Definition suppressions_delete {rt : Js.Strings} (apiKeyId email : string) : M (Result bool) :=
  w <- get ;;
  let hit := Db.suppression_matches apiKeyId (Js.toLowerCase email) in
  modify (with_suppressions (filter (fun s => negb (hit s)))) ;;;
  ret (ok (existsb hit (suppressions w))).

(** ** webhooks *)

Definition with_webhooks (f : list Webhook.t -> list Webhook.t) (w : World) : World :=
  mkWorld (messages w) (suppressions w) (domains w) (f (webhooks w))
          (webhook_deliveries w) (row_locks w) (now w) (next_uuid w)
          (smtp_log w) (http_log w).

(** [DELETE FROM webhooks WHERE id = ...]; the deliveries of the webhook
    go with it ([ON DELETE CASCADE]). *)
Definition webhooks_delete (id : string) : M (Result bool) :=
  w <- get ;;
  modify (with_webhooks (filter (fun h => negb (String.eqb (Webhook.id h) id)))) ;;;
  modify (with_webhook_deliveries
            (filter (fun d => negb (String.eqb (WebhookDelivery.webhookId d) id)))) ;;;
  ret (ok (existsb (fun h => String.eqb (Webhook.id h) id) (webhooks w))).

End Store.

(* ====================================================================== *)
(** * The API services ([queue.service.ts], [email.service.ts],
      [suppression.service.ts]) *)
(* ====================================================================== *)

(** A [Result<T, E>] with the error type of a service. *)
Inductive ResultOf (A E : Type) : Type :=
| Ok (value : A)
| Err (error : E).
Arguments Ok {A E} value.
Arguments Err {A E} error.

Module QueueError.
Record t : Type := mk {
  code : string;
  message : string;
  statusCode : Z
}.

Definition of_db (e : DbError.t) : t :=
  mk (DbError.code e) (DbError.message e) (DbError.statusCode e).
End QueueError.

Module QueueService.

Definition enqueue (message : MessageInsert.t) : M (ResultOf Message.t QueueError.t) :=
  result <- Store.messages_create message ;;
  match result with
  | err e => ret (Err (QueueError.of_db e))
  | ok v => ret (Ok v)
  end.

Definition getStatus (apiKeyId messageId : string)
  : M (ResultOf (option Message.t) QueueError.t) :=
  result <- Db.messages_findById messageId ;;
  match result with
  | err e => ret (Err (QueueError.of_db e))
  | ok (Some m) =>
      if negb (String.eqb (Message.apiKeyId m) apiKeyId) then ret (Ok None)
      else ret (Ok (Some m))
  | ok None => ret (Ok None)
  end.

Definition checkIdempotency (apiKeyId key : string)
  : M (ResultOf (option Message.t) QueueError.t) :=
  result <- Store.messages_findByIdempotencyKey apiKeyId key ;;
  match result with
  | err e => ret (Err (QueueError.of_db e))
  | ok v => ret (Ok v)
  end.

End QueueService.

Module EmailService.

Record SendEmailRequest : Type := mkRequest {
  to : string;
  subject : string;
  body : option string;
  html : option string;
  from : option string;
  reply_to : option string;
  metadata : option Json.t
}.

Record SendEmailResponse : Type := mkResponse {
  id : string;
  status : MessageStatus.t
}.

Record EmailStatusResponse : Type := mkStatus {
  s_id : string;
  s_status : MessageStatus.t;
  s_to : string;
  s_subject : option string;
  s_created_at : string;
  s_sent_at : option string
}.

Record EmailServiceError : Type := mkError {
  code : string;
  message : string;
  field : option string;
  statusCode : Z
}.

Record BatchEmailRequest : Type := mkBatchRequest {
  request : SendEmailRequest;
  idempotency_key : option string
}.

(** A batch item: [{ id, status }] or [{ error: { code, message } }]. *)
Inductive BatchEmailResponseItem : Type :=
| ItemSent (id : string) (status : MessageStatus.t)
| ItemError (code message : string).

Definition DEFAULT_FROM_DOMAIN : string := "opensend.dev".

Definition extractDomain {rt : Js.Strings} (email : string) : string :=
  match split "@" email with
  | [_; domain] => Js.toLowerCase domain
  | _ => EmptyString
  end.

Definition getDefaultFromAddress (_apiKeyId : string) : string :=
  "noreply@" +++ DEFAULT_FROM_DOMAIN.

Definition of_queue (e : QueueError.t) : EmailServiceError :=
  mkError (QueueError.code e) (QueueError.message e) None (QueueError.statusCode e).

(** The steps of [sendEmail] after the idempotency check. *)
Definition send_checked {rt : Js.Strings} (apiKeyId : string) (request : SendEmailRequest)
    (idempotencyKey : option string)
  : M (ResultOf SendEmailResponse EmailServiceError) :=
  suppressionResult <-
    Store.suppressions_isEmailSuppressed apiKeyId (Js.toLowerCase (to request)) ;;
  match suppressionResult with
  | err _ =>
      ret (Err (mkError "DATABASE_ERROR" "Failed to check suppression list" None 500))
  | ok true =>
      ret (Err (mkError "EMAIL_SUPPRESSED"
                  ("Recipient " +++ to request +++ " is on the suppression list")
                  (Some "to") 422))
  | ok false =>
      enqueueResult <-
        QueueService.enqueue
          (MessageInsert.mk None apiKeyId idempotencyKey MessageType.email
             (Some MessageStatus.QUEUED)
             (match from request with
              | Some f => f
              | None => getDefaultFromAddress apiKeyId
              end)
             (Js.toLowerCase (to request)) (Some (subject request))
             (body request) (html request) (metadata request) None) ;;
      match enqueueResult with
      | Err e => ret (Err (of_queue e))
      | Ok m => ret (Ok (mkResponse (Message.id m) (Message.status m)))
      end
  end.

(** The sender check of [sendEmail], then the rest. *)
Definition send_from_checked {rt : Js.Strings} (apiKeyId : string) (request : SendEmailRequest)
    (idempotencyKey : option string)
  : M (ResultOf SendEmailResponse EmailServiceError) :=
  match truthy (from request) with
  | Some sender =>
      let domain := extractDomain sender in
      if negb (String.eqb domain EmptyString)
         && negb (String.eqb domain DEFAULT_FROM_DOMAIN) then
        domainResult <- Db.domains_findByDomain apiKeyId domain ;;
        match domainResult with
        | err _ =>
            ret (Err (mkError "DATABASE_ERROR" "Failed to verify sender domain" None 500))
        | ok (Some d) =>
            if Domain.verified d then send_checked apiKeyId request idempotencyKey
            else
              ret (Err (mkError "DOMAIN_NOT_VERIFIED"
                          ("Domain " +++ domain +++ " is not verified")
                          (Some "from") 403))
        | ok None =>
            ret (Err (mkError "DOMAIN_NOT_VERIFIED"
                        ("Domain " +++ domain +++ " is not verified")
                        (Some "from") 403))
        end
      else send_checked apiKeyId request idempotencyKey
  | None => send_checked apiKeyId request idempotencyKey
  end.

Definition sendEmail {rt : Js.Strings} (apiKeyId : string) (request : SendEmailRequest)
    (idempotencyKey : option string)
  : M (ResultOf SendEmailResponse EmailServiceError) :=
  match truthy idempotencyKey with
  | Some key =>
      existingResult <- QueueService.checkIdempotency apiKeyId key ;;
      match existingResult with
      | Err e => ret (Err (of_queue e))
      | Ok (Some existing) =>
          ret (Ok (mkResponse (Message.id existing) (Message.status existing)))
      | Ok None => send_from_checked apiKeyId request idempotencyKey
      end
  | None => send_from_checked apiKeyId request idempotencyKey
  end.

Definition getEmailStatus (apiKeyId messageId : string)
  : M (ResultOf (option EmailStatusResponse) EmailServiceError) :=
  result <- QueueService.getStatus apiKeyId messageId ;;
  match result with
  | Err e => ret (Err (of_queue e))
  | Ok None => ret (Ok None)
  | Ok (Some m) =>
      ret (Ok (Some (mkStatus (Message.id m) (Message.status m) (Message.toAddress m)
                       (Message.subject m) (Js.toISOString (Message.createdAt m))
                       (option_map Js.toISOString (Message.sentAt m)))))
  end.

Fixpoint batchSend {rt : Js.Strings} (apiKeyId : string) (requests : list BatchEmailRequest)
  : M (list BatchEmailResponseItem) :=
  match requests with
  | [] => ret []
  | r :: rest =>
      result <- sendEmail apiKeyId (request r) (idempotency_key r) ;;
      let item :=
        match result with
        | Ok v => ItemSent (id v) (status v)
        | Err e => ItemError (code e) (message e)
        end in
      items <- batchSend apiKeyId rest ;;
      ret (item :: items)
  end.

End EmailService.

(** [new RecordNotFoundError(entity, id)], by its message, code and
    status. *)
Definition RecordNotFoundError (entity id : string) : DbError.t :=
  DbError.mk
    (if String.eqb id EmptyString then entity +++ " not found"
     else entity +++ " with id " +++ id +++ " not found")
    "RECORD_NOT_FOUND" 404.

Module SuppressionService.

Definition add {rt : Js.Strings} (apiKeyId email : string) (reason : SuppressionReason.t)
  : M (Result Suppression.t) :=
  let normalizedEmail := Js.trim (Js.toLowerCase email) in
  Db.suppressions_create (SuppressionInsert.mk None apiKeyId normalizedEmail reason).

Definition remove {rt : Js.Strings} (apiKeyId email : string) : M (Result bool) :=
  let normalizedEmail := Js.trim (Js.toLowerCase email) in
  existsResult <- Db.suppressions_findByEmail apiKeyId normalizedEmail ;;
  match existsResult with
  | err e => ret (err e)
  | ok None => ret (err (RecordNotFoundError "Suppression" normalizedEmail))
  | ok (Some _) => Store.suppressions_delete apiKeyId normalizedEmail
  end.

Definition isSuppressed {rt : Js.Strings} (apiKeyId email : string) : M (Result bool) :=
  Store.suppressions_isEmailSuppressed apiKeyId (Js.trim (Js.toLowerCase email)).

Definition get {rt : Js.Strings} (apiKeyId email : string) : M (Result (option Suppression.t)) :=
  Db.suppressions_findByEmail apiKeyId (Js.trim (Js.toLowerCase email)).

End SuppressionService.

(** The row a successful [sendEmail] stores. *)
Definition sent_insert {rt : Js.Strings} (apiKeyId : string)
    (request : EmailService.SendEmailRequest)
    (idempotencyKey : option string) : MessageInsert.t :=
  MessageInsert.mk None apiKeyId idempotencyKey MessageType.email
    (Some MessageStatus.QUEUED)
    (match EmailService.from request with
     | Some f => f
     | None => EmailService.getDefaultFromAddress apiKeyId
     end)
    (Js.toLowerCase (EmailService.to request)) (Some (EmailService.subject request))
    (EmailService.body request) (EmailService.html request)
    (EmailService.metadata request) None.

Definition sent_row {rt : Js.Strings} (w : World) (apiKeyId : string)
    (request : EmailService.SendEmailRequest) (idempotencyKey : option string)
  : Message.t :=
  Store.new_message (uuid (next_uuid w)) (now w)
    (sent_insert apiKeyId request idempotencyKey).

(** [w'] is [w] with one message row appended (and one generated id
    consumed). *)
Definition one_message_added (w w' : World) (row : Message.t) : Prop :=
  messages w' = messages w ++ [row]
  /\ suppressions w' = suppressions w
  /\ domains w' = domains w
  /\ webhooks w' = webhooks w
  /\ webhook_deliveries w' = webhook_deliveries w
  /\ row_locks w' = row_locks w
  /\ now w' = now w
  /\ next_uuid w' = S (next_uuid w)
  /\ smtp_log w' = smtp_log w
  /\ http_log w' = http_log w.

(** The rows of a tenant that carry an idempotency key. *)
Definition keyed_rows (apiKeyId key : string) (rows : list Message.t) : list Message.t :=
  filter (fun m =>
            String.eqb (Message.apiKeyId m) apiKeyId
            && match Message.idempotencyKey m with
               | Some k => String.eqb k key
               | None => false
               end) rows.

(** What one step of the email worker may do to the store: the rows of
    [messages] keep their place and their id and only rows carrying one id
    change, which were [queued]; counters do not go down; at most one
    suppression and one SMTP call are added; deliveries are only added;
    nothing is posted. *)
Definition email_step_frame (w w' : World) : Prop :=
  (exists (f : Message.t -> Message.t) (claimed : string),
      messages w' = map f (messages w)
      /\ forall m, In m (messages w) ->
           Message.id (f m) = Message.id m
           /\ Message.attempts m <= Message.attempts (f m)
           /\ (Message.status m <> MessageStatus.QUEUED -> f m = m)
           /\ (Message.id m <> claimed -> f m = m))
  /\ (exists added, suppressions w' = suppressions w ++ added
                    /\ (List.length added <= 1)%nat)
  /\ (exists added, webhook_deliveries w' = webhook_deliveries w ++ added)
  /\ (exists calls, smtp_log w' = smtp_log w ++ calls
                    /\ (List.length calls <= 1)%nat)
  /\ domains w' = domains w
  /\ webhooks w' = webhooks w
  /\ http_log w' = http_log w.

(** The request [dispatchWebhook] posts for a delivery from a store. *)
Definition webhook_request (w : World) (delivery : WebhookDelivery.t)
    (webhook : Webhook.t) : HttpRequest.t :=
  let payloadStr := Json.stringify (WebhookDelivery.payload delivery) in
  let timestamp := Js.num_toString (now w) in
  HttpRequest.mk (Webhook.url webhook) "POST"
    [("Content-Type", "application/json");
     ("X-OpenSend-Event", WebhookDelivery.event delivery);
     ("X-OpenSend-Timestamp", timestamp);
     ("X-OpenSend-Signature",
      "v1=" +++ Sha256.hmac_hex (Webhook.secret webhook)
                  (timestamp +++ "." +++ payloadStr))]
    payloadStr.

(** [response.ok]: a response with a status in 200..299. *)
Definition answered_2xx (o : FetchOutcome) : bool :=
  match o with
  | Response status _ => (200 <=? status) && (status <? 300)
  | AbortError => false
  | FetchFailed _ => false
  end.

(** The webhook a claimed delivery is posted to: the stored webhook with
    the delivery's webhook id, if it is active. *)
Definition live_webhook (w : World) (d : WebhookDelivery.t) : option Webhook.t :=
  match hd_error (filter (fun h => String.eqb (Webhook.id h) (WebhookDelivery.webhookId d))
                         (webhooks w)) with
  | Some h => if Webhook.active h then Some h else None
  | None => None
  end.

(** The status [processDelivery] writes back for the row [d] claimed from
    the store [w]. *)
Definition delivery_verdict (config : WorkerConfig) (env : Env) (w : World)
    (d : WebhookDelivery.t) : WebhookDeliveryStatus.t :=
  match live_webhook w d with
  | None => WebhookDeliveryStatus.FAILED
  | Some hook =>
      if answered_2xx (fetch env (http_log w)
                         (webhook_request w (Sql.set_claimed (now w) d) hook))
      then WebhookDeliveryStatus.DELIVERED
      else if maxWebhookRetries config <=? WebhookDelivery.attempts d + 2
           then WebhookDeliveryStatus.FAILED
           else WebhookDeliveryStatus.PENDING
  end.

(** The rows of [webhook_deliveries] after the row [d] was claimed at
    [time] and written back with [status]. *)
Definition delivery_rows_after (time : Z) (d : WebhookDelivery.t)
    (status : WebhookDeliveryStatus.t) (rows : list WebhookDelivery.t)
  : list WebhookDelivery.t :=
  map (fun x => if String.eqb (WebhookDelivery.id x) (WebhookDelivery.id d)
                then WebhookDeliveryUpdate.apply
                       (WebhookDeliveryUpdate.mk (Some status)
                          (Some (WebhookDelivery.attempts d + 2)) (Some (Some time)))
                       (Sql.set_claimed time x)
                else x) rows.

(** What one step of the webhook worker may do to the store: the rows of
    [webhook_deliveries] keep their place, id, webhook, event and payload,
    only rows carrying one id change, which were [pending]; counters do not
    go down; at most one request is posted; no other table is written and
    no mail is sent. *)
Definition webhook_step_frame (w w' : World) : Prop :=
  (exists (f : WebhookDelivery.t -> WebhookDelivery.t) (claimed : string),
      webhook_deliveries w' = map f (webhook_deliveries w)
      /\ forall d, In d (webhook_deliveries w) ->
           WebhookDelivery.id (f d) = WebhookDelivery.id d
           /\ WebhookDelivery.webhookId (f d) = WebhookDelivery.webhookId d
           /\ WebhookDelivery.event (f d) = WebhookDelivery.event d
           /\ WebhookDelivery.payload (f d) = WebhookDelivery.payload d
           /\ WebhookDelivery.attempts d <= WebhookDelivery.attempts (f d)
           /\ (WebhookDelivery.status d <> WebhookDeliveryStatus.PENDING -> f d = d)
           /\ (WebhookDelivery.id d <> claimed -> f d = d))
  /\ (exists posts, http_log w' = http_log w ++ posts
                    /\ (List.length posts <= 1)%nat)
  /\ messages w' = messages w
  /\ suppressions w' = suppressions w
  /\ domains w' = domains w
  /\ webhooks w' = webhooks w
  /\ smtp_log w' = smtp_log w.

(* ====================================================================== *)
(** * The webhook service ([services/webhook.service.ts]): [get] and
      [remove] *)
(* ====================================================================== *)

Module WebhookService.

Definition get (apiKeyId webhookId : string) : M (Result Webhook.t) :=
  result <- Db.webhooks_findById webhookId ;;
  match result with
  | err e => ret (err e)
  | ok None => ret (err (RecordNotFoundError "Webhook" webhookId))
  | ok (Some hook) =>
      if negb (String.eqb (Webhook.apiKeyId hook) apiKeyId) then
        ret (err (RecordNotFoundError "Webhook" webhookId))
      else ret (ok hook)
  end.

Definition remove (apiKeyId webhookId : string) : M (Result bool) :=
  getResult <- get apiKeyId webhookId ;;
  match getResult with
  | err e => ret (err e)
  | ok _ => Store.webhooks_delete webhookId
  end.

End WebhookService.

(* ====================================================================== *)
(** * The rate limit middleware ([middleware/rate-limit.ts])

    [Date.now()] is passed in as [now]; [rateLimitPerSecond] is the
    INTEGER column of [api_keys], so every quantity is in [Z] and
    [Math.floor(elapsed / 1000)] is the floor division of [Z]. *)
(* ====================================================================== *)

Module RateLimit.

Record RateLimitBucket : Type := mkBucket {
  tokens : Z;
  lastRefill : Z;
  limit : Z
}.

(** The module's [Map] from API key id to bucket, in insertion order. *)
Definition Buckets : Type := list (string * RateLimitBucket).

Fixpoint buckets_get (key : string) (buckets : Buckets) : option RateLimitBucket :=
  match buckets with
  | [] => None
  | (k, b) :: rest => if String.eqb k key then Some b else buckets_get key rest
  end.

Fixpoint buckets_set (key : string) (bucket : RateLimitBucket) (buckets : Buckets)
  : Buckets :=
  match buckets with
  | [] => [(key, bucket)]
  | (k, b) :: rest =>
      if String.eqb k key then (k, bucket) :: rest
      else (k, b) :: buckets_set key bucket rest
  end.

Definition BUCKET_TTL_MS : Z := 60 * 60 * 1000.

(** The body of the clean-up timer. *)
Definition cleanup (now : Z) (buckets : Buckets) : Buckets :=
  filter (fun entry => negb (BUCKET_TTL_MS <? now - lastRefill (snd entry))) buckets.

(** [Math.ceil(a / 1000)]. *)
Definition ceil_div_1000 (a : Z) : Z := - ((- a) / 1000).

(** What the middleware does with the request: it calls [next()] with
    the headers set, or answers 429 itself. *)
Inductive Verdict : Type :=
| Passed (headers : list (string * string))
| Limited (headers : list (string * string)) (code message : string) (status : Z).

(** [auth] is [(auth.apiKey.id, auth.apiKey.rateLimitPerSecond)] when the
    request is authenticated. *)
Definition rateLimit (auth : option (string * Z)) (now : Z) (buckets : Buckets)
  : Verdict * Buckets :=
  match auth with
  | None => (Passed [], buckets)
  | Some (apiKeyId, limit) =>
      let bucket :=
        match buckets_get apiKeyId buckets with
        | Some b => b
        | None => mkBucket limit now limit
        end in
      let elapsed := now - lastRefill bucket in
      let tokensToAdd := (elapsed / 1000) * limit in
      let bucket :=
        if 0 <? tokensToAdd then
          mkBucket (Z.min limit (tokens bucket + tokensToAdd)) now (RateLimit.limit bucket)
        else bucket in
      if tokens bucket <? 1 then
        let retryAfter := ceil_div_1000 (1000 - (now - lastRefill bucket)) in
        (Limited
           [("X-RateLimit-Limit", Js.num_toString limit);
            ("X-RateLimit-Remaining", "0");
            ("X-RateLimit-Reset",
             Js.num_toString (ceil_div_1000 (lastRefill bucket + 1000)));
            ("Retry-After", Js.num_toString (Z.max 1 retryAfter))]
           "RATE_LIMIT_EXCEEDED" "Rate limit exceeded" 429,
         buckets_set apiKeyId bucket buckets)
      else
        let bucket :=
          mkBucket (tokens bucket - 1) (lastRefill bucket) (RateLimit.limit bucket) in
        (Passed
           [("X-RateLimit-Limit", Js.num_toString limit);
            ("X-RateLimit-Remaining", Js.num_toString (Z.max 0 (tokens bucket)));
            ("X-RateLimit-Reset",
             Js.num_toString (ceil_div_1000 (lastRefill bucket + 1000)))],
         buckets_set apiKeyId bucket buckets)
  end.

End RateLimit.

(** A request as the middleware sees it: who asks, and when. *)
Record Request : Type := mkReq {
  req_auth : option (string * Z);
  req_time : Z
}.

Definition request_of (key : string) (r : Request) : bool :=
  match req_auth r with
  | Some (k, _) => String.eqb k key
  | None => false
  end.

Definition passed (v : RateLimit.Verdict) : bool :=
  match v with
  | RateLimit.Passed _ => true
  | RateLimit.Limited _ _ _ _ => false
  end.

(** The number of requests of [key] the middleware lets through when it
    handles [requests] one after the other. *)
Fixpoint passes_of (key : string) (requests : list Request)
    (buckets : RateLimit.Buckets) : nat :=
  match requests with
  | [] => O
  | r :: rest =>
      let (v, buckets') := RateLimit.rateLimit (req_auth r) (req_time r) buckets in
      ((if request_of key r && passed v then 1 else 0)
       + passes_of key rest buckets')%nat
  end.

(** The requests of [key] among [requests] carry the limit [L] and fall
    in the window [t0 <= t < t0 + 1000]. *)
Definition in_window (key : string) (L t0 : Z) (requests : list Request) : Prop :=
  forall r k l, In r requests -> req_auth r = Some (k, l) -> k = key ->
                l = L /\ t0 <= req_time r < t0 + 1000.

(** ** Concrete stores and requests for the runs below *)

Definition world_empty : World := mkWorld [] [] [] [] [] [] 1000 0 [] [].

Definition world_one : World := mkWorld [msg_a] [] [] [hook_a] [] [] 1000 0 [] [].

Definition env_ok : Env :=
  mkEnv (fun _ _ => Accepted "<id@relay>" "250 OK")
        (fun _ _ => Response 200 "OK").

Definition req_hello : EmailService.SendEmailRequest :=
  EmailService.mkRequest "Gone@Example.com" "Hello" (Some "Body") None None None None.

Definition req_other : EmailService.SendEmailRequest :=
  EmailService.mkRequest "else@example.com" "Other" None (Some "<p>Other</p>")
    None None None.

Definition req_corp : EmailService.SendEmailRequest :=
  EmailService.mkRequest "someone@example.com" "Hi" (Some "Text") None
    (Some "me@Corp.example") None None.

(** A verified domain, of another tenant. *)
Definition dom_corp : Domain.t :=
  Domain.mk "dom-1" "key-2" "corp.example" true "mail" (Some "KEY-2") 1 (Some 2).

(** A verified domain of the tenant of [msg_a]. *)
Definition dom_own : Domain.t :=
  Domain.mk "dom-2" "key-1" "t.example" true "s1" (Some "KEY-1") 1 (Some 2).

Definition world_api : World :=
  mkWorld [msg_b] [sup_gone] [dom_corp; dom_own] [hook_a] [] [] 1000 0 [] [].

(** A webhook of another tenant, switched off. *)
Definition hook_off : Webhook.t :=
  Webhook.mk "wh-c" "key-2" "https://hooks.example.test/c" ["message.sent"] "zzz" false 30.

Definition del_c : WebhookDelivery.t :=
  WebhookDelivery.mk "d-c" "wh-c" (Some "m-a") "message.sent"
    (Json.JObj [("event", Json.JStr "message.sent")])
    WebhookDeliveryStatus.PENDING 0 None 100.

Definition world_hooks : World :=
  mkWorld [] [] [] [hook_a; hook_off] [del_a; del_c] [] 1000 0 [] [].

Definition world_off : World :=
  mkWorld [] [] [] [hook_off] [del_c] [] 1000 0 [] [].

(** A full bucket last refilled 900 ms before the burst, a bucket emptied
    400 ms ago, and one idle for two hours. *)
Definition buckets_full : RateLimit.Buckets :=
  [("key-1", RateLimit.mkBucket 2 9100 2)].

Definition buckets_now : RateLimit.Buckets :=
  [("key-1", RateLimit.mkBucket 0 9600 2); ("key-2", RateLimit.mkBucket 5 9000 5)].

Definition buckets_idle : RateLimit.Buckets :=
  [("key-1", RateLimit.mkBucket 1 0 2)].

Definition burst : list Request :=
  [mkReq (Some ("key-1", 2)) 10000; mkReq (Some ("key-2", 5)) 10001;
   mkReq (Some ("key-1", 2)) 10002; mkReq None 10003;
   mkReq (Some ("key-1", 2)) 10004; mkReq (Some ("key-1", 2)) 10900;
   mkReq (Some ("key-1", 2)) 10950].

(* ====================================================================== *)
(** * Runtime helpers checked on known values *)
(* ====================================================================== *)

Example toISOString_epoch : Js.toISOString 0 = "1970-01-01T00:00:00.000Z"%string.
Proof. vm_compute. reflexivity. Qed.

Example toISOString_2023 :
  Js.toISOString 1700000000123 = "2023-11-14T22:13:20.123Z"%string.
Proof. vm_compute. reflexivity. Qed.

Example toISOString_leap :
  Js.toISOString 1709164800000 = "2024-02-29T00:00:00.000Z"%string.
Proof. vm_compute. reflexivity. Qed.

Example sha256_abc :
  Sha256.hex (Sha256.sha256 (Js.bytes_of_string "abc")) =
  "ba7816bf8f01cfea414140de5dae2223b00361a396177a9cb410ff61f20015ad"%string.
Proof. vm_compute. reflexivity. Qed.

Example sha256_two_blocks :
  Sha256.hex (Sha256.sha256 (Js.bytes_of_string
    "abcdbcdecdefdefgefghfghighijhijkijkljklmklmnlmnomnopnopq")) =
  "248d6a61d20638b8e5c026930c3e6039a33ce45964ff2167f6ecedd419db06c1"%string.
Proof. vm_compute. reflexivity. Qed.

Example hmac_rfc4231_case2 :
  Sha256.hmac_hex "Jefe" "what do ya want for nothing?" =
  "5bdcc146bf60754e6a042426089575c75a003f089d2739839dec58b964ec3843"%string.
Proof. vm_compute. reflexivity. Qed.

Example stringify_obj :
  Json.stringify (Json.JObj [("a"%string, Json.JNum 550);
                             ("b"%string, Json.JArr [Json.JBool true; Json.JNull])]) =
  String "{" (String Json.dquote ("a" +++ String Json.dquote (":550," +++
    String Json.dquote ("b" +++ String Json.dquote ":[true,null]}")))).
Proof. vm_compute. reflexivity. Qed.

(* ====================================================================== *)
(** * SMTP classification *)
(* ====================================================================== *)

Lemma includes_num_In (l : list Z) (x : Z) :
  Js.includes_num l x = true <-> In x l.
Proof.
  unfold Js.includes_num. rewrite existsb_exists. split.
  - intros [y [Hin Heq]]. apply Z.eqb_eq in Heq. now subst.
  - intros Hin. exists x. split; [assumption | apply Z.eqb_refl].
Qed.

Lemma hard_bounce_range (rc : Z) :
  Js.includes_num HARD_BOUNCE_CODES rc = true -> 500 <= rc < 600.
Proof.
  rewrite includes_num_In. unfold HARD_BOUNCE_CODES. simpl. lia.
Qed.

Lemma has_connection_code_spec (error : NodeError.t) :
  has_connection_code error = spec_network_code error.
Proof.
  unfold has_connection_code, spec_network_code.
  destruct (NodeError.code error) as [c |]; [| reflexivity].
  destruct (String.eqb_spec c EmptyString) as [-> | _]; reflexivity.
Qed.

Lemma classify_kind (error : NodeError.t) :
  SmtpError.type (classifySmtpError error) = spec_kind error.
Proof.
  unfold classifySmtpError, spec_kind. rewrite has_connection_code_spec.
  destruct (spec_network_code error); [reflexivity |].
  destruct (NodeError.responseCode error) as [rc |]; [| reflexivity].
  destruct (Z.eqb_spec rc 0) as [-> | Hnz]; [reflexivity |].
  destruct (Js.includes_num HARD_BOUNCE_CODES rc) eqn:Hhard.
  - apply hard_bounce_range in Hhard.
    replace (Js.includes_num [450; 451; 452] rc) with false
      by (symmetry; apply not_true_is_false; rewrite includes_num_In; simpl; lia).
    replace (400 <=? rc) with true by (symmetry; apply Z.leb_le; lia).
    replace (rc <? 500) with false by (symmetry; apply Z.ltb_ge; lia).
    replace (500 <=? rc) with true by (symmetry; apply Z.leb_le; lia).
    replace (rc <? 600) with true by (symmetry; apply Z.ltb_lt; lia).
    reflexivity.
  - change [450; 451; 452] with SOFT_BOUNCE_CODES.
    destruct (Js.includes_num SOFT_BOUNCE_CODES rc) eqn:Hsoft; [reflexivity |].
    simpl.
    destruct ((500 <=? rc) && (rc <? 600)) eqn:H5.
    + apply andb_true_iff in H5 as [H5a H5b].
      apply Z.leb_le in H5a. apply Z.ltb_lt in H5b.
      replace (rc <? 500) with false by (symmetry; apply Z.ltb_ge; lia).
      now rewrite andb_false_r.
    + destruct ((400 <=? rc) && (rc <? 500)); reflexivity.
Qed.

Lemma classify_retry (error : NodeError.t) :
  SmtpError.shouldRetry (classifySmtpError error) =
  spec_retry (SmtpError.type (classifySmtpError error)).
Proof.
  unfold classifySmtpError.
  repeat match goal with
         | |- context [if ?b then _ else _] => destruct b
         | |- context [match ?o with Some _ => _ | None => _ end] => destruct o
         end; reflexivity.
Qed.

(** C7. [classifySmtpError] follows the classification table: a network
    error code gives [connection], a response code among 450, 451, 452 or
    in the 4xx range gives [temporary], a 5xx code gives [permanent], the
    rest is [unknown]; [shouldRetry] holds for [connection] and
    [temporary] only.  The result depends on the code and the response
    code alone, so classifying the same error twice gives the same kind,
    response code and retry flag. *)
Theorem C7_classifySmtpError_table :
  forall (message message' : string) (code : option string) (rc : option Z),
    let error := NodeError.mk message code rc in
    let again := NodeError.mk message' code rc in
    SmtpError.type (classifySmtpError error) = spec_kind error
    /\ SmtpError.shouldRetry (classifySmtpError error) = spec_retry (spec_kind error)
    /\ SmtpError.type (classifySmtpError again) = SmtpError.type (classifySmtpError error)
    /\ SmtpError.responseCode (classifySmtpError again)
       = SmtpError.responseCode (classifySmtpError error)
    /\ SmtpError.shouldRetry (classifySmtpError again)
       = SmtpError.shouldRetry (classifySmtpError error).
Proof.
  intros message message' code rc error again.
  split; [apply classify_kind |].
  split; [rewrite classify_retry, classify_kind; reflexivity |].
  unfold error, again, classifySmtpError, has_connection_code. simpl.
  repeat match goal with
         | |- context [if ?b then _ else _] => destruct b
         | |- context [match ?o with Some _ => _ | None => _ end] => destruct o
         end; repeat split; reflexivity.
Qed.

(* ====================================================================== *)
(** * The claim functions *)
(* ====================================================================== *)

Lemma first_by_spec {A : Type} (key : A -> Z) (l : list A) (x : A) :
  Sql.first_by key l = Some x ->
  In x l /\ forall y, In y l -> key x <= key y.
Proof.
  revert x. induction l as [| a l IH]; intros x H; simpl in H; [discriminate |].
  destruct (Sql.first_by key l) as [y |] eqn:Hrest.
  - destruct (IH y eq_refl) as [Hin Hmin].
    destruct (Z.ltb_spec (key y) (key a)) as [Hlt | Hge]; inversion H; subst.
    + split; [now right |]. intros z [-> | Hz]; [lia | now apply Hmin].
    + split; [now left |]. intros z [-> | Hz]; [lia |].
      specialize (Hmin z Hz). lia.
  - inversion H; subst. split; [now left |].
    destruct l; [| simpl in Hrest; destruct (Sql.first_by key l); [destruct (_ <? _) |]; discriminate].
    intros z [-> | []]. lia.
Qed.

Lemma first_by_none {A : Type} (key : A -> Z) (l : list A) :
  Sql.first_by key l = None -> l = [].
Proof.
  destruct l as [| a l]; [reflexivity |]. simpl.
  destruct (Sql.first_by key l); [destruct (_ <? _) |]; discriminate.
Qed.

(** Under a primary key, [UPDATE ... WHERE id = k RETURNING *] returns the
    one updated row. *)
Lemma returning_one {A : Type} (id : A -> string) (upd : A -> A) (rows : list A) (sel : A) :
  (forall x, id (upd x) = id x) ->
  NoDup (map id rows) -> In sel rows ->
  filter (fun x => String.eqb (id x) (id sel))
         (map (fun x => if String.eqb (id x) (id sel) then upd x else x) rows)
  = [upd sel].
Proof.
  intros Hid. induction rows as [| a rows IH]; intros Hnd Hin; [destruct Hin |].
  simpl in Hnd. inversion Hnd as [| ? ? Hnotin Hnd']; subst.
  assert (Hothers : forall rows', ~ In (id sel) (map id rows') ->
            filter (fun x => String.eqb (id x) (id sel))
              (map (fun x => if String.eqb (id x) (id sel) then upd x else x) rows') = []).
  { induction rows' as [| b rows' IH']; intros Hn; [reflexivity |].
    simpl in *. destruct (String.eqb_spec (id b) (id sel)) as [E | NE].
    - exfalso. apply Hn. now left.
    - apply String.eqb_neq in NE. rewrite NE. apply IH'. tauto. }
  simpl. destruct Hin as [-> | Hin].
  - rewrite String.eqb_refl, Hid, String.eqb_refl.
    now rewrite Hothers.
  - destruct (String.eqb_spec (id a) (id sel)) as [E | NE].
    + exfalso. apply Hnotin. rewrite E. now apply in_map.
    + apply String.eqb_neq in NE. rewrite NE. now apply IH.
Qed.

Lemma select_next_queued_spec (locked : list string) (rows : list Message.t) (m : Message.t) :
  Sql.select_next_queued locked rows = Some m ->
  In m rows
  /\ Message.status m = MessageStatus.QUEUED
  /\ Js.includes_str locked (Message.id m) = false
  /\ forall m', In m' rows -> Message.status m' = MessageStatus.QUEUED ->
                Js.includes_str locked (Message.id m') = false ->
                Message.createdAt m <= Message.createdAt m'.
Proof.
  unfold Sql.select_next_queued. intros H.
  apply first_by_spec in H as [Hin Hmin].
  apply filter_In in Hin as [Hin Hok].
  apply andb_true_iff in Hok as [Hst Hun].
  unfold Sql.unlocked in Hun. apply negb_true_iff in Hun.
  repeat split; try assumption.
  - destruct (Message.status m); simpl in Hst; congruence.
  - intros m' Hin' Hst' Hun'. apply Hmin. apply filter_In. split; [assumption |].
    rewrite Hst'. unfold Sql.unlocked. rewrite Hun'. reflexivity.
Qed.

Lemma select_next_queued_none (locked : list string) (rows : list Message.t) :
  Sql.select_next_queued locked rows = None ->
  forall m, In m rows -> Message.status m = MessageStatus.QUEUED ->
            Js.includes_str locked (Message.id m) = true.
Proof.
  unfold Sql.select_next_queued. intros H m Hin Hst.
  apply first_by_none in H.
  destruct (Js.includes_str locked (Message.id m)) eqn:Hl; [reflexivity |].
  assert (Hf : In m (filter (fun m0 => MessageStatus.eqb (Message.status m0) MessageStatus.QUEUED
                        && Sql.unlocked locked (Message.id m0)) rows)).
  { apply filter_In. split; [assumption |]. rewrite Hst. unfold Sql.unlocked.
    now rewrite Hl. }
  rewrite H in Hf. destruct Hf.
Qed.

Lemma claim_next_message_some (worker : string) (locked : list string)
    (rows : list Message.t) (m : Message.t) :
  NoDup (map Message.id rows) ->
  Sql.select_next_queued locked rows = Some m ->
  Sql.claim_next_message worker locked rows =
  ([Sql.set_processing m],
   map (fun x => if String.eqb (Message.id x) (Message.id m)
                 then Sql.set_processing x else x) rows).
Proof.
  intros Hpk Hsel. unfold Sql.claim_next_message. rewrite Hsel.
  f_equal. apply (returning_one Message.id Sql.set_processing); auto.
  now apply select_next_queued_spec in Hsel.
Qed.

(** After a claim, no row carrying the claimed id is still queued. *)
Lemma claimed_not_queued (rows : list Message.t) (m x : Message.t) :
  In x (map (fun x => if String.eqb (Message.id x) (Message.id m)
                      then Sql.set_processing x else x) rows) ->
  Message.id x = Message.id m ->
  Message.status x = MessageStatus.PROCESSING.
Proof.
  intros Hin Hid. apply in_map_iff in Hin as [x0 [Hx Hin0]].
  destruct (String.eqb_spec (Message.id x0) (Message.id m)) as [E | NE].
  - subst x. reflexivity.
  - subst x. contradiction.
Qed.

(** C6. [claim_next_message] picks, among the queued rows no other
    transaction has locked, one with the least [created_at]; it sets that
    row to [processing] and returns it, and leaves the other rows alone.
    With no such row it returns nothing and the client answers [ok(null)].
    The row claimed is never a locked one, a claimant that selects while
    the row is locked skips it, and a later claim never returns it
    again. *)
Theorem C6_claim_next_message_atomic
    (w : World) (PK : NoDup (map Message.id (messages w))) :
  match Sql.select_next_queued (row_locks w) (messages w) with
  | None =>
      (forall m, In m (messages w) -> Message.status m = MessageStatus.QUEUED ->
                 Js.includes_str (row_locks w) (Message.id m) = true)
      /\ Sql.claim_next_message "worker" (row_locks w) (messages w) = ([], messages w)
      /\ exists w', Db.messages_claimNext w = (Returned (ok None), w')
                    /\ messages w' = messages w
  | Some m =>
      let table' := map (fun x => if String.eqb (Message.id x) (Message.id m)
                                  then Sql.set_processing x else x) (messages w) in
      In m (messages w)
      /\ Message.status m = MessageStatus.QUEUED
      /\ Js.includes_str (row_locks w) (Message.id m) = false
      /\ (forall m', In m' (messages w) ->
            Message.status m' = MessageStatus.QUEUED ->
            Js.includes_str (row_locks w) (Message.id m') = false ->
            Message.createdAt m <= Message.createdAt m')
      /\ Message.status (Sql.set_processing m) = MessageStatus.PROCESSING
      /\ Sql.claim_next_message "worker" (row_locks w) (messages w)
         = ([Sql.set_processing m], table')
      /\ (exists w', Db.messages_claimNext w = (Returned (ok (Some (Sql.set_processing m))), w')
                     /\ messages w' = table')
      /\ (forall x, In x (messages w) -> Message.id x <> Message.id m -> In x table')
      /\ (forall locked' m2,
            Sql.select_next_queued (Message.id m :: locked') (messages w) = Some m2 ->
            Message.id m2 <> Message.id m)
      /\ (forall worker' locked' r rest table'',
            Sql.claim_next_message worker' locked' table' = (r :: rest, table'') ->
            Message.id r <> Message.id m)
  end.
Proof.
  destruct (Sql.select_next_queued (row_locks w) (messages w)) as [m |] eqn:Hsel.
  - pose proof (select_next_queued_spec _ _ _ Hsel) as [Hin [Hst [Hun Hmin]]].
    pose proof (claim_next_message_some "worker" _ _ _ PK Hsel) as Hclaim.
    cbv zeta. repeat split; try assumption.
    + eexists. split.
      * unfold Db.messages_claimNext, bind, get, modify, ret. rewrite Hclaim.
        simpl. reflexivity.
      * reflexivity.
    + intros x Hx Hne. apply in_map_iff. exists x. split; [| assumption].
      apply String.eqb_neq in Hne. now rewrite Hne.
    + intros locked' m2 Hsel2 Heq.
      apply select_next_queued_spec in Hsel2 as [_ [_ [Hun2 _]]].
      rewrite Heq in Hun2. simpl in Hun2. now rewrite String.eqb_refl in Hun2.
    + intros worker' locked' r rest table'' Hclaim2 Heq.
      unfold Sql.claim_next_message in Hclaim2.
      destruct (Sql.select_next_queued locked' _) as [m2 |] eqn:Hsel2;
        [| discriminate].
      inversion Hclaim2 as [[Hret Htab]].
      assert (Hr : In r (filter (fun m0 => String.eqb (Message.id m0) (Message.id m2))
                    (map (fun m0 => if String.eqb (Message.id m0) (Message.id m2)
                                    then Sql.set_processing m0 else m0)
                         (map (fun x => if String.eqb (Message.id x) (Message.id m)
                                        then Sql.set_processing x else x) (messages w)))))
        by (rewrite Hret; now left).
      apply filter_In in Hr as [_ Hrid]. apply String.eqb_eq in Hrid.
      apply select_next_queued_spec in Hsel2 as [Hin2 [Hst2 _]].
      assert (Hp := claimed_not_queued _ _ _ Hin2 (eq_trans (eq_sym Hrid) Heq)).
      congruence.
  - pose proof (select_next_queued_none _ _ Hsel) as Hnone.
    assert (Hclaim : Sql.claim_next_message "worker" (row_locks w) (messages w)
                     = ([], messages w))
      by (unfold Sql.claim_next_message; now rewrite Hsel).
    repeat split; try assumption.
    eexists. split.
    + unfold Db.messages_claimNext, bind, get, modify, ret. rewrite Hclaim.
      simpl. reflexivity.
    + reflexivity.
Qed.

Lemma select_next_pending_spec (now : Z) (locked : list string)
    (rows : list WebhookDelivery.t) (d : WebhookDelivery.t) :
  Sql.select_next_pending now locked rows = Some d ->
  In d rows
  /\ WebhookDelivery.status d = WebhookDeliveryStatus.PENDING
  /\ Sql.ready now d = true
  /\ Js.includes_str locked (WebhookDelivery.id d) = false.
Proof.
  unfold Sql.select_next_pending. intros H.
  apply first_by_spec in H as [Hin _].
  apply filter_In in Hin as [Hin Hok].
  apply andb_true_iff in Hok as [Hready Hun].
  unfold Sql.unlocked in Hun. apply negb_true_iff in Hun.
  repeat split; try assumption.
  unfold Sql.ready in Hready. apply andb_true_iff in Hready as [Hst _].
  destruct (WebhookDelivery.status d); simpl in Hst; congruence.
Qed.

Lemma claim_next_webhook_delivery_some (now : Z) (locked : list string)
    (rows : list WebhookDelivery.t) (d : WebhookDelivery.t) :
  NoDup (map WebhookDelivery.id rows) ->
  Sql.select_next_pending now locked rows = Some d ->
  Sql.claim_next_webhook_delivery now locked rows =
  ([Sql.set_claimed now d],
   map (fun x => if String.eqb (WebhookDelivery.id x) (WebhookDelivery.id d)
                 then Sql.set_claimed now x else x) rows).
Proof.
  intros Hpk Hsel. unfold Sql.claim_next_webhook_delivery. rewrite Hsel.
  f_equal. apply (returning_one WebhookDelivery.id (Sql.set_claimed now)); auto.
  now apply select_next_pending_spec in Hsel.
Qed.

(** C2 (amended).  [claim_next_webhook_delivery] adds one to [attempts] and
    sets [last_attempt_at] to the time of the claim, in the row returned
    and in the table; [claim_next_message] changes the status of the
    claimed row only, and its [attempts] counter stays as it was. *)
Theorem C2_claims_progress_accounting
    (worker : string) (now : Z) (locked : list string)
    (mrows : list Message.t) (drows : list WebhookDelivery.t)
    (m : Message.t) (d : WebhookDelivery.t)
    (PKm : NoDup (map Message.id mrows))
    (PKd : NoDup (map WebhookDelivery.id drows))
    (Hm : Sql.select_next_queued locked mrows = Some m)
    (Hd : Sql.select_next_pending now locked drows = Some d) :
  (exists d' table',
      Sql.claim_next_webhook_delivery now locked drows = ([d'], table')
      /\ In d' table'
      /\ WebhookDelivery.id d' = WebhookDelivery.id d
      /\ WebhookDelivery.attempts d' = WebhookDelivery.attempts d + 1
      /\ WebhookDelivery.lastAttemptAt d' = Some now
      /\ WebhookDelivery.status d' = WebhookDeliveryStatus.PENDING)
  /\ (exists m' table',
      Sql.claim_next_message worker locked mrows = ([m'], table')
      /\ In m' table'
      /\ Message.id m' = Message.id m
      /\ Message.status m' = MessageStatus.PROCESSING
      /\ Message.attempts m' = Message.attempts m
      /\ m' = MessageUpdate.apply
                (MessageUpdate.mk (Some MessageStatus.PROCESSING)
                   None None None None None) m).
Proof.
  split.
  - exists (Sql.set_claimed now d). eexists. split.
    + apply claim_next_webhook_delivery_some; assumption.
    + split.
      * apply in_map_iff. exists d. rewrite String.eqb_refl. split; [reflexivity |].
        now apply select_next_pending_spec in Hd.
      * repeat split; reflexivity.
  - exists (Sql.set_processing m). eexists. split.
    + apply claim_next_message_some; assumption.
    + split.
      * apply in_map_iff. exists m. rewrite String.eqb_refl. split; [reflexivity |].
        now apply select_next_queued_spec in Hm.
      * repeat split; reflexivity.
Qed.

(** C2, counterexample: with one queued message in the table, the claim
    returns it with the [attempts] counter it had. *)
Lemma C2_message_claim_keeps_attempts : ~ claim_next_message_counts_attempt.
Proof.
  intros H.
  apply (H "worker" [] [msg_a] msg_a (Sql.set_processing msg_a) []
           [Sql.set_processing msg_a]).
  - solve_nodup.
  - reflexivity.
  - reflexivity.
  - reflexivity.
Qed.

Lemma C2_witness :
  exists d' m',
    fst (Sql.claim_next_webhook_delivery 1000 [] [del_a]) = [d']
    /\ WebhookDelivery.attempts d' = 1
    /\ WebhookDelivery.lastAttemptAt d' = Some 1000
    /\ fst (Sql.claim_next_message "worker" [] [msg_b; msg_a]) = [m']
    /\ Message.id m' = "m-a"
    /\ Message.attempts m' = 0.
Proof.
  destruct (C2_claims_progress_accounting "worker" 1000 [] [msg_b; msg_a] [del_a]
              msg_a del_a ltac:(solve_nodup) ltac:(solve_nodup)
              eq_refl eq_refl)
    as [[d' [dt [Hd [_ [_ [Hda [Hdl _]]]]]]] [m' [mt [Hm [_ [Hmi [_ [Hma _]]]]]]]].
  exists d', m'. rewrite Hd, Hm. simpl.
  repeat split; assumption.
Defined.

Lemma C6_witness :
  exists w',
    Db.messages_claimNext (mkWorld [msg_b; msg_a] [] [] [] [] [] 1000 0 [] [])
    = (Returned (ok (Some (Sql.set_processing msg_a))), w')
    /\ map Message.status (messages w')
       = [MessageStatus.QUEUED; MessageStatus.PROCESSING].
Proof.
  pose proof (C6_claim_next_message_atomic
                (mkWorld [msg_b; msg_a] [] [] [] [] [] 1000 0 [] [])
                ltac:(solve_nodup)) as H.
  assert (Hsel : Sql.select_next_queued
                   (row_locks (mkWorld [msg_b; msg_a] [] [] [] [] [] 1000 0 [] []))
                   (messages (mkWorld [msg_b; msg_a] [] [] [] [] [] 1000 0 [] []))
                 = Some msg_a) by reflexivity.
  rewrite Hsel in H. cbv zeta in H.
  destruct H as [_ [_ [_ [_ [_ [_ [[w' [Hw Ht]] _]]]]]]].
  exists w'. split; [exact Hw |]. rewrite Ht. reflexivity.
Defined.

(* ====================================================================== *)
(** * Suppressions *)
(* ====================================================================== *)

Lemma existsb_false_filter {A : Type} (f : A -> bool) (l : list A) :
  existsb f l = false -> filter f l = [].
Proof.
  induction l as [| a l IH]; simpl; [reflexivity |].
  intros H. apply orb_false_iff in H as [Ha Hl]. rewrite Ha. now apply IH.
Qed.

Lemma existsb_true_filter {A : Type} (f : A -> bool) (l : list A) :
  existsb f l = true -> exists x rest, filter f l = x :: rest.
Proof.
  induction l as [| a l IH]; simpl; [discriminate |].
  destruct (f a); [eauto |]. simpl. exact IH.
Qed.

(** A create that meets a row with the same tenant and lowercased
    address: nothing is written, and that row is the answer. *)
Lemma suppressions_create_existing {rt : Js.Strings} (w : World)
    (data : SuppressionInsert.t) (s : Suppression.t)
    (rest : list Suppression.t) :
  filter (Db.suppression_matches (SuppressionInsert.api_key_id data)
            (Js.toLowerCase (SuppressionInsert.email data))) (suppressions w)
  = s :: rest ->
  Db.suppressions_create data w = (Returned (ok s), w).
Proof.
  intros Hf. unfold Db.suppressions_create, bind, get. simpl.
  assert (He : existsb (Db.suppression_matches (SuppressionInsert.api_key_id data)
                          (Js.toLowerCase (SuppressionInsert.email data)))
                       (suppressions w) = true).
  { destruct (existsb _ (suppressions w)) eqn:E; [reflexivity |].
    apply existsb_false_filter in E. rewrite E in Hf. discriminate. }
  rewrite He, Hf. reflexivity.
Qed.

(** C10. After a create that succeeded, a create for the same tenant and
    an address with the same lowercase form (whatever its reason and its
    id) writes nothing and answers [ok] with the very row the first call
    answered: no duplicate-key error, and the stored reason is kept. *)
Theorem C10_suppressions_create_idempotent {rt : Js.Strings}
    (w w1 : World) (first second : SuppressionInsert.t) (s1 : Suppression.t)
    (Htenant : SuppressionInsert.api_key_id second = SuppressionInsert.api_key_id first)
    (Hemail : Js.toLowerCase (SuppressionInsert.email second)
              = Js.toLowerCase (SuppressionInsert.email first))
    (Hfirst : Db.suppressions_create first w = (Returned (ok s1), w1)) :
  Db.suppressions_create second w1 = (Returned (ok s1), w1)
  /\ In s1 (suppressions w1)
  /\ Suppression.apiKeyId s1 = SuppressionInsert.api_key_id second
  /\ Suppression.email s1 = Js.toLowerCase (SuppressionInsert.email second).
Proof.
  set (same := Db.suppression_matches (SuppressionInsert.api_key_id first)
                 (Js.toLowerCase (SuppressionInsert.email first))).
  assert (Hhead : exists rest, filter same (suppressions w1) = s1 :: rest).
  { unfold Db.suppressions_create, bind, get in Hfirst. simpl in Hfirst.
    fold same in Hfirst.
    destruct (existsb same (suppressions w)) eqn:He.
    - destruct (existsb_true_filter _ _ He) as [x [rest Hx]].
      rewrite Hx in Hfirst. inversion Hfirst; subst. eauto.
    - apply existsb_false_filter in He.
      assert (Hrow : forall id,
                 same (Suppression.mk id (SuppressionInsert.api_key_id first)
                         (Js.toLowerCase (SuppressionInsert.email first))
                         (SuppressionInsert.reason first) (now w)) = true).
      { intros id. unfold same, Db.suppression_matches. simpl.
        now rewrite !String.eqb_refl. }
      destruct (truthy (SuppressionInsert.id first)) as [id |].
      + destruct (existsb _ (suppressions w)); [discriminate |].
        unfold modify, ret in Hfirst. inversion Hfirst; subst. simpl.
        exists []. rewrite filter_app, He. simpl. now rewrite Hrow.
      + unfold uuid_generate_v4, bind, get, modify, ret in Hfirst.
        inversion Hfirst; subst. simpl.
        exists []. rewrite filter_app, He. simpl. now rewrite Hrow. }
  destruct Hhead as [rest Hhead].
  assert (Hin : In s1 (filter same (suppressions w1))) by (rewrite Hhead; now left).
  apply filter_In in Hin as [Hin Hsame].
  unfold same, Db.suppression_matches in Hsame.
  apply andb_true_iff in Hsame as [Hk He].
  apply String.eqb_eq in Hk. apply String.eqb_eq in He.
  split.
  - apply suppressions_create_existing with (rest := rest).
    rewrite Htenant, Hemail. exact Hhead.
  - repeat split; congruence.
Qed.


(** ** Monad steps *)

Lemma bind_run {A B : Type} (c : M A) (k : A -> M B) (w w' : World) (a : A) :
  c w = (Returned a, w') -> bind c k w = k a w'.
Proof. intros H. unfold bind. now rewrite H. Qed.

Lemma bind_throw {A B : Type} (c : M A) (k : A -> M B) (w w' : World) (e : string) :
  c w = (Thrown e, w') -> bind c k w = (Thrown e, w').
Proof. intros H. unfold bind. now rewrite H. Qed.

Lemma checkSuppression_run {rt : Js.Strings} (w : World) (apiKeyId email : string) :
  EmailProcessor.checkSuppression apiKeyId email w =
  (Returned (option_map Suppression.reason
               (hd_error (filter (Db.suppression_matches apiKeyId (Js.toLowerCase email))
                                 (suppressions w)))), w).
Proof.
  unfold EmailProcessor.checkSuppression, Db.suppressions_findByEmail, bind, get, ret.
  destruct (filter _ (suppressions w)); reflexivity.
Qed.

Lemma getDkimConfig_run (w : World) (message : Message.t) :
  EmailProcessor.getDkimConfig message w = (Returned (dkim_for w message), w).
Proof.
  unfold dkim_for, EmailProcessor.getDkimConfig, try_catch.
  destruct (truthy (nth_error (split "@" (Message.fromAddress message)) 1)) as [dom |];
    [| reflexivity].
  unfold Db.domains_findByDomain, bind, get, ret.
  destruct (hd_error _) as [domain |]; [| reflexivity].
  destruct (Domain.verified domain), (truthy (Domain.dkimPrivateKey domain)); reflexivity.
Qed.

Lemma messages_update_run (w : World) (id : string) (data : MessageUpdate.t) :
  MessageUpdate.is_empty data = false ->
  exists r, Db.messages_update id data w
            = (Returned r, with_messages (update_rows id data) w).
Proof.
  intros H. unfold Db.messages_update. rewrite H.
  unfold bind, modify, get, ret. eexists. reflexivity.
Qed.

Lemma SmtpClient_send_run (env : Env) (w : World) (mail : EmailMessage.t)
    (dkim : option DkimConfig.t) :
  SmtpClient_send env mail dkim w =
  (match sendMail env (smtp_log w) (mkSmtpCall mail dkim) with
   | Accepted messageId response => Returned (SendOk messageId response)
   | Refused e => Returned (SendFailed (classifySmtpError e))
   | Faulted message => Thrown message
   end,
   with_smtp_log (smtp_log w ++ [mkSmtpCall mail dkim]) w).
Proof.
  unfold SmtpClient_send, bind, get, modify, ret, throw.
  destruct (sendMail env (smtp_log w) (mkSmtpCall mail dkim)); reflexivity.
Qed.

(** Under the unique index, the lookup finds the one row of the pair. *)
Lemma unique_suppression_found (rows : list Suppression.t) (s : Suppression.t) :
  suppressions_unique rows -> In s rows ->
  filter (Db.suppression_matches (Suppression.apiKeyId s) (Suppression.email s)) rows = [s].
Proof.
  unfold suppressions_unique.
  induction rows as [| a rows IH]; intros Hnd Hin; [destruct Hin |].
  simpl in Hnd. inversion Hnd as [| ? ? Hnotin Hnd']; subst.
  assert (Hnone : forall l, ~ In (Suppression.apiKeyId s, Suppression.email s)
                              (map (fun x => (Suppression.apiKeyId x, Suppression.email x)) l) ->
            filter (Db.suppression_matches (Suppression.apiKeyId s) (Suppression.email s)) l = []).
  { induction l as [| b l IHl]; intros Hn; [reflexivity |]. simpl in *.
    unfold Db.suppression_matches at 1.
    destruct (String.eqb_spec (Suppression.apiKeyId b) (Suppression.apiKeyId s)) as [E1 | N1];
      destruct (String.eqb_spec (Suppression.email b) (Suppression.email s)) as [E2 | N2];
      simpl; try (apply IHl; tauto).
    exfalso. apply Hn. left. congruence. }
  simpl. destruct Hin as [-> | Hin].
  - unfold Db.suppression_matches at 1. rewrite !String.eqb_refl. simpl.
    now rewrite Hnone.
  - unfold Db.suppression_matches at 1.
    destruct (String.eqb_spec (Suppression.apiKeyId a) (Suppression.apiKeyId s)) as [E1 | N1];
      destruct (String.eqb_spec (Suppression.email a) (Suppression.email s)) as [E2 | N2];
      simpl; try (now apply IH).
    exfalso. apply Hnotin. rewrite E1, E2.
    apply (in_map (fun x => (Suppression.apiKeyId x, Suppression.email x))). exact Hin.
Qed.

(* ====================================================================== *)
(** * The email worker *)
(* ====================================================================== *)

Lemma rows_with_In (id : string) (f : Message.t -> Message.t) (rows : list Message.t)
    (m : Message.t) :
  In m (rows_with id f rows) ->
  exists m0, In m0 rows /\ Message.id m0 = id /\ m = f m0
             \/ In m rows /\ Message.id m <> id.
Proof.
  unfold rows_with. intros Hin. apply in_map_iff in Hin as [m0 [Hm Hin]].
  exists m0.
  destruct (String.eqb_spec (Message.id m0) id) as [E | NE].
  - left. repeat split; auto.
  - right. subst m. split; assumption.
Qed.

(** C5. A claimed message whose lowercased recipient has a suppression row
    of the same tenant is set to [rejected], with [failed_at] and the
    reason ["Recipient suppressed: <reason>"]; the SMTP client is not
    called and no webhook delivery is created.  The stored row is given
    column by column: status [rejected], [failed_at] the time of the step,
    the reason, the attempt counter and every other column as they were;
    rows with another id are left as they are. *)
Theorem C5_suppressed_recipient_rejected {rt : Js.Strings}
    (config : WorkerConfig) (env : Env) (w : World) (message : Message.t)
    (s : Suppression.t)
    (Hunique : suppressions_unique (suppressions w))
    (Hrow : In s (suppressions w))
    (Htenant : Suppression.apiKeyId s = Message.apiKeyId message)
    (Hemail : Suppression.email s = Js.toLowerCase (Message.toAddress message)) :
  let why := "Recipient suppressed: " +++ SuppressionReason.toString (Suppression.reason s) in
  exists w',
    EmailProcessor.processMessage config env message w
    = (Returned (EmailProcessor.mkResult (Message.id message) false
                   MessageStatus.REJECTED (Some why) (Some false)), w')
    /\ messages w' =
       rows_with (Message.id message)
         (fun m => row_written m MessageStatus.REJECTED (Message.attempts m)
                     (Some (now w)) (Some why))
         (messages w)
    /\ (forall m, In m (messages w') -> Message.id m = Message.id message ->
                  Message.status m = MessageStatus.REJECTED
                  /\ Message.failedAt m = Some (now w)
                  /\ Message.failureReason m = Some why)
    /\ (forall m, In m (messages w) -> Message.id m = Message.id message ->
                  exists m', In m' (messages w')
                             /\ Message.id m' = Message.id message
                             /\ Message.attempts m' = Message.attempts m)
    /\ smtp_log w' = smtp_log w
    /\ webhook_deliveries w' = webhook_deliveries w
    /\ suppressions w' = suppressions w
    /\ http_log w' = http_log w.
Proof.
  intros why.
  pose proof (unique_suppression_found _ _ Hunique Hrow) as Hfound.
  rewrite Htenant, Hemail in Hfound.
  unfold EmailProcessor.processMessage.
  rewrite (bind_run _ _ _ _ _ (checkSuppression_run w _ _)).
  rewrite Hfound.
  change (option_map Suppression.reason (hd_error [s]))
    with (Some (Suppression.reason s)).
  cbv iota beta. unfold bind at 1, get at 1. cbv iota beta.
  destruct (messages_update_run w (Message.id message)
              (MessageUpdate.mk (Some MessageStatus.REJECTED) None None None
                 (Some (Some (now w))) (Some (Some why))) eq_refl) as [r Hr].
  fold why. rewrite (bind_run _ _ _ _ _ Hr).
  eexists. split; [reflexivity |].
  assert (Hrows : messages (with_messages
                              (update_rows (Message.id message)
                                 (MessageUpdate.mk (Some MessageStatus.REJECTED) None None
                                    None (Some (Some (now w))) (Some (Some why)))) w)
                  = rows_with (Message.id message)
                      (fun m => row_written m MessageStatus.REJECTED (Message.attempts m)
                                  (Some (now w)) (Some why))
                      (messages w)) by reflexivity.
  split; [exact Hrows |]. rewrite Hrows.
  split.
  { intros m Hin Hid.
    apply rows_with_In in Hin as [m0 [[_ [_ ->]] | [_ Hne]]]; [| contradiction].
    repeat split. }
  split.
  { intros m Hin Hid.
    exists (row_written m MessageStatus.REJECTED (Message.attempts m)
              (Some (now w)) (Some why)).
    split; [| split; [exact Hid | reflexivity]].
    unfold rows_with. apply in_map_iff. exists m. rewrite Hid, String.eqb_refl.
    now split. }
  repeat split; reflexivity.
Qed.

Lemma for_each_enqueue (hooks : list Webhook.t) (messageId event : string)
    (payload : Json.t) :
  forall w : World,
  exists w',
    for_each hooks (fun webhook =>
        if Js.includes_str (Webhook.events webhook) event then
          Db.webhookDeliveries_create
            (WebhookDeliveryInsert.mk None (Webhook.id webhook) (Some messageId)
               event payload (Some WebhookDeliveryStatus.PENDING) None) ;;;
          ret tt
        else ret tt) w = (Returned tt, w')
    /\ only_deliveries_added w w'
         (enqueued (filter (fun h => Js.includes_str (Webhook.events h) event) hooks)
                   messageId event payload (now w) (next_uuid w)).
Proof.
  induction hooks as [| h hooks IH]; intros w.
  - exists w. split; [reflexivity |]. unfold only_deliveries_added. simpl.
    rewrite app_nil_r, Nat.add_0_r. repeat split; reflexivity.
  - simpl for_each. simpl filter.
    destruct (Js.includes_str (Webhook.events h) event) eqn:Hsub.
    + set (row := WebhookDelivery.mk (uuid (next_uuid w)) (Webhook.id h)
                    (truthy (Some messageId)) event payload
                    WebhookDeliveryStatus.PENDING 0 None (now w)).
      set (w1 := with_webhook_deliveries (fun t => t ++ [row])
                   (with_next_uuid (S (next_uuid w)) w)).
      destruct (IH w1) as [w' [Hrun Hframe]].
      exists w'. split.
      * unfold bind at 1. unfold bind at 1.
        unfold Db.webhookDeliveries_create, uuid_generate_v4, bind, get, modify, ret.
        simpl. exact Hrun.
      * unfold only_deliveries_added in *. simpl enqueued. fold row.
        destruct Hframe as [H1 [H2 [H3 [H4 [H5 [H6 [H7 [H8 [H9 H10]]]]]]]]].
        simpl in H1, H2, H3, H4, H5, H6, H7, H8, H9, H10.
        rewrite H1, H2, H3, H4, H5, H6, H7, H8, H9, H10.
        rewrite <- app_assoc. simpl.
        repeat split; try reflexivity. lia.
    + destruct (IH w) as [w' [Hrun Hframe]].
      exists w'. split; [| exact Hframe].
      unfold bind at 1, ret at 1. exact Hrun.
Qed.

Lemma findActiveByApiKey_run (w : World) (apiKeyId : string) :
  Db.webhooks_findActiveByApiKey apiKeyId w =
  (Returned (ok (Db.order_by_created_at_desc
                   (filter (fun h => String.eqb (Webhook.apiKeyId h) apiKeyId
                                     && Webhook.active h) (webhooks w)))), w).
Proof. reflexivity. Qed.

Lemma triggerWebhookEvent_run (w : World) (apiKeyId messageId event : string)
    (extra : list (string * Json.t)) :
  exists w',
    EmailProcessor.triggerWebhookEvent apiKeyId messageId event extra w
    = (Returned tt, w')
    /\ only_deliveries_added w w'
         (enqueued (subscribers w apiKeyId event) messageId event
                   (event_payload event messageId (now w) extra)
                   (now w) (next_uuid w)).
Proof.
  unfold EmailProcessor.triggerWebhookEvent, try_catch, subscribers.
  rewrite (bind_run _ _ _ _ _ (findActiveByApiKey_run w apiKeyId)).
  destruct (Db.order_by_created_at_desc _) as [| h hooks] eqn:Hhooks.
  - exists w. split; [reflexivity |]. unfold only_deliveries_added. simpl.
    rewrite app_nil_r, Nat.add_0_r. repeat split; reflexivity.
  - rewrite (bind_run get _ w w w eq_refl).
    destruct (for_each_enqueue (h :: hooks) messageId event
                (event_payload event messageId (now w) extra) w) as [w' [Hrun Hframe]].
    exists w'. unfold event_payload in Hrun. rewrite Hrun.
    split; [reflexivity | exact Hframe].
Qed.

Lemma filter_nil_existsb {A : Type} (f : A -> bool) (l : list A) :
  filter f l = [] -> existsb f l = false.
Proof.
  induction l as [| a l IH]; simpl; [reflexivity |].
  destruct (f a); [discriminate | exact IH].
Qed.

Lemma dkim_for_same (w w' : World) (message : Message.t) :
  domains w' = domains w -> dkim_for w' message = dkim_for w message.
Proof.
  intros H. unfold dkim_for, EmailProcessor.getDkimConfig, try_catch.
  destruct (truthy _) as [dom |]; [| reflexivity].
  unfold Db.domains_findByDomain, bind, get, ret. rewrite H.
  destruct (hd_error _) as [domain |]; [| reflexivity].
  destruct (Domain.verified domain), (truthy (Domain.dkimPrivateKey domain)); reflexivity.
Qed.

(** The steps of [processMessage] up to the answer of the transport. *)
Lemma processMessage_to_send {rt : Js.Strings} (config : WorkerConfig) (env : Env) (w : World)
    (message : Message.t) :
  suppression_rows_for w message = [] ->
  EmailProcessor.processMessage config env message w =
  bind (SmtpClient_send env (mail_of message) (dkim_for w message))
    (fun sendResult =>
       match sendResult with
       | SendOk smtpMessageId _ =>
           w <- get ;;
           Db.messages_update (Message.id message)
             (MessageUpdate.mk (Some MessageStatus.SENT) None (Some (Some (now w)))
                None None None) ;;;
           EmailProcessor.triggerWebhookEvent (Message.apiKeyId message)
             (Message.id message) "message.sent"
             [("smtpMessageId", Json.JStr smtpMessageId)] ;;;
           ret (EmailProcessor.mkResult (Message.id message) true
                  MessageStatus.SENT None None)
       | SendFailed error =>
           let newAttempts := Message.attempts message + 1 in
           let maxRetriesReached := maxRetries config <=? newAttempts in
           let shouldRetry := SmtpError.shouldRetry error && negb maxRetriesReached in
           if shouldRetry then
             Db.messages_update (Message.id message)
               (MessageUpdate.mk (Some MessageStatus.QUEUED) (Some newAttempts)
                  None None None (Some (Some (SmtpError.message error)))) ;;;
             ret (EmailProcessor.mkResult (Message.id message) false
                    MessageStatus.QUEUED (Some (SmtpError.message error)) (Some true))
           else
             w <- get ;;
             Db.messages_update (Message.id message)
               (MessageUpdate.mk (Some MessageStatus.FAILED) (Some newAttempts)
                  None None (Some (Some (now w)))
                  (Some (Some (SmtpError.message error)))) ;;;
             (if isHardBounce error then
                EmailProcessor.addToSuppression (Message.apiKeyId message)
                  (Message.toAddress message) SuppressionReason.HARD_BOUNCE ;;;
                EmailProcessor.triggerWebhookEvent (Message.apiKeyId message)
                  (Message.id message) "message.bounced"
                  (EmailProcessor.bounce_payload error)
              else
                EmailProcessor.triggerWebhookEvent (Message.apiKeyId message)
                  (Message.id message) "message.failed"
                  [("failureReason", Json.JStr (SmtpError.message error))]) ;;;
             ret (EmailProcessor.mkResult (Message.id message) false
                    MessageStatus.FAILED (Some (SmtpError.message error)) (Some false))
       end) w.
Proof.
  intros Hnot. unfold suppression_rows_for in Hnot.
  unfold EmailProcessor.processMessage.
  rewrite (bind_run _ _ _ _ _ (checkSuppression_run w _ _)).
  rewrite Hnot.
  change (option_map Suppression.reason (hd_error [])) with (@None SuppressionReason.t).
  cbv iota beta.
  rewrite (bind_run _ _ _ _ _ (getDkimConfig_run w message)).
  reflexivity.
Qed.

Lemma send_refused (env : Env) (w : World) (message : Message.t) (e : NodeError.t) :
  transport_outcome env w message = Refused e ->
  SmtpClient_send env (mail_of message) (dkim_for w message) w =
  (Returned (SendFailed (classifySmtpError e)),
   with_smtp_log (smtp_log w ++ [mkSmtpCall (mail_of message) (dkim_for w message)]) w).
Proof.
  intros H. rewrite SmtpClient_send_run. unfold transport_outcome in H.
  now rewrite H.
Qed.

Lemma send_faulted (env : Env) (w : World) (message : Message.t) (fault : string) :
  transport_outcome env w message = Faulted fault ->
  SmtpClient_send env (mail_of message) (dkim_for w message) w =
  (Thrown fault,
   with_smtp_log (smtp_log w ++ [mkSmtpCall (mail_of message) (dkim_for w message)]) w).
Proof.
  intros H. rewrite SmtpClient_send_run. unfold transport_outcome in H.
  now rewrite H.
Qed.

Lemma addToSuppression_run {rt : Js.Strings} (w : World) (apiKeyId email : string)
    (reason : SuppressionReason.t) :
  filter (Db.suppression_matches apiKeyId (Js.toLowerCase email)) (suppressions w) = [] ->
  EmailProcessor.addToSuppression apiKeyId email reason w =
  (Returned tt,
   with_suppressions
     (fun t => t ++ [Suppression.mk (uuid (next_uuid w)) apiKeyId
                       (Js.toLowerCase email) reason (now w)])
     (with_next_uuid (S (next_uuid w)) w)).
Proof.
  intros H. apply filter_nil_existsb in H.
  unfold EmailProcessor.addToSuppression, Db.suppressions_create.
  unfold bind at 1. unfold bind at 1. unfold get at 1. simpl.
  rewrite H. reflexivity.
Qed.

Lemma retry_flag (error : SmtpError.t) (attempts limit : Z) :
  SmtpError.shouldRetry error && negb (limit <=? attempts + 1)
  = SmtpError.shouldRetry error && (attempts + 1 <? limit).
Proof. now rewrite Z.ltb_antisym. Qed.

(** A failed send that is retried. *)
Lemma processMessage_retry {rt : Js.Strings} (config : WorkerConfig) (env : Env) (w : World)
    (message : Message.t) (e : NodeError.t) :
  suppression_rows_for w message = [] ->
  transport_outcome env w message = Refused e ->
  SmtpError.shouldRetry (classifySmtpError e)
    && (Message.attempts message + 1 <? maxRetries config) = true ->
  EmailProcessor.processMessage config env message w =
  (Returned (EmailProcessor.mkResult (Message.id message) false MessageStatus.QUEUED
               (Some (SmtpError.message (classifySmtpError e))) (Some true)),
   with_messages
     (update_rows (Message.id message)
        (MessageUpdate.mk (Some MessageStatus.QUEUED)
           (Some (Message.attempts message + 1)) None None None
           (Some (Some (SmtpError.message (classifySmtpError e))))))
     (with_smtp_log (smtp_log w ++ [mkSmtpCall (mail_of message) (dkim_for w message)]) w)).
Proof.
  intros Hnot Hsend Hretry.
  rewrite (processMessage_to_send _ _ _ _ Hnot).
  rewrite (bind_run _ _ _ _ _ (send_refused _ _ _ _ Hsend)).
  cbv zeta. rewrite retry_flag, Hretry.
  match goal with
  | |- bind (Db.messages_update ?i ?d) _ ?w0 = _ =>
      destruct (messages_update_run w0 i d eq_refl) as [r Hr];
      rewrite (bind_run _ _ _ _ _ Hr)
  end.
  reflexivity.
Qed.

(** A failed send that is not retried. *)
Lemma processMessage_terminal {rt : Js.Strings} (config : WorkerConfig) (env : Env) (w : World)
    (message : Message.t) (e : NodeError.t) :
  suppression_rows_for w message = [] ->
  transport_outcome env w message = Refused e ->
  SmtpError.shouldRetry (classifySmtpError e)
    && (Message.attempts message + 1 <? maxRetries config) = false ->
  let error := classifySmtpError e in
  exists w',
    EmailProcessor.processMessage config env message w =
    (Returned (EmailProcessor.mkResult (Message.id message) false MessageStatus.FAILED
                 (Some (SmtpError.message error)) (Some false)), w')
    /\ messages w' =
       update_rows (Message.id message)
         (MessageUpdate.mk (Some MessageStatus.FAILED)
            (Some (Message.attempts message + 1)) None None (Some (Some (now w)))
            (Some (Some (SmtpError.message error)))) (messages w)
    /\ smtp_log w' = smtp_log w ++ [mkSmtpCall (mail_of message) (dkim_for w message)]
    /\ http_log w' = http_log w
    /\ if isHardBounce error then
         suppressions w' =
           suppressions w
           ++ [Suppression.mk (uuid (next_uuid w)) (Message.apiKeyId message)
                 (Js.toLowerCase (Message.toAddress message))
                 SuppressionReason.HARD_BOUNCE (now w)]
         /\ webhook_deliveries w' =
            webhook_deliveries w
            ++ enqueued (subscribers w (Message.apiKeyId message) "message.bounced")
                 (Message.id message) "message.bounced"
                 (event_payload "message.bounced" (Message.id message) (now w)
                    (EmailProcessor.bounce_payload error))
                 (now w) (S (next_uuid w))
       else
         suppressions w' = suppressions w
         /\ webhook_deliveries w' =
            webhook_deliveries w
            ++ enqueued (subscribers w (Message.apiKeyId message) "message.failed")
                 (Message.id message) "message.failed"
                 (event_payload "message.failed" (Message.id message) (now w)
                    [("failureReason", Json.JStr (SmtpError.message error))])
                 (now w) (next_uuid w).
Proof.
  intros Hnot Hsend Hterm error.
  rewrite (processMessage_to_send _ _ _ _ Hnot).
  rewrite (bind_run _ _ _ _ _ (send_refused _ _ _ _ Hsend)).
  cbv zeta. rewrite retry_flag, Hterm. fold error.
  set (w1 := with_smtp_log _ w).
  rewrite (bind_run get _ w1 w1 w1 eq_refl).
  match goal with
  | |- context [bind (Db.messages_update ?i ?d) _ ?w0] =>
      destruct (messages_update_run w0 i d eq_refl) as [r Hr];
      rewrite (bind_run _ _ _ _ _ Hr)
  end.
  set (w2 := with_messages _ w1).
  destruct (isHardBounce error) eqn:Hhard.
  - assert (Hnot2 : filter (Db.suppression_matches (Message.apiKeyId message)
                              (Js.toLowerCase (Message.toAddress message)))
                           (suppressions w2) = []) by exact Hnot.
    pose proof (addToSuppression_run w2 _ _ SuppressionReason.HARD_BOUNCE Hnot2) as Hadd.
    set (w3 := with_suppressions _ _) in Hadd.
    destruct (triggerWebhookEvent_run w3 (Message.apiKeyId message) (Message.id message)
                "message.bounced" (EmailProcessor.bounce_payload error))
      as [w' [Htrig Hframe]].
    exists w'.
    unfold bind at 1. unfold bind at 1. rewrite Hadd. rewrite Htrig.
    split; [reflexivity |].
    destruct Hframe as [H1 [H2 [_ [_ [H5 [_ [_ [_ [H9 H10]]]]]]]]].
    rewrite H1, H2, H5, H9, H10.
    repeat split; reflexivity.
  - destruct (triggerWebhookEvent_run w2 (Message.apiKeyId message) (Message.id message)
                "message.failed"
                [("failureReason", Json.JStr (SmtpError.message error))])
      as [w' [Htrig Hframe]].
    exists w'.
    unfold bind at 1. rewrite Htrig.
    split; [reflexivity |].
    destruct Hframe as [H1 [H2 [_ [_ [H5 [_ [_ [_ [H9 H10]]]]]]]]].
    rewrite H1, H2, H5, H9, H10.
    repeat split; reflexivity.
Qed.

Lemma enqueued_hooks (hooks : list Webhook.t) (messageId event : string)
    (payload : Json.t) (time : Z) (n : nat) :
  map WebhookDelivery.webhookId (enqueued hooks messageId event payload time n)
  = map Webhook.id hooks.
Proof.
  revert n. induction hooks as [| h hooks IH]; intros n; simpl; [reflexivity |].
  now rewrite IH.
Qed.

Lemma enqueued_all (P : WebhookDelivery.t -> Prop) (hooks : list Webhook.t)
    (messageId event : string) (payload : Json.t) (time : Z) (n : nat) :
  (forall id hook, P (WebhookDelivery.mk id hook (truthy (Some messageId)) event payload
                        WebhookDeliveryStatus.PENDING 0 None time)) ->
  Forall P (enqueued hooks messageId event payload time n).
Proof.
  intros HP. revert n. induction hooks as [| h hooks IH]; intros n; simpl.
  - constructor.
  - constructor; [apply HP | apply IH].
Qed.

(** C3. When the send of a claimed message fails, with
    [new_attempts = attempts + 1] and
    [should_retry = error.shouldRetry && new_attempts < max_retries]:
    if [should_retry], the row is written back as [queued] with
    [attempts = new_attempts] and the error message as failure reason, and
    no webhook delivery is created; otherwise it is written as [failed]
    with [failed_at] set.  With [max_retries = 0] the first failure is
    terminal.  The stored row is given column by column: on a retry
    [failed_at] and every other column are as they were; rows with another
    id are left as they are. *)
Theorem C3_send_failure_retry_or_fail {rt : Js.Strings}
    (config : WorkerConfig) (env : Env) (w : World) (message : Message.t)
    (e : NodeError.t)
    (Hnot : suppression_rows_for w message = [])
    (Hsend : transport_outcome env w message = Refused e) :
  let error := classifySmtpError e in
  let new_attempts := Message.attempts message + 1 in
  let should_retry :=
    SmtpError.shouldRetry error && (new_attempts <? maxRetries config) in
  exists result w',
    EmailProcessor.processMessage config env message w = (Returned result, w')
    /\ (if should_retry then
          result = EmailProcessor.mkResult (Message.id message) false
                     MessageStatus.QUEUED (Some (SmtpError.message error)) (Some true)
          /\ messages w' =
             rows_with (Message.id message)
               (fun m => row_written m MessageStatus.QUEUED new_attempts
                           (Message.failedAt m) (Some (SmtpError.message error)))
               (messages w)
          /\ (forall m, In m (messages w') -> Message.id m = Message.id message ->
                        Message.status m = MessageStatus.QUEUED
                        /\ Message.attempts m = new_attempts
                        /\ Message.failureReason m = Some (SmtpError.message error))
          /\ webhook_deliveries w' = webhook_deliveries w
          /\ suppressions w' = suppressions w
        else
          result = EmailProcessor.mkResult (Message.id message) false
                     MessageStatus.FAILED (Some (SmtpError.message error)) (Some false)
          /\ messages w' =
             rows_with (Message.id message)
               (fun m => row_written m MessageStatus.FAILED new_attempts
                           (Some (now w)) (Some (SmtpError.message error)))
               (messages w)
          /\ (forall m, In m (messages w') -> Message.id m = Message.id message ->
                        Message.status m = MessageStatus.FAILED
                        /\ Message.attempts m = new_attempts
                        /\ Message.failedAt m = Some (now w)
                        /\ Message.failureReason m = Some (SmtpError.message error)))
    /\ (forall m, In m (messages w) -> Message.id m = Message.id message ->
                  exists m', In m' (messages w') /\ Message.id m' = Message.id message)
    /\ (maxRetries config = 0 -> 0 <= Message.attempts message ->
        should_retry = false
        /\ EmailProcessor.status result = MessageStatus.FAILED
        /\ forall m, In m (messages w') -> Message.id m = Message.id message ->
                     Message.status m = MessageStatus.FAILED).
Proof.
  intros error new_attempts should_retry.
  assert (Hkept : forall f w',
            messages w' = rows_with (Message.id message) f (messages w) ->
            (forall x, Message.id (f x) = Message.id x) ->
            forall m, In m (messages w) -> Message.id m = Message.id message ->
                      exists m', In m' (messages w')
                                 /\ Message.id m' = Message.id message).
  { intros f w' Hrows Hf m Hin Hid. exists (f m). rewrite Hrows. split.
    - unfold rows_with. apply in_map_iff. exists m. rewrite Hid, String.eqb_refl.
      now split.
    - now rewrite Hf. }
  destruct should_retry eqn:Hflag; subst should_retry.
  - pose proof (processMessage_retry config env w message e Hnot Hsend Hflag) as Hrun.
    eexists. eexists. split; [exact Hrun |].
    assert (Hrows : messages
                      (with_messages
                         (update_rows (Message.id message)
                            (MessageUpdate.mk (Some MessageStatus.QUEUED)
                               (Some (Message.attempts message + 1)) None None None
                               (Some (Some (SmtpError.message (classifySmtpError e))))))
                         (with_smtp_log
                            (smtp_log w ++ [mkSmtpCall (mail_of message)
                                              (dkim_for w message)]) w))
                    = rows_with (Message.id message)
                        (fun m => row_written m MessageStatus.QUEUED new_attempts
                                    (Message.failedAt m) (Some (SmtpError.message error)))
                        (messages w)) by reflexivity.
    split; [| split].
    + split; [reflexivity |]. split; [exact Hrows |]. rewrite Hrows.
      split; [| split; reflexivity].
      intros m Hin Hid.
      apply rows_with_In in Hin as [m0 [[_ [_ ->]] | [_ Hne]]]; [| contradiction].
      repeat split.
    + apply (Hkept _ _ Hrows). reflexivity.
    + intros Hzero Hpos. exfalso.
      apply andb_true_iff in Hflag as [_ Hlt]. apply Z.ltb_lt in Hlt.
      unfold new_attempts in Hlt. lia.
  - destruct (processMessage_terminal config env w message e Hnot Hsend Hflag)
      as [w' [Hrun [Hmsgs _]]].
    assert (Hrows : messages w'
                    = rows_with (Message.id message)
                        (fun m => row_written m MessageStatus.FAILED new_attempts
                                    (Some (now w)) (Some (SmtpError.message error)))
                        (messages w)) by (rewrite Hmsgs; reflexivity).
    assert (Hall : forall m, In m (messages w') -> Message.id m = Message.id message ->
                     Message.status m = MessageStatus.FAILED
                     /\ Message.attempts m = new_attempts
                     /\ Message.failedAt m = Some (now w)
                     /\ Message.failureReason m = Some (SmtpError.message error)).
    { intros m Hin Hid. rewrite Hrows in Hin.
      apply rows_with_In in Hin as [m0 [[_ [_ ->]] | [_ Hne]]]; [| contradiction].
      repeat split. }
    eexists. exists w'. split; [exact Hrun |].
    split; [split; [reflexivity | split; [exact Hrows | exact Hall]] |].
    split; [apply (Hkept _ _ Hrows); reflexivity |].
    intros _ _. split; [reflexivity |]. split; [reflexivity |].
    intros m Hin Hid. exact (proj1 (Hall m Hin Hid)).
Qed.


Lemma primary_key_row {A : Type} (id : A -> string) (rows : list A) (a b : A) :
  NoDup (map id rows) -> In a rows -> In b rows -> id a = id b -> a = b.
Proof.
  induction rows as [| r rows IH]; intros Hnd Ha Hb Hid; [destruct Ha |].
  simpl in Hnd. inversion Hnd as [| ? ? Hnotin Hnd']; subst.
  destruct Ha as [-> | Ha], Hb as [-> | Hb].
  - reflexivity.
  - exfalso. apply Hnotin. rewrite Hid. now apply in_map.
  - exfalso. apply Hnotin. rewrite <- Hid. now apply in_map.
  - now apply IH.
Qed.

Lemma claimNext_run (w : World) (m : Message.t) :
  NoDup (map Message.id (messages w)) ->
  Sql.select_next_queued (row_locks w) (messages w) = Some m ->
  Db.messages_claimNext w =
  (Returned (ok (Some (Sql.set_processing m))),
   with_messages
     (fun _ => map (fun x => if String.eqb (Message.id x) (Message.id m)
                             then Sql.set_processing x else x) (messages w)) w).
Proof.
  intros PK Hsel. unfold Db.messages_claimNext, bind, get.
  rewrite (claim_next_message_some "worker" _ _ _ PK Hsel). reflexivity.
Qed.

(** C9. When processing the claimed message throws, [processNext] writes
    the row back as [queued] with [attempts] one higher and the reason
    ["Processing error: ..."], whatever [max_retries] is and however many
    attempts the row already had: the row is never set to [failed] on this
    path, and its counter can pass [max_retries]. *)
Theorem C9_exception_requeues_without_bound {rt : Js.Strings}
    (config : WorkerConfig) (env : Env) (w : World) (m : Message.t) (fault : string)
    (PK : NoDup (map Message.id (messages w)))
    (Hclaim : Sql.select_next_queued (row_locks w) (messages w) = Some m)
    (Hnot : suppression_rows_for w m = [])
    (Hfault : transport_outcome env w m = Faulted fault) :
  let requeued :=
    MessageUpdate.apply
      (MessageUpdate.mk (Some MessageStatus.QUEUED) (Some (Message.attempts m + 1))
         None None None (Some (Some ("Processing error: " +++ fault))))
      (Sql.set_processing m) in
  exists w',
    EmailProcessor.processNext config env w =
    (Returned (Some (EmailProcessor.mkResult (Message.id m) false MessageStatus.QUEUED
                       (Some fault) (Some true))), w')
    /\ In requeued (messages w')
    /\ (forall x, In x (messages w') -> Message.id x = Message.id m -> x = requeued)
    /\ Message.status requeued = MessageStatus.QUEUED
    /\ Message.attempts requeued = Message.attempts m + 1
    /\ Message.failedAt requeued = Message.failedAt m
    /\ (maxRetries config <= Message.attempts m ->
        maxRetries config < Message.attempts requeued)
    /\ webhook_deliveries w' = webhook_deliveries w
    /\ suppressions w' = suppressions w.
Proof.
  intros requeued.
  pose proof (select_next_queued_spec _ _ _ Hclaim) as [Hin _].
  set (claimed := map (fun x => if String.eqb (Message.id x) (Message.id m)
                                then Sql.set_processing x else x) (messages w)).
  set (w1 := with_messages (fun _ => claimed) w).
  assert (Hthrow : EmailProcessor.processMessage config env (Sql.set_processing m) w1
                   = (Thrown fault,
                      with_smtp_log (smtp_log w1 ++
                        [mkSmtpCall (mail_of (Sql.set_processing m))
                                    (dkim_for w1 (Sql.set_processing m))]) w1)).
  { rewrite (processMessage_to_send config env w1 (Sql.set_processing m) Hnot).
    apply bind_throw. apply send_faulted.
    unfold transport_outcome.
    rewrite (dkim_for_same w w1 (Sql.set_processing m) eq_refl).
    exact Hfault. }
  set (w2 := with_smtp_log _ w1) in Hthrow.
  set (data := MessageUpdate.mk (Some MessageStatus.QUEUED)
                 (Some (Message.attempts m + 1)) None None None
                 (Some (Some ("Processing error: " +++ fault)))).
  destruct (messages_update_run w2 (Message.id m) data eq_refl) as [r Hr].
  exists (with_messages (update_rows (Message.id m) data) w2).
  split.
  - unfold EmailProcessor.processNext.
    rewrite (bind_run _ _ _ _ _ (claimNext_run w m PK Hclaim)).
    fold claimed. fold w1. cbv iota beta.
    unfold try_catch at 1.
    rewrite (bind_throw _ _ _ _ _ Hthrow).
    unfold bind at 1. unfold try_catch at 1.
    change (Message.id (Sql.set_processing m)) with (Message.id m).
    change (Message.attempts (Sql.set_processing m)) with (Message.attempts m).
    fold data. rewrite (bind_run _ _ _ _ _ Hr). reflexivity.
  - assert (Hrows : messages (with_messages (update_rows (Message.id m) data) w2)
                    = update_rows (Message.id m) data claimed) by reflexivity.
    rewrite Hrows.
    split.
    { unfold update_rows, claimed. apply in_map_iff.
      exists (Sql.set_processing m). split.
      - change (Message.id (Sql.set_processing m)) with (Message.id m).
        rewrite String.eqb_refl. reflexivity.
      - apply in_map_iff. exists m. rewrite String.eqb_refl. now split. }
    split.
    { intros x Hx Hid. unfold update_rows, claimed in Hx.
      apply in_map_iff in Hx as [y [Hxy Hy]].
      apply in_map_iff in Hy as [z [Hyz Hz]].
      assert (Hidy : Message.id y = Message.id z)
        by (rewrite <- Hyz; destruct (String.eqb (Message.id z) (Message.id m));
            reflexivity).
      assert (Hidx : Message.id x = Message.id y)
        by (rewrite <- Hxy; destruct (String.eqb (Message.id y) (Message.id m));
            reflexivity).
      assert (Hzm : z = m).
      { apply (primary_key_row Message.id (messages w)); try assumption. congruence. }
      subst z. rewrite String.eqb_refl in Hyz. subst y.
      change (Message.id (Sql.set_processing m)) with (Message.id m) in Hxy.
      rewrite String.eqb_refl in Hxy. subst x. reflexivity. }
    repeat split; try reflexivity.
    intros Hmax. change (Message.attempts requeued) with (Message.attempts m + 1). lia.
Qed.

(* ====================================================================== *)
(** * The webhook dispatcher *)
(* ====================================================================== *)

Lemma hex_digit_lower (n : nat) : lower_hex (Json.hex_digit n) = true.
Proof. do 15 (destruct n as [| n]; [reflexivity |]). reflexivity. Qed.

Lemma hex_lower (bs : list Z) : all_chars lower_hex (Sha256.hex bs) = true.
Proof.
  induction bs as [| b bs IH]; [reflexivity |].
  simpl. rewrite !hex_digit_lower. exact IH.
Qed.

Lemma hex_length (bs : list Z) :
  String.length (Sha256.hex bs) = (2 * List.length bs)%nat.
Proof.
  induction bs as [| b bs IH]; [reflexivity |].
  simpl. rewrite IH. lia.
Qed.

Lemma sha256_length (msg : list Z) : List.length (Sha256.sha256 msg) = 32%nat.
Proof.
  unfold Sha256.sha256.
  generalize (Sha256.blocks (List.length (Sha256.pad msg)) Sha256.H0 (Sha256.pad msg)).
  intros st. reflexivity.
Qed.

Lemma hmac_hex_shape (key data : string) :
  String.length (Sha256.hmac_hex key data) = 64%nat
  /\ all_chars lower_hex (Sha256.hmac_hex key data) = true.
Proof.
  unfold Sha256.hmac_hex. split; [| apply hex_lower].
  rewrite hex_length. unfold Sha256.hmac. now rewrite sha256_length.
Qed.

Lemma generateWebhookHeaders_run (w : World) (payload secret event : string) :
  WebhookProcessor.generateWebhookHeaders payload secret event w =
  (Returned
     [("Content-Type", "application/json");
      ("X-OpenSend-Event", event);
      ("X-OpenSend-Timestamp", Js.num_toString (now w));
      ("X-OpenSend-Signature",
       "v1=" +++ Sha256.hmac_hex secret (Js.num_toString (now w) +++ "." +++ payload))],
   w).
Proof. reflexivity. Qed.

(** C8. The request a dispatch posts carries the serialized payload as its
    body, the millisecond clock reading as [X-OpenSend-Timestamp], and as
    [X-OpenSend-Signature] the text ["v1="] followed by the HMAC-SHA256,
    keyed by the webhook's secret, of ["<timestamp>.<body>"], written as
    64 lowercase hexadecimal digits.  The signature is a function of the
    timestamp, the payload and the secret only. *)
Theorem C8_webhook_signature_header
    (env : Env) (w : World) (delivery : WebhookDelivery.t) (webhook : Webhook.t) :
  let body := Json.stringify (WebhookDelivery.payload delivery) in
  let timestamp := Js.num_toString (now w) in
  let digest := Sha256.hmac_hex (Webhook.secret webhook) (timestamp +++ "." +++ body) in
  (exists result w' request,
      WebhookProcessor.dispatchWebhook env delivery webhook w = (Returned result, w')
      /\ http_log w' = http_log w ++ [request]
      /\ HttpRequest.url request = Webhook.url webhook
      /\ HttpRequest.method request = "POST"
      /\ HttpRequest.body request = body
      /\ header "Content-Type" (HttpRequest.headers request) = Some "application/json"
      /\ header "X-OpenSend-Event" (HttpRequest.headers request)
         = Some (WebhookDelivery.event delivery)
      /\ header "X-OpenSend-Timestamp" (HttpRequest.headers request) = Some timestamp
      /\ header "X-OpenSend-Signature" (HttpRequest.headers request)
         = Some ("v1=" +++ digest))
  /\ String.length digest = 64%nat
  /\ all_chars lower_hex digest = true
  /\ (forall (w1 w2 : World) (payload secret event1 event2 : string),
        now w1 = now w2 ->
        exists h1 h2,
          WebhookProcessor.generateWebhookHeaders payload secret event1 w1
          = (Returned h1, w1)
          /\ WebhookProcessor.generateWebhookHeaders payload secret event2 w2
             = (Returned h2, w2)
          /\ header "X-OpenSend-Signature" h1 = header "X-OpenSend-Signature" h2
          /\ header "X-OpenSend-Timestamp" h1 = header "X-OpenSend-Timestamp" h2).
Proof.
  intros body timestamp digest.
  split; [| split; [apply hmac_hex_shape | split; [apply hmac_hex_shape |]]].
  - unfold WebhookProcessor.dispatchWebhook.
    rewrite (bind_run _ _ _ _ _ (generateWebhookHeaders_run w _ _ _)).
    rewrite (bind_run get _ w w w eq_refl).
    unfold bind at 1, modify at 1.
    destruct (fetch env (http_log w) _) as [status statusText | | message].
    + destruct ((200 <=? status) && (status <? 300));
        (eexists; eexists; eexists; split; [reflexivity |]);
        repeat split; reflexivity.
    + eexists; eexists; eexists; split; [reflexivity |].
      repeat split; reflexivity.
    + eexists; eexists; eexists; split; [reflexivity |].
      repeat split; reflexivity.
  - intros w1 w2 payload secret event1 event2 Hclock.
    eexists. eexists.
    split; [apply generateWebhookHeaders_run |].
    split; [apply generateWebhookHeaders_run |].
    simpl. rewrite Hclock. split; reflexivity.
Qed.

Lemma webhooks_findById_run (w : World) (id : string) :
  Db.webhooks_findById id w =
  (Returned (ok (hd_error (filter (fun h => String.eqb (Webhook.id h) id) (webhooks w)))), w).
Proof. reflexivity. Qed.

Lemma webhookDeliveries_claimNext_run (w : World) (d : WebhookDelivery.t) :
  NoDup (map WebhookDelivery.id (webhook_deliveries w)) ->
  Sql.select_next_pending (now w) (row_locks w) (webhook_deliveries w) = Some d ->
  Db.webhookDeliveries_claimNext w =
  (Returned (ok (Some (Sql.set_claimed (now w) d))),
   with_webhook_deliveries
     (fun _ => map (fun x => if String.eqb (WebhookDelivery.id x) (WebhookDelivery.id d)
                             then Sql.set_claimed (now w) x else x)
                   (webhook_deliveries w)) w).
Proof.
  intros PK Hsel. unfold Db.webhookDeliveries_claimNext, bind, get.
  rewrite (claim_next_webhook_delivery_some _ _ _ _ PK Hsel). reflexivity.
Qed.

Lemma getWebhook_run (w : World) (id : string) :
  WebhookProcessor.getWebhook id w =
  (Returned (hd_error (filter (fun h => String.eqb (Webhook.id h) id) (webhooks w))), w).
Proof.
  unfold WebhookProcessor.getWebhook.
  rewrite (bind_run _ _ _ _ _ (webhooks_findById_run w id)). reflexivity.
Qed.

Lemma write_back_run (w : World) (id : string) (status : WebhookDeliveryStatus.t)
    (attempts : Z) :
  WebhookProcessor.write_back id status attempts w =
  (Returned tt,
   with_webhook_deliveries
     (map (fun d => if String.eqb (WebhookDelivery.id d) id
                    then WebhookDeliveryUpdate.apply
                           (WebhookDeliveryUpdate.mk (Some status) (Some attempts)
                              (Some (Some (now w)))) d
                    else d)) w).
Proof. reflexivity. Qed.

Lemma dispatch_refused (env : Env) (w : World) (delivery : WebhookDelivery.t)
    (webhook : Webhook.t) (status : Z) (statusText : string) :
  (forall request, fetch env (http_log w) request = Response status statusText) ->
  (200 <=? status) && (status <? 300) = false ->
  exists request,
    WebhookProcessor.dispatchWebhook env delivery webhook w =
    (Returned (WebhookProcessor.mkDispatch false (Some status)
                 (Some ("HTTP " +++ Js.num_toString status +++ ": " +++ statusText))),
     with_http_log (http_log w ++ [request]) w).
Proof.
  intros Hfetch Hbad. unfold WebhookProcessor.dispatchWebhook.
  rewrite (bind_run _ _ _ _ _ (generateWebhookHeaders_run w _ _ _)).
  rewrite (bind_run get _ w w w eq_refl).
  unfold bind at 1, modify at 1. rewrite Hfetch, Hbad.
  eexists. reflexivity.
Qed.

(** One claim followed by one failed POST moves the counter of the row by
    two: one at the claim, one at the write-back. *)
Lemma failed_post_counts_twice
    (config : WorkerConfig) (env : Env) (w : World) (d : WebhookDelivery.t)
    (hook : Webhook.t) (rest : list Webhook.t) (status : Z) (statusText : string) :
  NoDup (map WebhookDelivery.id (webhook_deliveries w)) ->
  Sql.select_next_pending (now w) (row_locks w) (webhook_deliveries w) = Some d ->
  filter (fun h => String.eqb (Webhook.id h) (WebhookDelivery.webhookId d)) (webhooks w)
  = hook :: rest ->
  Webhook.active hook = true ->
  (forall request, fetch env (http_log w) request = Response status statusText) ->
  (200 <=? status) && (status <? 300) = false ->
  let after :=
    WebhookDeliveryUpdate.apply
      (WebhookDeliveryUpdate.mk
         (Some (if maxWebhookRetries config <=? WebhookDelivery.attempts d + 2
                then WebhookDeliveryStatus.FAILED else WebhookDeliveryStatus.PENDING))
         (Some (WebhookDelivery.attempts d + 2)) (Some (Some (now w))))
      d in
  exists r w',
    WebhookProcessor.processNext config env w = (Returned r, w')
    /\ List.length (http_log w') = S (List.length (http_log w))
    /\ In after (webhook_deliveries w').
Proof.
  intros PK Hsel Hhook Hactive Hfetch Hbad after.
  pose proof (select_next_pending_spec _ _ _ _ Hsel) as [Hin _].
  set (claimed := map (fun x => if String.eqb (WebhookDelivery.id x) (WebhookDelivery.id d)
                                then Sql.set_claimed (now w) x else x)
                      (webhook_deliveries w)).
  set (w1 := with_webhook_deliveries (fun _ => claimed) w).
  destruct (dispatch_refused env w1 (Sql.set_claimed (now w) d) hook status statusText
              Hfetch Hbad) as [request Hdispatch].
  set (w2 := with_http_log (http_log w1 ++ [request]) w1) in Hdispatch.
  set (verdict := if maxWebhookRetries config <=? WebhookDelivery.attempts d + 2
                  then WebhookDeliveryStatus.FAILED else WebhookDeliveryStatus.PENDING).
  assert (Hdelivery :
    exists r, WebhookProcessor.processDelivery config env (Sql.set_claimed (now w) d) w1
              = (Returned r,
                 with_webhook_deliveries
                   (map (fun x => if String.eqb (WebhookDelivery.id x) (WebhookDelivery.id d)
                                  then WebhookDeliveryUpdate.apply
                                         (WebhookDeliveryUpdate.mk (Some verdict)
                                            (Some (WebhookDelivery.attempts d + 2))
                                            (Some (Some (now w)))) x
                                  else x)) w2)).
  { unfold WebhookProcessor.processDelivery.
    rewrite (bind_run _ _ _ _ _ (getWebhook_run w1 _)).
    change (WebhookDelivery.webhookId (Sql.set_claimed (now w) d))
      with (WebhookDelivery.webhookId d).
    change (webhooks w1) with (webhooks w). rewrite Hhook.
    change (hd_error (hook :: rest)) with (Some hook).
    cbv iota beta. rewrite Hactive. cbn [negb].
    rewrite (bind_run _ _ _ _ _ Hdispatch).
    cbv zeta. cbn [WebhookProcessor.d_success].
    change (WebhookDelivery.attempts (Sql.set_claimed (now w) d) + 1)
      with (WebhookDelivery.attempts d + 1 + 1).
    replace (WebhookDelivery.attempts d + 1 + 1) with (WebhookDelivery.attempts d + 2)
      by lia.
    change (WebhookDelivery.id (Sql.set_claimed (now w) d)) with (WebhookDelivery.id d).
    unfold verdict.
    destruct (maxWebhookRetries config <=? WebhookDelivery.attempts d + 2);
      cbn [negb];
      rewrite (bind_run _ _ _ _ _ (write_back_run w2 _ _ _));
      eexists; reflexivity. }
  destruct Hdelivery as [r Hdelivery].
  eexists. eexists. split.
  - unfold WebhookProcessor.processNext.
    rewrite (bind_run _ _ _ _ _ (webhookDeliveries_claimNext_run w d PK Hsel)).
    fold claimed. fold w1. cbv iota beta.
    unfold try_catch at 1.
    rewrite (bind_run _ _ _ _ _ Hdelivery). reflexivity.
  - split.
    + simpl. rewrite length_app. simpl. lia.
    + simpl. unfold claimed. rewrite map_map. apply in_map_iff. exists d.
      split; [| assumption].
      rewrite String.eqb_refl.
      change (WebhookDelivery.id (Sql.set_claimed (now w) d)) with (WebhookDelivery.id d).
      rewrite String.eqb_refl. reflexivity.
Qed.

(** C1. One pending delivery, the default limit of five retries, and an
    endpoint that answers 503 to every POST, polled every 31 seconds: the
    counter reads 2, 4, 6 after the first three POSTs, the third POST
    marks the row [failed], and no further POST is made.  Five POSTs, and
    a counter that moves by one per POST, are not what the code does. *)
Theorem C1_webhook_retries_cut_short :
  map (fun n => observed (webhook_polls default_config env_503 31000 n world_hook))
      [0; 1; 2; 3; 4; 5; 6; 7]%nat
  = [(0%nat, [(WebhookDeliveryStatus.PENDING, 0)]);
     (1%nat, [(WebhookDeliveryStatus.PENDING, 2)]);
     (2%nat, [(WebhookDeliveryStatus.PENDING, 4)]);
     (3%nat, [(WebhookDeliveryStatus.FAILED, 6)]);
     (3%nat, [(WebhookDeliveryStatus.FAILED, 6)]);
     (3%nat, [(WebhookDeliveryStatus.FAILED, 6)]);
     (3%nat, [(WebhookDeliveryStatus.FAILED, 6)]);
     (3%nat, [(WebhookDeliveryStatus.FAILED, 6)])].
Proof. vm_compute. reflexivity. Qed.


(** ** Further runs *)


(** An endpoint that recovers at its fifth request is never asked a fourth
    time: the delivery is [failed] after three POSTs. *)
Example recovering_endpoint_not_reached :
  map (fun n => observed (webhook_polls default_config env_recovers 31000 n world_hook))
      [3; 5; 8]%nat
  = [(3%nat, [(WebhookDeliveryStatus.FAILED, 6)]);
     (3%nat, [(WebhookDeliveryStatus.FAILED, 6)]);
     (3%nat, [(WebhookDeliveryStatus.FAILED, 6)])].
Proof. vm_compute. reflexivity. Qed.

(* ====================================================================== *)
(** * The store and the API services *)
(* ====================================================================== *)

(* ====================================================================== *)
(** * The suppression list: store and service *)
(* ====================================================================== *)

Lemma ascii_toLowerCase_idem (c : ascii) :
  Js.ascii_toLowerCase (Js.ascii_toLowerCase c) = Js.ascii_toLowerCase c.
Proof. destruct c as [[] [] [] [] [] [] [] []]; reflexivity. Qed.

Lemma lower_ascii_idem (s : string) :
  Js.lower_ascii (Js.lower_ascii s) = Js.lower_ascii s.
Proof.
  induction s as [| c s IH]; [reflexivity |].
  simpl. now rewrite ascii_toLowerCase_idem, IH.
Qed.

(** What [suppressions.create] does, case by case. *)
Lemma suppressions_create_cases {rt : Js.Strings} (w : World) (data : SuppressionInsert.t) :
  let same := Db.suppression_matches (SuppressionInsert.api_key_id data)
                (Js.toLowerCase (SuppressionInsert.email data)) in
  (exists s rest, filter same (suppressions w) = s :: rest
                  /\ Db.suppressions_create data w = (Returned (ok s), w))
  \/ (filter same (suppressions w) = []
      /\ ((exists e, Db.suppressions_create data w = (Returned (err e), w)
                     /\ truthy (SuppressionInsert.id data) <> None)
          \/ exists id w1,
               Db.suppressions_create data w
               = (Returned (ok (Suppression.mk id (SuppressionInsert.api_key_id data)
                                  (Js.toLowerCase (SuppressionInsert.email data))
                                  (SuppressionInsert.reason data) (now w))), w1)
               /\ suppressions w1
                  = suppressions w
                    ++ [Suppression.mk id (SuppressionInsert.api_key_id data)
                          (Js.toLowerCase (SuppressionInsert.email data))
                          (SuppressionInsert.reason data) (now w)]
               /\ messages w1 = messages w
               /\ webhook_deliveries w1 = webhook_deliveries w
               /\ (truthy (SuppressionInsert.id data) = None -> id = uuid (next_uuid w)))).
Proof.
  intros same.
  destruct (existsb same (suppressions w)) eqn:He.
  - left. destruct (existsb_true_filter _ _ He) as [s [rest Hs]].
    exists s, rest. split; [exact Hs |].
    now apply suppressions_create_existing with (rest := rest).
  - right. split; [now apply existsb_false_filter |].
    unfold Db.suppressions_create, bind, get. simpl. fold same. rewrite He.
    destruct (truthy (SuppressionInsert.id data)) as [id |] eqn:Hid.
    + destruct (existsb (fun s => String.eqb (Suppression.id s) id) (suppressions w)).
      * left. eexists. split; [reflexivity | discriminate].
      * right. exists id. eexists. unfold modify, ret.
        split; [reflexivity |]. repeat split; try reflexivity. discriminate.
    + right. exists (uuid (next_uuid w)). eexists.
      unfold uuid_generate_v4, bind, get, modify, ret.
      split; [reflexivity |]. repeat split; reflexivity.
Qed.

Lemma matches_spec (apiKeyId email : string) (s : Suppression.t) :
  Db.suppression_matches apiKeyId email s = true
  <-> Suppression.apiKeyId s = apiKeyId /\ Suppression.email s = email.
Proof.
  unfold Db.suppression_matches. rewrite andb_true_iff, !String.eqb_eq. tauto.
Qed.

Lemma NoDup_app_intro_one {A : Type} (l : list A) (a : A) :
  NoDup l -> ~ In a l -> NoDup (l ++ [a]).
Proof.
  induction l as [| b l IH]; intros Hnd Hnot; simpl.
  - constructor; [intros [] | constructor].
  - inversion Hnd as [| ? ? Hb Hl]; subst. constructor.
    + intros Hin. apply in_app_iff in Hin as [Hin | [Heq | []]]; [contradiction |].
      apply Hnot. now left.
    + apply IH; [assumption |]. intros Hin. apply Hnot. now right.
Qed.

(** X1. [suppressions.create] keeps the unique index
    [(api_key_id, email)] of the table, whatever it is given and whether it
    inserts, finds the row or fails; every stored address is one that was
    stored before or the lowering of the address given; and if the stored
    addresses were in lowercase (lowering leaves them as they are) and
    lowering the given address twice is lowering it once, they still are. *)
Theorem suppressions_create_keeps_index {rt : Js.Strings}
    (w w1 : World) (data : SuppressionInsert.t) (r : Outcome (Result Suppression.t))
    (Hunique : suppressions_unique (suppressions w))
    (Hrun : Db.suppressions_create data w = (r, w1)) :
  suppressions_unique (suppressions w1)
  /\ (forall s, In s (suppressions w1) ->
                 In s (suppressions w)
                 \/ Suppression.email s = Js.toLowerCase (SuppressionInsert.email data))
  /\ ((forall s, In s (suppressions w) ->
                  Js.toLowerCase (Suppression.email s) = Suppression.email s) ->
      Js.toLowerCase (Js.toLowerCase (SuppressionInsert.email data))
      = Js.toLowerCase (SuppressionInsert.email data) ->
      forall s, In s (suppressions w1) ->
                Js.toLowerCase (Suppression.email s) = Suppression.email s).
Proof.
  assert (Hold : forall s, In s (suppressions w1) ->
            In s (suppressions w)
            \/ Suppression.email s = Js.toLowerCase (SuppressionInsert.email data)).
  { destruct (suppressions_create_cases w data)
      as [[s [rest [_ Hc]]] | [Hnone [[e [Hc _]] | [id [w2 [Hc [Hs _]]]]]]];
      rewrite Hc in Hrun; inversion Hrun; subst; try (intros s0 H0; now left).
    intros s0 H0. rewrite Hs in H0. apply in_app_iff in H0 as [H0 | [<- | []]].
    - now left.
    - right. reflexivity. }
  split; [| split; [exact Hold |]].
  - destruct (suppressions_create_cases w data)
      as [[s [rest [_ Hc]]] | [Hnone [[e [Hc _]] | [id [w2 [Hc [Hs _]]]]]]];
      rewrite Hc in Hrun; inversion Hrun; subst; try assumption.
    rewrite Hs.
    unfold suppressions_unique in *. rewrite map_app. simpl.
    apply NoDup_app_intro_one; [exact Hunique |].
    intros Hin. apply in_map_iff in Hin as [s [Hkey Hin]].
    inversion Hkey as [[Hk He]].
    assert (Hm : In s (filter (Db.suppression_matches (SuppressionInsert.api_key_id data)
                                 (Js.toLowerCase (SuppressionInsert.email data)))
                              (suppressions w))).
    { apply filter_In. split; [exact Hin |]. apply matches_spec. now split. }
    rewrite Hnone in Hm. destruct Hm.
  - intros Hlower Hstable s Hin.
    destruct (Hold s Hin) as [Hwas | ->]; [now apply Hlower | exact Hstable].
Qed.

Lemma create_then_found {rt : Js.Strings} (w w1 : World) (data : SuppressionInsert.t)
    (s : Suppression.t) :
  Db.suppressions_create data w = (Returned (ok s), w1) ->
  exists rest,
    filter (Db.suppression_matches (SuppressionInsert.api_key_id data)
              (Js.toLowerCase (SuppressionInsert.email data))) (suppressions w1)
    = s :: rest.
Proof.
  intros Hrun.
  destruct (suppressions_create_cases w data)
    as [[s0 [rest [Hf Hc]]] | [Hnone [[e [Hc _]] | [id [w2 [Hc [Hs _]]]]]]];
    rewrite Hc in Hrun; inversion Hrun; subst.
  - now exists rest.
  - exists []. rewrite Hs, filter_app, Hnone. simpl.
    unfold Db.suppression_matches. simpl. now rewrite !String.eqb_refl.
Qed.

Lemma filter_out_then_in {A : Type} (f : A -> bool) (l : list A) :
  filter f (filter (fun x => negb (f x)) l) = [].
Proof.
  induction l as [| a l IH]; [reflexivity |].
  simpl. destruct (f a) eqn:Ha; simpl; [exact IH |]. now rewrite Ha.
Qed.

(** X2. Through the suppression service, an address added for a
    tenant is reported as suppressed under any spelling that differs only
    in letter case and surrounding white space; [remove] under such a
    spelling deletes it and answers [true], after which the address is no
    longer suppressed and a second [remove] answers [RECORD_NOT_FOUND]
    (404) and changes nothing. *)
Theorem suppression_service_round_trip {rt : Js.Strings}
    (w : World) (tenant email other : string) (reason : SuppressionReason.t)
    (Hsame : Js.trim (Js.toLowerCase other) = Js.trim (Js.toLowerCase email)) :
  exists s w1 w2,
    SuppressionService.add tenant email reason w = (Returned (ok s), w1)
    /\ Suppression.apiKeyId s = tenant
    /\ Suppression.email s = Js.toLowerCase (Js.trim (Js.toLowerCase email))
    /\ SuppressionService.isSuppressed tenant other w1 = (Returned (ok true), w1)
    /\ SuppressionService.get tenant other w1 = (Returned (ok (Some s)), w1)
    /\ SuppressionService.remove tenant other w1 = (Returned (ok true), w2)
    /\ SuppressionService.isSuppressed tenant other w2 = (Returned (ok false), w2)
    /\ SuppressionService.get tenant other w2 = (Returned (ok None), w2)
    /\ SuppressionService.remove tenant other w2
       = (Returned (err (RecordNotFoundError "Suppression"
                           (Js.trim (Js.toLowerCase other)))), w2).
Proof.
  set (data := SuppressionInsert.mk None tenant (Js.trim (Js.toLowerCase email)) reason).
  set (same := Db.suppression_matches tenant
                 (Js.toLowerCase (Js.trim (Js.toLowerCase email)))).
  assert (Hadd : exists s w1, Db.suppressions_create data w = (Returned (ok s), w1)).
  { destruct (suppressions_create_cases w data)
      as [[s [rest [_ Hc]]] | [_ [[e [_ Hid]] | [id [w1 [Hc _]]]]]]; eauto.
    exfalso. apply Hid. reflexivity. }
  destruct Hadd as [s [w1 Hadd]].
  destruct (create_then_found _ _ _ _ Hadd) as [rest Hhead].
  change (filter same (suppressions w1) = s :: rest) in Hhead.
  assert (Hin : In s (filter same (suppressions w1))) by (rewrite Hhead; now left).
  apply filter_In in Hin as [_ Hm]. apply matches_spec in Hm as [Hk He].
  assert (Hex : existsb same (suppressions w1) = true).
  { destruct (existsb same (suppressions w1)) eqn:E; [reflexivity |].
    apply existsb_false_filter in E. rewrite E in Hhead. discriminate. }
  assert (Hgone : filter same (filter (fun x => negb (same x)) (suppressions w1)) = [])
    by apply filter_out_then_in.
  pose proof (filter_nil_existsb _ _ Hgone) as Hgone'.
  exists s, w1, (with_suppressions (filter (fun x => negb (same x))) w1).
  split; [exact Hadd |]. split; [exact Hk |]. split; [exact He |].
  unfold SuppressionService.isSuppressed, SuppressionService.get,
    SuppressionService.remove, Store.suppressions_isEmailSuppressed,
    Db.suppressions_findByEmail, Store.suppressions_delete.
  rewrite Hsame. fold same.
  unfold bind, get, modify, ret. fold same.
  rewrite Hex, Hhead. cbn [hd_error suppressions with_suppressions].
  rewrite Hgone, Hgone'. cbn [hd_error]. rewrite ?Hex.
  repeat split; reflexivity.
Qed.

(* ====================================================================== *)
(** * Messages: insert, idempotency keys and the email service *)
(* ====================================================================== *)

Lemma findByIdempotencyKey_run (w : World) (apiKeyId key : string) :
  Store.messages_findByIdempotencyKey apiKeyId key w
  = (Returned (ok (hd_error (keyed_rows apiKeyId key (messages w)))), w).
Proof. reflexivity. Qed.

Lemma taken_keyed (apiKeyId key : string) (rows : list Message.t) :
  Store.idempotency_taken apiKeyId (Some key) rows = false
  <-> keyed_rows apiKeyId key rows = [].
Proof.
  unfold Store.idempotency_taken, keyed_rows. split.
  - apply existsb_false_filter.
  - apply filter_nil_existsb.
Qed.

Lemma messages_create_fresh (w : World) (data : MessageInsert.t) :
  truthy (MessageInsert.id data) = None ->
  Store.idempotency_taken (MessageInsert.api_key_id data)
    (truthy (MessageInsert.idempotency_key data)) (messages w) = false ->
  Store.messages_create data w =
  (Returned (ok (Store.new_message (uuid (next_uuid w)) (now w) data)),
   with_messages (fun t => t ++ [Store.new_message (uuid (next_uuid w)) (now w) data])
     (with_next_uuid (S (next_uuid w)) w)).
Proof.
  intros Hid Hfree. unfold Store.messages_create.
  unfold bind at 1, get at 1. rewrite Hid, Hfree. reflexivity.
Qed.

Lemma messages_create_taken (w : World) (data : MessageInsert.t) :
  truthy (MessageInsert.id data) = None ->
  Store.idempotency_taken (MessageInsert.api_key_id data)
    (truthy (MessageInsert.idempotency_key data)) (messages w) = true ->
  Store.messages_create data w =
  (Returned (err (DbError.duplicate "Message"
                    "messages_api_key_id_idempotency_key_key")), w).
Proof.
  intros Hid Htaken. unfold Store.messages_create.
  unfold bind at 1, get at 1. rewrite Hid, Htaken. reflexivity.
Qed.

Lemma new_message_keyed (id : string) (created : Z) (data : MessageInsert.t) (key : string) :
  truthy (MessageInsert.idempotency_key data) = Some key ->
  keyed_rows (MessageInsert.api_key_id data) key [Store.new_message id created data]
  = [Store.new_message id created data].
Proof.
  intros Hkey. unfold keyed_rows. simpl. rewrite Hkey, !String.eqb_refl. reflexivity.
Qed.

(** X3. [messages.create] with an idempotency key and no id of its
    own: if the tenant already has a row with that key, the insert fails
    with [DUPLICATE_RECORD] (409) and the table is untouched; otherwise the
    row is appended, [findByIdempotencyKey] finds exactly that row, and any
    further insert of the tenant under the same key fails with
    [DUPLICATE_RECORD] and leaves the table as it is. *)
Theorem messages_create_idempotency_key
    (w : World) (data : MessageInsert.t) (key : string)
    (Hid : truthy (MessageInsert.id data) = None)
    (Hkey : truthy (MessageInsert.idempotency_key data) = Some key) :
  let tenant := MessageInsert.api_key_id data in
  if Store.idempotency_taken tenant (Some key) (messages w) then
    exists e,
      Store.messages_create data w = (Returned (err e), w)
      /\ DbError.code e = "DUPLICATE_RECORD" /\ DbError.statusCode e = 409
  else
    exists w1,
      let row := Store.new_message (uuid (next_uuid w)) (now w) data in
      Store.messages_create data w = (Returned (ok row), w1)
      /\ messages w1 = messages w ++ [row]
      /\ Message.idempotencyKey row = Some key
      /\ Store.messages_findByIdempotencyKey tenant key w1
         = (Returned (ok (Some row)), w1)
      /\ forall again,
           MessageInsert.api_key_id again = tenant ->
           truthy (MessageInsert.idempotency_key again) = Some key ->
           exists e,
             Store.messages_create again w1 = (Returned (err e), w1)
             /\ DbError.code e = "DUPLICATE_RECORD" /\ DbError.statusCode e = 409.
Proof.
  intros tenant.
  destruct (Store.idempotency_taken tenant (Some key) (messages w)) eqn:Htaken.
  - eexists. split; [apply messages_create_taken; [exact Hid | now rewrite Hkey] |].
    split; reflexivity.
  - eexists. cbv zeta.
    split; [apply messages_create_fresh; [exact Hid | now rewrite Hkey] |].
    split; [reflexivity |]. split; [exact Hkey |].
    assert (Hrows : keyed_rows tenant key
                      (messages w ++ [Store.new_message (uuid (next_uuid w)) (now w) data])
                    = [Store.new_message (uuid (next_uuid w)) (now w) data]).
    { unfold keyed_rows. rewrite filter_app.
      apply taken_keyed in Htaken. unfold keyed_rows in Htaken. rewrite Htaken.
      apply (new_message_keyed _ _ _ _ Hkey). }
    split.
    + rewrite findByIdempotencyKey_run. cbn [messages with_messages with_next_uuid].
      rewrite Hrows. reflexivity.
    + intros again Htenant Hagain.
      assert (Hnow : Store.idempotency_taken (MessageInsert.api_key_id again)
                       (truthy (MessageInsert.idempotency_key again))
                       (messages w ++ [Store.new_message (uuid (next_uuid w)) (now w) data])
                     = true).
      { rewrite Htenant, Hagain.
        apply not_false_is_true. intros E.
        apply taken_keyed in E. rewrite Hrows in E. discriminate. }
      unfold Store.messages_create. unfold bind at 1, get at 1.
      cbn [messages with_messages with_next_uuid].
      rewrite Hnow.
      destruct (truthy (MessageInsert.id again)) as [id |].
      * destruct (existsb _ _); eexists; (split; [reflexivity |]); split; reflexivity.
      * eexists. split; [reflexivity |]. split; reflexivity.
Qed.

Lemma domains_findByDomain_run (w : World) (apiKeyId domain : string) :
  Db.domains_findByDomain apiKeyId domain w =
  (Returned (ok (hd_error (filter (fun d => String.eqb (Domain.apiKeyId d) apiKeyId
                                            && String.eqb (Domain.domain d) domain)
                                  (domains w)))), w).
Proof. reflexivity. Qed.

Lemma isEmailSuppressed_run {rt : Js.Strings} (w : World) (apiKeyId email : string) :
  Store.suppressions_isEmailSuppressed apiKeyId email w =
  (Returned (ok (existsb (Db.suppression_matches apiKeyId (Js.toLowerCase email))
                         (suppressions w))), w).
Proof. reflexivity. Qed.

Lemma enqueue_fresh (w : World) (data : MessageInsert.t) :
  truthy (MessageInsert.id data) = None ->
  Store.idempotency_taken (MessageInsert.api_key_id data)
    (truthy (MessageInsert.idempotency_key data)) (messages w) = false ->
  QueueService.enqueue data w =
  (Returned (Ok (Store.new_message (uuid (next_uuid w)) (now w) data)),
   with_messages (fun t => t ++ [Store.new_message (uuid (next_uuid w)) (now w) data])
     (with_next_uuid (S (next_uuid w)) w)).
Proof.
  intros Hid Hfree. unfold QueueService.enqueue.
  rewrite (bind_run _ _ _ _ _ (messages_create_fresh w data Hid Hfree)). reflexivity.
Qed.

Lemma enqueue_taken (w : World) (data : MessageInsert.t) :
  truthy (MessageInsert.id data) = None ->
  Store.idempotency_taken (MessageInsert.api_key_id data)
    (truthy (MessageInsert.idempotency_key data)) (messages w) = true ->
  QueueService.enqueue data w =
  (Returned (Err (QueueError.of_db
                    (DbError.duplicate "Message"
                       "messages_api_key_id_idempotency_key_key"))), w).
Proof.
  intros Hid Htaken. unfold QueueService.enqueue.
  rewrite (bind_run _ _ _ _ _ (messages_create_taken w data Hid Htaken)). reflexivity.
Qed.

Lemma send_checked_run {rt : Js.Strings} (w : World) (apiKeyId : string)
    (request : EmailService.SendEmailRequest) (key : option string) :
  EmailService.send_checked apiKeyId request key w =
  if existsb (Db.suppression_matches apiKeyId
                (Js.toLowerCase (Js.toLowerCase (EmailService.to request))))
             (suppressions w)
  then
    (Returned (Err (EmailService.mkError "EMAIL_SUPPRESSED"
                      ("Recipient " +++ EmailService.to request
                       +++ " is on the suppression list") (Some "to") 422)), w)
  else if Store.idempotency_taken apiKeyId (truthy key) (messages w) then
    (Returned (Err (EmailService.of_queue
                      (QueueError.of_db
                         (DbError.duplicate "Message"
                            "messages_api_key_id_idempotency_key_key")))), w)
  else
    (Returned (Ok (EmailService.mkResponse (uuid (next_uuid w)) MessageStatus.QUEUED)),
     with_messages (fun t => t ++ [sent_row w apiKeyId request key])
       (with_next_uuid (S (next_uuid w)) w)).
Proof.
  unfold EmailService.send_checked.
  rewrite (bind_run _ _ w w _ (isEmailSuppressed_run w apiKeyId _)).
  destruct (existsb
              (Db.suppression_matches apiKeyId
                 (Js.toLowerCase (Js.toLowerCase (EmailService.to request))))
              (suppressions w)); [reflexivity |].
  fold (sent_insert apiKeyId request key).
  destruct (Store.idempotency_taken apiKeyId (truthy key) (messages w)) eqn:Ht.
  - rewrite (bind_run _ _ w w _ (enqueue_taken w (sent_insert apiKeyId request key) eq_refl Ht)).
    reflexivity.
  - rewrite (bind_run _ _ w _ _ (enqueue_fresh w (sent_insert apiKeyId request key) eq_refl Ht)).
    reflexivity.
Qed.

Lemma send_from_checked_cases {rt : Js.Strings} (w : World) (apiKeyId : string)
    (request : EmailService.SendEmailRequest) (key : option string) :
  EmailService.send_from_checked apiKeyId request key w
  = EmailService.send_checked apiKeyId request key w
  \/ exists domain,
       EmailService.send_from_checked apiKeyId request key w
       = (Returned (Err (EmailService.mkError "DOMAIN_NOT_VERIFIED"
                           ("Domain " +++ domain +++ " is not verified")
                           (Some "from") 403)), w).
Proof.
  unfold EmailService.send_from_checked.
  destruct (truthy (EmailService.from request)) as [sender |]; [| now left].
  destruct (negb _ && negb _); [| now left].
  rewrite (bind_run _ _ w w _ (domains_findByDomain_run w apiKeyId _)).
  destruct (hd_error (filter _ (domains w))) as [d |]; [destruct (Domain.verified d) |];
    [now left | right; eexists; reflexivity | right; eexists; reflexivity].
Qed.

Lemma sendEmail_run {rt : Js.Strings} (w : World) (apiKeyId : string)
    (request : EmailService.SendEmailRequest) (key : option string) :
  EmailService.sendEmail apiKeyId request key w =
  match truthy key with
  | Some k =>
      match keyed_rows apiKeyId k (messages w) with
      | existing :: _ =>
          (Returned (Ok (EmailService.mkResponse (Message.id existing)
                           (Message.status existing))), w)
      | [] => EmailService.send_from_checked apiKeyId request key w
      end
  | None => EmailService.send_from_checked apiKeyId request key w
  end.
Proof.
  unfold EmailService.sendEmail.
  destruct (truthy key) as [k |]; [| reflexivity].
  unfold QueueService.checkIdempotency.
  unfold bind at 1. unfold bind at 1. rewrite findByIdempotencyKey_run.
  destruct (keyed_rows apiKeyId k (messages w)); reflexivity.
Qed.

(** Every way [sendEmail] can end: it leaves the store alone, or it
    appends the one queued row and answers with its id. *)
Lemma sendEmail_effect {rt : Js.Strings} (w : World) (apiKeyId : string)
    (request : EmailService.SendEmailRequest) (key : option string) :
  exists r w',
    EmailService.sendEmail apiKeyId request key w = (Returned r, w')
    /\ (w' = w
        \/ (r = Ok (EmailService.mkResponse (uuid (next_uuid w)) MessageStatus.QUEUED)
            /\ w' = with_messages (fun t => t ++ [sent_row w apiKeyId request key])
                      (with_next_uuid (S (next_uuid w)) w)
            /\ existsb (Db.suppression_matches apiKeyId
                          (Js.toLowerCase (Js.toLowerCase (EmailService.to request))))
                       (suppressions w) = false
            /\ Store.idempotency_taken apiKeyId (truthy key) (messages w) = false)).
Proof.
  rewrite sendEmail_run.
  assert (Hfrom : exists r w',
            EmailService.send_from_checked apiKeyId request key w = (Returned r, w')
            /\ (w' = w
                \/ (r = Ok (EmailService.mkResponse (uuid (next_uuid w))
                              MessageStatus.QUEUED)
                    /\ w' = with_messages (fun t => t ++ [sent_row w apiKeyId request key])
                              (with_next_uuid (S (next_uuid w)) w)
                    /\ existsb (Db.suppression_matches apiKeyId
                                  (Js.toLowerCase
                                     (Js.toLowerCase (EmailService.to request))))
                               (suppressions w) = false
                    /\ Store.idempotency_taken apiKeyId (truthy key) (messages w)
                       = false))).
  { destruct (send_from_checked_cases w apiKeyId request key) as [H | [domain H]];
      rewrite H; [| eauto].
    rewrite send_checked_run.
    destruct (existsb _ (suppressions w)) eqn:Hs; [eauto |].
    destruct (Store.idempotency_taken _ _ _) eqn:Ht; [eauto |].
    eexists. eexists. split; [reflexivity |]. right. repeat split; reflexivity. }
  destruct (truthy key) as [k |]; [| exact Hfrom].
  destruct (keyed_rows apiKeyId k (messages w)); [exact Hfrom | eauto].
Qed.

(** X4. A [sendEmail] that succeeded under an idempotency key is
    replayed by every later [sendEmail] of the same tenant under that key,
    whatever the later request asks for: the answer is the same id and
    status, and nothing is written. *)
Theorem sendEmail_idempotent_replay {rt : Js.Strings}
    (w w1 : World) (tenant key : string)
    (first second : EmailService.SendEmailRequest)
    (resp : EmailService.SendEmailResponse)
    (Hkey : key <> EmptyString)
    (Hfirst : EmailService.sendEmail tenant first (Some key) w = (Returned (Ok resp), w1)) :
  EmailService.sendEmail tenant second (Some key) w1 = (Returned (Ok resp), w1)
  /\ exists m, In m (messages w1)
               /\ Message.id m = EmailService.id resp
               /\ Message.apiKeyId m = tenant
               /\ Message.idempotencyKey m = Some key.
Proof.
  assert (Htruthy : truthy (Some key) = Some key).
  { unfold truthy. apply String.eqb_neq in Hkey. now rewrite Hkey. }
  assert (Hhead : exists m rest,
            keyed_rows tenant key (messages w1) = m :: rest
            /\ resp = EmailService.mkResponse (Message.id m) (Message.status m)).
  { rewrite sendEmail_run, Htruthy in Hfirst.
    destruct (keyed_rows tenant key (messages w)) as [| m rest] eqn:Hrows.
    - destruct (send_from_checked_cases w tenant first (Some key)) as [H | [d H]];
        rewrite H in Hfirst; [| discriminate].
      rewrite send_checked_run in Hfirst.
      destruct (existsb _ (suppressions w)); [discriminate |].
      rewrite Htruthy in Hfirst.
      apply taken_keyed in Hrows. rewrite Hrows in Hfirst.
      inversion Hfirst; subst. cbn [messages with_messages with_next_uuid].
      exists (sent_row w tenant first (Some key)), [].
      split; [| reflexivity].
      unfold keyed_rows. rewrite filter_app.
      apply taken_keyed in Hrows. unfold keyed_rows in Hrows. rewrite Hrows.
      apply (new_message_keyed _ _ (sent_insert tenant first (Some key)) key Htruthy).
    - inversion Hfirst; subst. exists m, rest. now split. }
  destruct Hhead as [m [rest [Hrows Hresp]]].
  split.
  - rewrite sendEmail_run, Htruthy, Hrows. now subst resp.
  - assert (Hin : In m (keyed_rows tenant key (messages w1)))
      by (rewrite Hrows; now left).
    apply filter_In in Hin as [Hin Hm].
    apply andb_true_iff in Hm as [Ht Hk]. apply String.eqb_eq in Ht.
    exists m. subst resp. repeat split; try assumption.
    destruct (Message.idempotencyKey m) as [k |]; [| discriminate].
    apply String.eqb_eq in Hk. now subst.
Qed.

(** X5. [sendEmail] never enqueues a message for a recipient that is
    on the tenant's suppression list, in whatever letter case the
    recipient is written: when the tenant has a row whose address is the
    recipient's as [sendEmail] looks it up (lowered by [sendEmail], and
    again by the store), the store is left as it was, and a request with no
    idempotency key and the default sender is answered [EMAIL_SUPPRESSED]
    (422).  Where lowering twice is lowering once, the address looked up
    is the lowered recipient. *)
Theorem sendEmail_refuses_suppressed {rt : Js.Strings}
    (w : World) (tenant : string) (request : EmailService.SendEmailRequest)
    (key : option string) (s : Suppression.t)
    (Hrow : In s (suppressions w))
    (Htenant : Suppression.apiKeyId s = tenant)
    (Hemail : Suppression.email s
              = Js.toLowerCase (Js.toLowerCase (EmailService.to request))) :
  exists r,
    EmailService.sendEmail tenant request key w = (Returned r, w)
    /\ (truthy key = None -> truthy (EmailService.from request) = None ->
        r = Err (EmailService.mkError "EMAIL_SUPPRESSED"
                   ("Recipient " +++ EmailService.to request
                    +++ " is on the suppression list") (Some "to") 422))
    /\ forall resp, r = Ok resp ->
          exists k m, truthy key = Some k
                      /\ In m (messages w)
                      /\ Message.idempotencyKey m = Some k
                      /\ Message.id m = EmailService.id resp.
Proof.
  assert (Hs : existsb (Db.suppression_matches tenant
                          (Js.toLowerCase (Js.toLowerCase (EmailService.to request))))
                       (suppressions w) = true).
  { apply existsb_exists. exists s. split; [exact Hrow |].
    apply matches_spec. now split. }
  assert (Hgate : exists e, EmailService.send_from_checked tenant request key w
                            = (Returned (Err e), w)).
  { destruct (send_from_checked_cases w tenant request key) as [H | [d H]];
      rewrite H; [| eauto].
    rewrite send_checked_run, Hs. eauto. }
  destruct Hgate as [e Hgate].
  rewrite sendEmail_run.
  destruct (truthy key) as [k |] eqn:Hk.
  - destruct (keyed_rows tenant k (messages w)) as [| m rest] eqn:Hrows.
    + exists (Err e). split; [exact Hgate |].
      split; [intros Hnone; discriminate | intros resp Hr; discriminate].
    + eexists. split; [reflexivity |].
      split; [intros Hnone; discriminate |].
      intros resp Hr. inversion Hr; subst resp.
      assert (Hin : In m (keyed_rows tenant k (messages w)))
        by (rewrite Hrows; now left).
      apply filter_In in Hin as [Hin Hm].
      apply andb_true_iff in Hm as [_ Hkey].
      exists k, m. repeat split; try assumption.
      destruct (Message.idempotencyKey m) as [k' |]; [| discriminate].
      apply String.eqb_eq in Hkey. now subst.
  - exists (Err e). split; [exact Hgate |].
    split; [| intros resp Hr; discriminate].
    intros _ Hf. unfold EmailService.send_from_checked in Hgate. rewrite Hf in Hgate.
    rewrite send_checked_run, Hs in Hgate. now inversion Hgate.
Qed.

Lemma filter_id_one {A : Type} (id : A -> string) (rows : list A) (sel : A) :
  NoDup (map id rows) -> In sel rows ->
  filter (fun x => String.eqb (id x) (id sel)) rows = [sel].
Proof.
  intros PK Hin.
  pose proof (returning_one id (fun x => x) rows sel (fun _ => eq_refl) PK Hin) as H.
  rewrite (map_ext _ (fun x => x)) in H by (intros x; now destruct (String.eqb _ _)).
  now rewrite map_id in H.
Qed.

Lemma split_nonempty_pair (sep : ascii) (s a b : string) :
  split sep s = [a; b] -> s <> EmptyString.
Proof. intros H ->. discriminate. Qed.

(** X6. A sender address on a domain other than the platform's own
    is refused unless the tenant itself holds a verified row for that
    domain: when every row of the tenant for the (lowercased) domain is
    unverified, or there is none, [sendEmail] answers
    [DOMAIN_NOT_VERIFIED] (403, field [from]) and stores nothing.  Rows of
    other tenants do not count. *)
Theorem sendEmail_unverified_domain {rt : Js.Strings}
    (w : World) (tenant : string) (request : EmailService.SendEmailRequest)
    (key : option string) (sender mailbox domain : string)
    (Hfrom : EmailService.from request = Some sender)
    (Hsplit : split "@" sender = [mailbox; domain])
    (Hdomain : Js.toLowerCase domain <> EmptyString)
    (Hforeign : Js.toLowerCase domain <> EmailService.DEFAULT_FROM_DOMAIN)
    (Hfresh : forall k, truthy key = Some k -> keyed_rows tenant k (messages w) = [])
    (Hunverified : forall d, In d (domains w) ->
                             Domain.apiKeyId d = tenant ->
                             Domain.domain d = Js.toLowerCase domain ->
                             Domain.verified d = false) :
  EmailService.sendEmail tenant request key w =
  (Returned (Err (EmailService.mkError "DOMAIN_NOT_VERIFIED"
                    ("Domain " +++ Js.toLowerCase domain +++ " is not verified")
                    (Some "from") 403)), w).
Proof.
  assert (Hgate : EmailService.send_from_checked tenant request key w =
                  (Returned (Err (EmailService.mkError "DOMAIN_NOT_VERIFIED"
                                    ("Domain " +++ Js.toLowerCase domain
                                     +++ " is not verified")
                                    (Some "from") 403)), w)).
  { unfold EmailService.send_from_checked. rewrite Hfrom.
    assert (Hs : truthy (Some sender) = Some sender).
    { unfold truthy. pose proof (split_nonempty_pair _ _ _ _ Hsplit) as Hne.
      apply String.eqb_neq in Hne. now rewrite Hne. }
    rewrite Hs. cbv zeta. unfold EmailService.extractDomain. rewrite Hsplit.
    apply String.eqb_neq in Hdomain, Hforeign. rewrite Hdomain, Hforeign.
    cbn [negb andb].
    rewrite (bind_run _ _ w w _ (domains_findByDomain_run w tenant _)).
    destruct (hd_error (filter _ (domains w))) as [d |] eqn:Hd; [| reflexivity].
    assert (Hin : In d (filter (fun d => String.eqb (Domain.apiKeyId d) tenant
                                         && String.eqb (Domain.domain d)
                                              (Js.toLowerCase domain))
                               (domains w))).
    { destruct (filter _ (domains w)) as [| x l]; [discriminate |].
      inversion Hd; subst. now left. }
    apply filter_In in Hin as [Hin Hm]. apply andb_true_iff in Hm as [Ht Hn].
    apply String.eqb_eq in Ht, Hn.
    rewrite (Hunverified d Hin Ht Hn). reflexivity. }
  rewrite sendEmail_run.
  destruct (truthy key) as [k |]; [| exact Hgate].
  rewrite (Hfresh k eq_refl). exact Hgate.
Qed.

(** A [sendEmail] that succeeds without replaying a stored row has
    appended the row of the request. *)
Lemma sendEmail_fresh {rt : Js.Strings} (w w1 : World) (tenant : string)
    (request : EmailService.SendEmailRequest) (key : option string)
    (resp : EmailService.SendEmailResponse) :
  (forall k, truthy key = Some k -> keyed_rows tenant k (messages w) = []) ->
  EmailService.sendEmail tenant request key w = (Returned (Ok resp), w1) ->
  resp = EmailService.mkResponse (uuid (next_uuid w)) MessageStatus.QUEUED
  /\ w1 = with_messages (fun t => t ++ [sent_row w tenant request key])
            (with_next_uuid (S (next_uuid w)) w)
  /\ existsb (Db.suppression_matches tenant
                (Js.toLowerCase (Js.toLowerCase (EmailService.to request))))
             (suppressions w) = false.
Proof.
  intros Hfresh Hsend.
  assert (Hgate : EmailService.send_from_checked tenant request key w
                  = (Returned (Ok resp), w1)).
  { rewrite sendEmail_run in Hsend.
    destruct (truthy key) as [k |]; [| exact Hsend].
    rewrite (Hfresh k eq_refl) in Hsend. exact Hsend. }
  destruct (send_from_checked_cases w tenant request key) as [H | [d H]];
    rewrite H in Hgate; [| discriminate].
  rewrite send_checked_run in Hgate.
  destruct (existsb _ (suppressions w)); [discriminate |].
  destruct (Store.idempotency_taken tenant (truthy key) (messages w)); [discriminate |].
  inversion Hgate. repeat split; reflexivity.
Qed.

Lemma getStatus_run (w : World) (apiKeyId messageId : string) :
  QueueService.getStatus apiKeyId messageId w =
  (Returned
     (Ok match hd_error (filter (fun m => String.eqb (Message.id m) messageId)
                                (messages w)) with
         | Some m => if String.eqb (Message.apiKeyId m) apiKeyId then Some m else None
         | None => None
         end), w).
Proof.
  unfold QueueService.getStatus.
  assert (Hfind : Db.messages_findById messageId w =
                  (Returned (ok (hd_error (filter (fun m => String.eqb (Message.id m) messageId)
                                                  (messages w)))), w)) by reflexivity.
  rewrite (bind_run _ _ _ _ _ Hfind).
  destruct (hd_error _) as [m |]; [| reflexivity].
  destruct (String.eqb (Message.apiKeyId m) apiKeyId); reflexivity.
Qed.

(** X7. [getEmailStatus] does not reveal a message to another tenant:
    asked for a stored message by its id, it reads only, and it answers the
    status (id, status, recipient, subject, creation and send times)
    exactly when the row belongs to the asking tenant; to any other tenant
    it answers [Ok None] and nothing of the row. *)
Theorem getEmailStatus_tenant_isolation
    (w : World) (tenant messageId : string) (m : Message.t)
    (PK : NoDup (map Message.id (messages w)))
    (Hrow : In m (messages w))
    (Hid : Message.id m = messageId) :
  EmailService.getEmailStatus tenant messageId w =
  (Returned
     (Ok (if String.eqb (Message.apiKeyId m) tenant then
            Some (EmailService.mkStatus (Message.id m) (Message.status m)
                    (Message.toAddress m) (Message.subject m)
                    (Js.toISOString (Message.createdAt m))
                    (option_map Js.toISOString (Message.sentAt m)))
          else None)), w).
Proof.
  unfold EmailService.getEmailStatus.
  rewrite (bind_run _ _ _ _ _ (getStatus_run w tenant messageId)).
  subst messageId.
  rewrite (filter_id_one Message.id (messages w) m PK Hrow).
  cbn [hd_error].
  destruct (String.eqb (Message.apiKeyId m) tenant); reflexivity.
Qed.

Lemma sent_row_fields {rt : Js.Strings} (w : World) (tenant : string)
    (request : EmailService.SendEmailRequest) (key : option string) :
  Message.apiKeyId (sent_row w tenant request key) = tenant
  /\ Message.status (sent_row w tenant request key) = MessageStatus.QUEUED
  /\ Message.attempts (sent_row w tenant request key) = 0.
Proof. repeat split; reflexivity. Qed.

(** X8. [batchSend] answers one item per request and never stops
    early or throws: a request that is refused gives an error item and the
    rest of the batch is still handled.  All it does to the store is append
    message rows, at most one per request, each owned by the calling
    tenant, [queued], with no attempt made; it sends nothing itself. *)
Theorem batchSend_one_item_per_request {rt : Js.Strings}
    (tenant : string) (requests : list EmailService.BatchEmailRequest) (w : World) :
  exists items w' added,
    EmailService.batchSend tenant requests w = (Returned items, w')
    /\ List.length items = List.length requests
    /\ messages w' = messages w ++ added
    /\ (List.length added <= List.length requests)%nat
    /\ Forall (fun m => Message.apiKeyId m = tenant
                        /\ Message.status m = MessageStatus.QUEUED
                        /\ Message.attempts m = 0) added
    /\ suppressions w' = suppressions w
    /\ webhook_deliveries w' = webhook_deliveries w
    /\ smtp_log w' = smtp_log w
    /\ http_log w' = http_log w.
Proof.
  revert w. induction requests as [| r rest IH]; intros w.
  - exists [], w, []. cbn [EmailService.batchSend]. rewrite app_nil_r.
    repeat split; try reflexivity. constructor.
  - cbn [EmailService.batchSend].
    destruct (sendEmail_effect w tenant (EmailService.request r)
                (EmailService.idempotency_key r)) as [res [w1 [Hrun Hw1]]].
    rewrite (bind_run _ _ _ _ _ Hrun).
    destruct (IH w1) as [items [w' [added [Hrest [Hlen [Hmsg [Hadd [Hall
                          [Hsup [Hdel [Hsmtp Hhttp]]]]]]]]]]].
    rewrite (bind_run _ _ _ _ _ Hrest).
    destruct Hw1 as [-> | [_ [-> _]]].
    + eexists. exists w', added. split; [reflexivity |].
      cbn [List.length]. repeat split; auto.
    + eexists. exists w'.
      exists (sent_row w tenant (EmailService.request r) (EmailService.idempotency_key r)
              :: added).
      split; [reflexivity |].
      cbn [List.length]. repeat split; auto;
        try (constructor; [apply sent_row_fields | exact Hall]).
      * rewrite Hmsg. cbn [messages with_messages with_next_uuid].
        now rewrite <- app_assoc.
      * now apply le_n_S.
Qed.

(* ====================================================================== *)
(** * The email worker, from claim to outcome *)
(* ====================================================================== *)

Lemma send_accepted (env : Env) (w : World) (message : Message.t)
    (smtpMessageId response : string) :
  transport_outcome env w message = Accepted smtpMessageId response ->
  SmtpClient_send env (mail_of message) (dkim_for w message) w =
  (Returned (SendOk smtpMessageId response),
   with_smtp_log (smtp_log w ++ [mkSmtpCall (mail_of message) (dkim_for w message)]) w).
Proof.
  intros H. rewrite SmtpClient_send_run. unfold transport_outcome in H.
  now rewrite H.
Qed.

(** A send the transport accepts. *)
Lemma processMessage_sent {rt : Js.Strings} (config : WorkerConfig) (env : Env) (w : World)
    (message : Message.t) (smtpMessageId response : string) :
  suppression_rows_for w message = [] ->
  transport_outcome env w message = Accepted smtpMessageId response ->
  exists w',
    EmailProcessor.processMessage config env message w =
    (Returned (EmailProcessor.mkResult (Message.id message) true MessageStatus.SENT
                 None None), w')
    /\ messages w' =
       update_rows (Message.id message)
         (MessageUpdate.mk (Some MessageStatus.SENT) None (Some (Some (now w)))
            None None None) (messages w)
    /\ suppressions w' = suppressions w
    /\ smtp_log w' = smtp_log w ++ [mkSmtpCall (mail_of message) (dkim_for w message)]
    /\ http_log w' = http_log w
    /\ webhook_deliveries w' =
       webhook_deliveries w
       ++ enqueued (subscribers w (Message.apiKeyId message) "message.sent")
            (Message.id message) "message.sent"
            (event_payload "message.sent" (Message.id message) (now w)
               [("smtpMessageId", Json.JStr smtpMessageId)])
            (now w) (next_uuid w).
Proof.
  intros Hnot Hsend.
  rewrite (processMessage_to_send _ _ _ _ Hnot).
  rewrite (bind_run _ _ _ _ _ (send_accepted _ _ _ _ _ Hsend)).
  set (w1 := with_smtp_log _ w).
  rewrite (bind_run get _ w1 w1 w1 eq_refl).
  match goal with
  | |- context [bind (Db.messages_update ?i ?d) _ ?w0] =>
      destruct (messages_update_run w0 i d eq_refl) as [r Hr];
      rewrite (bind_run _ _ _ _ _ Hr)
  end.
  set (w2 := with_messages _ w1).
  destruct (triggerWebhookEvent_run w2 (Message.apiKeyId message) (Message.id message)
              "message.sent" [("smtpMessageId", Json.JStr smtpMessageId)])
    as [w' [Htrig Hframe]].
  exists w'. rewrite (bind_run _ _ _ _ _ Htrig).
  split; [reflexivity |].
  destruct Hframe as [H1 [H2 [_ [_ [H5 [_ [_ [_ [H9 H10]]]]]]]]].
  rewrite H1, H2, H5, H9, H10.
  repeat split; reflexivity.
Qed.

(** X9. When the transport accepts the mail, [processMessage] answers
    success, sets the row to [sent] with [sent_at] the time of the send and
    leaves its [attempts] counter as it was, adds no suppression, and
    enqueues one pending [message.sent] delivery for each active subscribed
    webhook of the tenant, whose payload carries the message id and the
    transport's message id. *)
Theorem processMessage_accepted_marks_sent {rt : Js.Strings}
    (config : WorkerConfig) (env : Env) (w : World) (message row : Message.t)
    (smtpMessageId response : string)
    (Hnot : suppression_rows_for w message = [])
    (Hsend : transport_outcome env w message = Accepted smtpMessageId response)
    (Hrow : In row (messages w))
    (Hid : Message.id row = Message.id message) :
  exists w' row' created,
    EmailProcessor.processMessage config env message w =
    (Returned (EmailProcessor.mkResult (Message.id message) true MessageStatus.SENT
                 None None), w')
    /\ In row' (messages w')
    /\ Message.id row' = Message.id row
    /\ Message.status row' = MessageStatus.SENT
    /\ Message.sentAt row' = Some (now w)
    /\ Message.attempts row' = Message.attempts row
    /\ Message.failureReason row' = Message.failureReason row
    /\ (forall m, In m (messages w') -> Message.id m = Message.id message ->
                  Message.status m = MessageStatus.SENT)
    /\ suppressions w' = suppressions w
    /\ webhook_deliveries w' = webhook_deliveries w ++ created
    /\ map WebhookDelivery.webhookId created
       = map Webhook.id (subscribers w (Message.apiKeyId message) "message.sent")
    /\ Forall (fun d =>
         WebhookDelivery.event d = "message.sent"
         /\ WebhookDelivery.status d = WebhookDeliveryStatus.PENDING
         /\ WebhookDelivery.attempts d = 0
         /\ exists fields,
              WebhookDelivery.payload d = Json.JObj fields
              /\ Json.get_field "event" fields = Some (Json.JStr "message.sent")
              /\ Json.get_field "messageId" fields = Some (Json.JStr (Message.id message))
              /\ Json.get_field "smtpMessageId" fields
                 = Some (Json.JStr smtpMessageId)) created.
Proof.
  destruct (processMessage_sent config env w message smtpMessageId response Hnot Hsend)
    as [w' [Hrun [Hmsgs [Hsup [_ [_ Hdel]]]]]].
  exists w'.
  exists (MessageUpdate.apply
            (MessageUpdate.mk (Some MessageStatus.SENT) None (Some (Some (now w)))
               None None None) row).
  eexists. split; [exact Hrun |].
  split.
  { rewrite Hmsgs. unfold update_rows. apply in_map_iff. exists row.
    rewrite Hid, String.eqb_refl. now split. }
  do 5 (split; [reflexivity |]).
  split.
  { intros m Hin Hm. rewrite Hmsgs in Hin. unfold update_rows in Hin.
    apply in_map_iff in Hin as [m0 [Hm0 _]].
    destruct (String.eqb_spec (Message.id m0) (Message.id message)) as [E | NE].
    - subst m. reflexivity.
    - subst m. contradiction. }
  split; [exact Hsup |]. split; [exact Hdel |].
  split; [apply enqueued_hooks |].
  apply enqueued_all. repeat split.
  eexists. split; [reflexivity |]. repeat split; reflexivity.
Qed.

Lemma processNext_returns {rt : Js.Strings} (config : WorkerConfig) (env : Env) (w w1 w2 : World)
    (m : Message.t) (r : EmailProcessor.ProcessResult) :
  Db.messages_claimNext w = (Returned (ok (Some m)), w1) ->
  EmailProcessor.processMessage config env m w1 = (Returned r, w2) ->
  EmailProcessor.processNext config env w = (Returned (Some r), w2).
Proof.
  intros Hclaim Hrun. unfold EmailProcessor.processNext.
  rewrite (bind_run _ _ _ _ _ Hclaim). unfold try_catch.
  rewrite (bind_run _ _ _ _ _ Hrun). reflexivity.
Qed.

(** A row appended to an idle queue is the next one selected. *)
Lemma select_appended (locked : list string) (rows : list Message.t) (row : Message.t) :
  Sql.select_next_queued locked rows = None ->
  Message.status row = MessageStatus.QUEUED ->
  Js.includes_str locked (Message.id row) = false ->
  Sql.select_next_queued locked (rows ++ [row]) = Some row.
Proof.
  unfold Sql.select_next_queued. intros Hidle Hst Hfree.
  apply first_by_none in Hidle.
  rewrite filter_app, Hidle. cbn [filter app].
  unfold Sql.unlocked. rewrite Hst, Hfree. reflexivity.
Qed.

(** X10. From the API to the wire: a request that [sendEmail] accepts
    (not as a replay) into an idle queue is the message the worker's next
    [processNext] claims; if the transport accepts it, the worker reports
    success for the id the API answered, the one SMTP call made carries the
    request's sender (or the platform default), the lowercased recipient,
    the subject, the text and HTML bodies and the message id
    [<id@mailforge>], and the stored row ends [sent] with no attempt
    counted. *)
Theorem accepted_request_is_delivered {rt : Js.Strings}
    (config : WorkerConfig) (env : Env) (w w1 : World) (tenant : string)
    (request : EmailService.SendEmailRequest) (key : option string)
    (resp : EmailService.SendEmailResponse) (smtpMessageId response : string)
    (PK : NoDup (map Message.id (messages w)))
    (Hnew : ~ In (uuid (next_uuid w)) (map Message.id (messages w)))
    (Hidle : Sql.select_next_queued (row_locks w) (messages w) = None)
    (Hfree : Js.includes_str (row_locks w) (uuid (next_uuid w)) = false)
    (Hfresh : forall k, truthy key = Some k -> keyed_rows tenant k (messages w) = [])
    (Hsend : EmailService.sendEmail tenant request key w = (Returned (Ok resp), w1))
    (Haccept : transport_outcome env w (sent_row w tenant request key)
               = Accepted smtpMessageId response) :
  exists w2 row,
    EmailProcessor.processNext config env w1 =
    (Returned (Some (EmailProcessor.mkResult (EmailService.id resp) true
                       MessageStatus.SENT None None)), w2)
    /\ smtp_log w2 =
       smtp_log w
       ++ [mkSmtpCall
             (EmailMessage.mk
                (match EmailService.from request with
                 | Some f => f
                 | None => "noreply@opensend.dev"
                 end)
                (Js.toLowerCase (EmailService.to request))
                (EmailService.subject request)
                (truthy (EmailService.body request))
                (truthy (EmailService.html request))
                (Some ("<" +++ EmailService.id resp +++ "@mailforge>")))
             (dkim_for w (sent_row w tenant request key))]
    /\ In row (messages w2)
    /\ Message.id row = EmailService.id resp
    /\ Message.apiKeyId row = tenant
    /\ Message.status row = MessageStatus.SENT
    /\ Message.sentAt row = Some (now w)
    /\ Message.attempts row = 0.
Proof.
  destruct (sendEmail_fresh w w1 tenant request key resp Hfresh Hsend)
    as [-> [-> Hclear]].
  set (row := sent_row w tenant request key) in *.
  set (w1 := with_messages (fun t => t ++ [row]) (with_next_uuid (S (next_uuid w)) w)).
  assert (PK1 : NoDup (map Message.id (messages w1))).
  { cbn [w1 messages with_messages with_next_uuid]. rewrite map_app.
    now apply NoDup_app_intro_one. }
  assert (Hsel : Sql.select_next_queued (row_locks w1) (messages w1) = Some row).
  { apply (select_appended (row_locks w) (messages w) row Hidle eq_refl Hfree). }
  pose proof (claimNext_run w1 row PK1 Hsel) as Hclaim.
  set (w1' := with_messages _ w1) in Hclaim.
  assert (Hnot : suppression_rows_for w1' (Sql.set_processing row) = []).
  { unfold suppression_rows_for.
    change (Message.apiKeyId (Sql.set_processing row)) with tenant.
    change (Message.toAddress (Sql.set_processing row))
      with (Js.toLowerCase (EmailService.to request)).
    change (suppressions w1') with (suppressions w).
    now apply existsb_false_filter. }
  assert (Hdkim : dkim_for w1' (Sql.set_processing row) = dkim_for w row).
  { rewrite (dkim_for_same w w1' _ eq_refl). reflexivity. }
  assert (Hout : transport_outcome env w1' (Sql.set_processing row)
                 = Accepted smtpMessageId response).
  { unfold transport_outcome. rewrite Hdkim. exact Haccept. }
  destruct (processMessage_sent config env w1' (Sql.set_processing row)
              smtpMessageId response Hnot Hout)
    as [w2 [Hrun [Hmsgs [_ [Hsmtp _]]]]].
  exists w2.
  exists (MessageUpdate.apply
            (MessageUpdate.mk (Some MessageStatus.SENT) None (Some (Some (now w)))
               None None None) (Sql.set_processing row)).
  split; [exact (processNext_returns config env w1 w1' w2 _ _ Hclaim Hrun) |].
  split.
  { rewrite Hsmtp, Hdkim. unfold mail_of.
    change (smtp_log w1') with (smtp_log w). do 3 f_equal.
    cbn. unfold truthy. destruct (String.eqb (EmailService.subject request) EmptyString) eqn:E.
    - apply String.eqb_eq in E. now rewrite E.
    - reflexivity. }
  split.
  { rewrite Hmsgs. unfold update_rows. apply in_map_iff.
    exists (Sql.set_processing row). split.
    - change (Message.id (Sql.set_processing row)) with (Message.id row).
      now rewrite String.eqb_refl.
    - apply in_map_iff. exists row. rewrite String.eqb_refl. split; [reflexivity |].
      cbn [w1 messages with_messages with_next_uuid]. apply in_or_app. right. now left. }
  repeat split; reflexivity.
Qed.

(** A recipient found on the suppression list. *)
Lemma processMessage_rejected {rt : Js.Strings} (config : WorkerConfig) (env : Env) (w : World)
    (message : Message.t) (s : Suppression.t) (rest : list Suppression.t) :
  suppression_rows_for w message = s :: rest ->
  let why := "Recipient suppressed: " +++ SuppressionReason.toString (Suppression.reason s) in
  EmailProcessor.processMessage config env message w =
  (Returned (EmailProcessor.mkResult (Message.id message) false MessageStatus.REJECTED
               (Some why) (Some false)),
   with_messages
     (update_rows (Message.id message)
        (MessageUpdate.mk (Some MessageStatus.REJECTED) None None None
           (Some (Some (now w))) (Some (Some why)))) w).
Proof.
  intros Hfound why. unfold suppression_rows_for in Hfound.
  unfold EmailProcessor.processMessage.
  rewrite (bind_run _ _ _ _ _ (checkSuppression_run w _ _)).
  rewrite Hfound.
  change (option_map Suppression.reason (hd_error (s :: rest)))
    with (Some (Suppression.reason s)).
  cbv iota beta. unfold bind at 1, get at 1. cbv iota beta.
  destruct (messages_update_run w (Message.id message)
              (MessageUpdate.mk (Some MessageStatus.REJECTED) None None None
                 (Some (Some (now w))) (Some (Some why))) eq_refl) as [r Hr].
  fold why. rewrite (bind_run _ _ _ _ _ Hr). reflexivity.
Qed.

Lemma hard_bounce_not_retried (e : NodeError.t) :
  isHardBounce (classifySmtpError e) = true ->
  SmtpError.shouldRetry (classifySmtpError e) = false.
Proof.
  intros H. rewrite classify_retry.
  unfold isHardBounce in H. apply andb_true_iff in H as [H _].
  destruct (SmtpError.type (classifySmtpError e)); simpl in H; try discriminate.
  reflexivity.
Qed.

(** X11. A hard bounce closes the address for the tenant: after
    [processMessage] has met a hard bounce for a recipient, a later message
    of the same tenant to that recipient, in whatever letter case, is
    [rejected] with the reason ["Recipient suppressed: hard_bounce"] and is
    not handed to the transport, whatever the transport would answer. *)
Theorem hard_bounce_blocks_later_sends {rt : Js.Strings}
    (config : WorkerConfig) (env env' : Env) (w : World) (first later : Message.t)
    (e : NodeError.t)
    (Hnot : suppression_rows_for w first = [])
    (Hsend : transport_outcome env w first = Refused e)
    (Hhard : isHardBounce (classifySmtpError e) = true)
    (Htenant : Message.apiKeyId later = Message.apiKeyId first)
    (Hsame : Js.toLowerCase (Message.toAddress later)
             = Js.toLowerCase (Message.toAddress first)) :
  exists r w1 w2,
    EmailProcessor.processMessage config env first w = (Returned r, w1)
    /\ EmailProcessor.status r = MessageStatus.FAILED
    /\ EmailProcessor.processMessage config env' later w1 =
       (Returned (EmailProcessor.mkResult (Message.id later) false MessageStatus.REJECTED
                    (Some "Recipient suppressed: hard_bounce") (Some false)), w2)
    /\ smtp_log w2 = smtp_log w1
    /\ webhook_deliveries w2 = webhook_deliveries w1
    /\ forall m, In m (messages w2) -> Message.id m = Message.id later ->
                 Message.status m = MessageStatus.REJECTED.
Proof.
  assert (Hterm : SmtpError.shouldRetry (classifySmtpError e)
                  && (Message.attempts first + 1 <? maxRetries config) = false)
    by now rewrite (hard_bounce_not_retried e Hhard).
  destruct (processMessage_terminal config env w first e Hnot Hsend Hterm)
    as [w1 [Hrun [_ [_ [_ Hcase]]]]].
  rewrite Hhard in Hcase. destruct Hcase as [Hsup _].
  assert (Hfound : suppression_rows_for w1 later
                   = [Suppression.mk (uuid (next_uuid w)) (Message.apiKeyId first)
                        (Js.toLowerCase (Message.toAddress first))
                        SuppressionReason.HARD_BOUNCE (now w)]).
  { unfold suppression_rows_for in *. rewrite Hsup, filter_app, Htenant, Hsame, Hnot.
    cbn [filter app]. unfold Db.suppression_matches. cbn [Suppression.apiKeyId Suppression.email].
    now rewrite !String.eqb_refl. }
  pose proof (processMessage_rejected config env' w1 later _ _ Hfound) as Hrej.
  cbv zeta in Hrej.
  eexists. exists w1. eexists.
  split; [exact Hrun |]. split; [reflexivity |].
  split; [exact Hrej |].
  split; [reflexivity |]. split; [reflexivity |].
  intros m Hin Hm. cbn [messages with_messages] in Hin. unfold update_rows in Hin.
  apply in_map_iff in Hin as [m0 [Hm0 _]].
  destruct (String.eqb_spec (Message.id m0) (Message.id later)) as [E | NE].
  - subst m. reflexivity.
  - subst m. contradiction.
Qed.

Lemma claimNext_none (w : World) :
  Sql.select_next_queued (row_locks w) (messages w) = None ->
  Db.messages_claimNext w = (Returned (ok None), with_messages (fun _ => messages w) w).
Proof.
  intros Hsel. unfold Db.messages_claimNext, bind, get, Sql.claim_next_message.
  rewrite Hsel. reflexivity.
Qed.

(** The rows after a claim and one write to the claimed row. *)
Lemma step_rows (rows : list Message.t) (sel : Message.t) (upd : MessageUpdate.t) :
  NoDup (map Message.id rows) -> In sel rows ->
  Message.status sel = MessageStatus.QUEUED ->
  (MessageUpdate.attempts upd = None
   \/ MessageUpdate.attempts upd = Some (Message.attempts sel + 1)) ->
  exists f,
    update_rows (Message.id sel) upd
      (map (fun x => if String.eqb (Message.id x) (Message.id sel)
                     then Sql.set_processing x else x) rows)
    = map f rows
    /\ forall m, In m rows ->
         Message.id (f m) = Message.id m
         /\ Message.attempts m <= Message.attempts (f m)
         /\ (Message.status m <> MessageStatus.QUEUED -> f m = m)
         /\ (Message.id m <> Message.id sel -> f m = m).
Proof.
  intros PK Hin Hst Hupd.
  exists (fun x => if String.eqb (Message.id x) (Message.id sel)
                   then MessageUpdate.apply upd (Sql.set_processing x) else x).
  split.
  - unfold update_rows. rewrite map_map. apply map_ext. intros x.
    destruct (String.eqb (Message.id x) (Message.id sel)) eqn:E.
    + change (Message.id (Sql.set_processing x)) with (Message.id x). now rewrite E.
    + now rewrite E.
  - intros m Hm.
    destruct (String.eqb_spec (Message.id m) (Message.id sel)) as [E | NE].
    + assert (m = sel) by (apply (primary_key_row Message.id rows); assumption).
      subst m. repeat split.
      * cbn. unfold MessageUpdate.or_keep.
        destruct Hupd as [-> | ->]; lia.
      * intros Hne. contradiction.
      * intros Hne. contradiction.
    + repeat split; try reflexivity; lia.
Qed.

(** Every way [processMessage] can end, with all it may have changed. *)
Lemma processMessage_contained {rt : Js.Strings} (config : WorkerConfig) (env : Env) (w : World)
    (message : Message.t) :
  exists o w',
    EmailProcessor.processMessage config env message w = (o, w')
    /\ (exists added, suppressions w' = suppressions w ++ added
                      /\ (List.length added <= 1)%nat)
    /\ (exists added, webhook_deliveries w' = webhook_deliveries w ++ added)
    /\ (exists calls, smtp_log w' = smtp_log w ++ calls
                      /\ (List.length calls <= 1)%nat)
    /\ domains w' = domains w
    /\ webhooks w' = webhooks w
    /\ http_log w' = http_log w
    /\ match o with
       | Returned _ =>
           exists upd,
             messages w' = update_rows (Message.id message) upd (messages w)
             /\ (MessageUpdate.attempts upd = None
                 \/ MessageUpdate.attempts upd = Some (Message.attempts message + 1))
       | Thrown _ => messages w' = messages w
       end.
Proof.
  destruct (suppression_rows_for w message) as [| s rest] eqn:Hsup.
  - rewrite (processMessage_to_send _ _ _ _ Hsup).
    destruct (transport_outcome env w message) as [mid resp | e | fault] eqn:Hout.
    + rewrite (bind_run _ _ _ _ _ (send_accepted _ _ _ _ _ Hout)).
      set (w1 := with_smtp_log _ w).
      rewrite (bind_run get _ w1 w1 w1 eq_refl).
      match goal with
      | |- context [bind (Db.messages_update ?i ?d) _ ?w0] =>
          destruct (messages_update_run w0 i d eq_refl) as [r Hr];
          rewrite (bind_run _ _ _ _ _ Hr)
      end.
      set (w2 := with_messages _ w1).
      destruct (triggerWebhookEvent_run w2 (Message.apiKeyId message) (Message.id message)
                  "message.sent" [("smtpMessageId", Json.JStr mid)])
        as [w' [Htrig Hframe]].
      rewrite (bind_run _ _ _ _ _ Htrig).
      destruct Hframe as [H1 [H2 [H3 [H4 [H5 [_ [_ [_ [H9 H10]]]]]]]]].
      eexists. exists w'. split; [reflexivity |].
      rewrite H1, H2, H3, H4, H5, H9, H10.
      split; [exists []; rewrite app_nil_r; split; [reflexivity | simpl; lia] |].
      split; [eexists; reflexivity |].
      split; [eexists; split; [reflexivity | simpl; lia] |].
      do 3 (split; [reflexivity |]).
      eexists. split; [reflexivity |]. now left.
    + rewrite (bind_run _ _ _ _ _ (send_refused _ _ _ _ Hout)).
      cbv zeta. rewrite retry_flag.
      set (w1 := with_smtp_log _ w).
      destruct (SmtpError.shouldRetry (classifySmtpError e)
                && (Message.attempts message + 1 <? maxRetries config)).
      * match goal with
        | |- context [bind (Db.messages_update ?i ?d) _ ?w0] =>
            destruct (messages_update_run w0 i d eq_refl) as [r Hr];
            rewrite (bind_run _ _ _ _ _ Hr)
        end.
        eexists. eexists. split; [reflexivity |].
        split; [exists []; rewrite app_nil_r; split; [reflexivity | simpl; lia] |].
        split; [exists []; now rewrite app_nil_r |].
        split; [eexists; split; [reflexivity | simpl; lia] |].
        do 3 (split; [reflexivity |]).
        eexists. split; [reflexivity |]. now right.
      * rewrite (bind_run get _ w1 w1 w1 eq_refl).
        match goal with
        | |- context [bind (Db.messages_update ?i ?d) _ ?w0] =>
            destruct (messages_update_run w0 i d eq_refl) as [r Hr];
            rewrite (bind_run _ _ _ _ _ Hr)
        end.
        set (w2 := with_messages _ w1).
        destruct (isHardBounce (classifySmtpError e)).
        -- assert (Hnot2 : filter (Db.suppression_matches (Message.apiKeyId message)
                                     (Js.toLowerCase (Message.toAddress message)))
                                  (suppressions w2) = []) by exact Hsup.
           pose proof (addToSuppression_run w2 _ _ SuppressionReason.HARD_BOUNCE Hnot2)
             as Hadd.
           set (w3 := with_suppressions _ _) in Hadd.
           destruct (triggerWebhookEvent_run w3 (Message.apiKeyId message)
                       (Message.id message) "message.bounced"
                       (EmailProcessor.bounce_payload (classifySmtpError e)))
             as [w' [Htrig Hframe]].
           unfold bind at 1. unfold bind at 1. rewrite Hadd. rewrite Htrig.
           destruct Hframe as [H1 [H2 [H3 [H4 [H5 [_ [_ [_ [H9 H10]]]]]]]]].
           eexists. exists w'. split; [reflexivity |].
           rewrite H1, H2, H3, H4, H5, H9, H10.
           split; [eexists; split; [reflexivity | simpl; lia] |].
           split; [eexists; reflexivity |].
           split; [eexists; split; [reflexivity | simpl; lia] |].
           do 3 (split; [reflexivity |]).
           eexists. split; [reflexivity |]. now right.
        -- destruct (triggerWebhookEvent_run w2 (Message.apiKeyId message)
                       (Message.id message) "message.failed"
                       [("failureReason",
                         Json.JStr (SmtpError.message (classifySmtpError e)))])
             as [w' [Htrig Hframe]].
           unfold bind at 1. rewrite Htrig.
           destruct Hframe as [H1 [H2 [H3 [H4 [H5 [_ [_ [_ [H9 H10]]]]]]]]].
           eexists. exists w'. split; [reflexivity |].
           rewrite H1, H2, H3, H4, H5, H9, H10.
           split; [exists []; rewrite app_nil_r; split; [reflexivity | simpl; lia] |].
           split; [eexists; reflexivity |].
           split; [eexists; split; [reflexivity | simpl; lia] |].
           do 3 (split; [reflexivity |]).
           eexists. split; [reflexivity |]. now right.
    + rewrite (bind_throw _ _ _ _ _ (send_faulted _ _ _ _ Hout)).
      eexists. eexists. split; [reflexivity |].
      split; [exists []; rewrite app_nil_r; split; [reflexivity | simpl; lia] |].
      split; [exists []; now rewrite app_nil_r |].
      split; [eexists; split; [reflexivity | simpl; lia] |].
      repeat split; reflexivity.
  - pose proof (processMessage_rejected config env w message s rest Hsup) as Hrej.
    cbv zeta in Hrej. rewrite Hrej.
    eexists. eexists. split; [reflexivity |].
    split; [exists []; rewrite app_nil_r; split; [reflexivity | simpl; lia] |].
    split; [exists []; now rewrite app_nil_r |].
    split; [exists []; rewrite app_nil_r; split; [reflexivity | simpl; lia] |].
    do 3 (split; [reflexivity |]).
    eexists. split; [reflexivity |]. now left.
Qed.

(** X12. One step of the email worker is contained: [processNext]
    always returns (a fault of the transport is caught), the rows of
    [messages] keep their place and id, only the claimed row changes and no
    row that was not [queued] is touched, no [attempts] counter goes down,
    at most one SMTP call is made and at most one suppression added, webhook
    deliveries are only appended, and nothing is posted over HTTP. *)
Theorem email_worker_step_contained {rt : Js.Strings}
    (config : WorkerConfig) (env : Env) (w : World)
    (PK : NoDup (map Message.id (messages w))) :
  exists o w',
    EmailProcessor.processNext config env w = (Returned o, w')
    /\ email_step_frame w w'
    /\ NoDup (map Message.id (messages w')).
Proof.
  destruct (Sql.select_next_queued (row_locks w) (messages w)) as [sel |] eqn:Hsel.
  - pose proof (select_next_queued_spec _ _ _ Hsel) as [Hin [Hst _]].
    pose proof (claimNext_run w sel PK Hsel) as Hclaim.
    set (w1 := with_messages _ w) in Hclaim.
    destruct (processMessage_contained config env w1 (Sql.set_processing sel))
      as [o [w2 [Hrun [Hsup [Hdel [Hsmtp [Hdom [Hhook [Hhttp Hrows]]]]]]]]].
    assert (Hframe : forall w3 upd,
              messages w3 = update_rows (Message.id sel) upd (messages w1) ->
              (MessageUpdate.attempts upd = None
               \/ MessageUpdate.attempts upd = Some (Message.attempts sel + 1)) ->
              suppressions w3 = suppressions w2 ->
              webhook_deliveries w3 = webhook_deliveries w2 ->
              smtp_log w3 = smtp_log w2 ->
              domains w3 = domains w2 -> webhooks w3 = webhooks w2 ->
              http_log w3 = http_log w2 ->
              email_step_frame w w3 /\ NoDup (map Message.id (messages w3))).
    { intros w3 upd Hm Hupd E1 E2 E3 E4 E5 E6.
      destruct (step_rows (messages w) sel upd PK Hin Hst Hupd) as [f [Hf Hprop]].
      assert (Hm3 : messages w3 = map f (messages w)) by (rewrite Hm; exact Hf).
      split.
      - unfold email_step_frame. rewrite E1, E2, E3, E4, E5, E6.
        split; [exists f, (Message.id sel); split; [exact Hm3 | exact Hprop] |].
        repeat split; assumption.
      - rewrite Hm3, map_map.
        rewrite (map_ext_in _ Message.id); [exact PK |].
        intros m Hm'. now apply Hprop. }
    destruct o as [r | fault].
    + destruct Hrows as [upd [Hm Hupd]].
      exists (Some r), w2. split.
      * exact (processNext_returns config env w w1 w2 _ _ Hclaim Hrun).
      * apply (Hframe w2 upd); auto.
    + set (data := MessageUpdate.mk (Some MessageStatus.QUEUED)
                     (Some (Message.attempts sel + 1)) None None None
                     (Some (Some ("Processing error: " +++ fault)))).
      destruct (messages_update_run w2 (Message.id sel) data eq_refl) as [r Hr].
      eexists. exists (with_messages (update_rows (Message.id sel) data) w2). split.
      * unfold EmailProcessor.processNext.
        rewrite (bind_run _ _ _ _ _ Hclaim). cbv iota beta.
        unfold try_catch at 1.
        rewrite (bind_throw _ _ _ _ _ Hrun).
        unfold bind at 1. unfold try_catch at 1.
        change (Message.id (Sql.set_processing sel)) with (Message.id sel).
        change (Message.attempts (Sql.set_processing sel)) with (Message.attempts sel).
        fold data. rewrite (bind_run _ _ _ _ _ Hr). reflexivity.
      * apply (Hframe _ data); try reflexivity.
        -- cbn [messages with_messages]. now rewrite Hrows.
        -- now right.
  - exists None, (with_messages (fun _ => messages w) w). split.
    + unfold EmailProcessor.processNext.
      rewrite (bind_run _ _ _ _ _ (claimNext_none w Hsel)). reflexivity.
    + split; [| exact PK].
      unfold email_step_frame. cbn [messages with_messages].
      split.
      { exists (fun m => m), EmptyString. split; [now rewrite map_id |].
        intros m _. repeat split; try reflexivity; lia. }
      split; [exists []; rewrite app_nil_r; split; [reflexivity | simpl; lia] |].
      split; [exists []; now rewrite app_nil_r |].
      split; [exists []; rewrite app_nil_r; split; [reflexivity | simpl; lia] |].
      repeat split; reflexivity.
Qed.

Lemma isHardBounce_classify (e : NodeError.t) :
  isHardBounce (classifySmtpError e) = true
  <-> has_connection_code e = false
      /\ exists rc, NodeError.responseCode e = Some rc /\ 550 <= rc <= 554.
Proof.
  unfold classifySmtpError, isHardBounce.
  destruct (has_connection_code e); [simpl; split; [discriminate | intros [H _]; discriminate] |].
  destruct (NodeError.responseCode e) as [rc |];
    [| simpl; split; [discriminate | intros [_ [rc [H _]]]; discriminate]].
  assert (Hcodes : Js.includes_num HARD_BOUNCE_CODES rc = true <-> 550 <= rc <= 554).
  { rewrite includes_num_In. unfold HARD_BOUNCE_CODES. simpl. lia. }
  destruct (Z.eqb_spec rc 0) as [-> | Hnz].
  { simpl. split; [discriminate | intros [_ [rc [H Hr]]]; inversion H; lia]. }
  destruct (Js.includes_num HARD_BOUNCE_CODES rc) eqn:Hhard.
  - cbn [SmtpError.new SmtpError.type SmtpError.responseCode SmtpErrorType.eqb andb].
    rewrite Hhard. split; [| reflexivity].
    intros _. split; [reflexivity |]. exists rc. split; [reflexivity | now apply Hcodes].
  - split.
    + intros H. exfalso.
      destruct (Js.includes_num SOFT_BOUNCE_CODES rc); [discriminate |].
      destruct ((500 <=? rc) && (rc <? 600)).
      * cbn [SmtpError.new SmtpError.type SmtpError.responseCode SmtpErrorType.eqb andb] in H.
        rewrite Hhard in H. discriminate.
      * destruct ((400 <=? rc) && (rc <? 500)); discriminate.
    + intros [_ [rc' [H Hr]]]. inversion H; subst rc'.
      apply Hcodes in Hr. congruence.
Qed.

(** X13. [processMessage] writes to the suppression list in one case
    only: the recipient was not suppressed, the mail was handed to the
    transport, and the transport refused it with a response code among
    550..554 and no network error code.  A suppressed recipient, a success,
    a temporary failure, a timeout or other network error, a fault, or a
    5xx code outside 550..554 never changes the list.  In that one case the
    message ends [failed] and the row added is the tenant's, for the
    lowercased recipient, with reason [hard_bounce]. *)
Theorem suppression_only_on_hard_bounce {rt : Js.Strings}
    (config : WorkerConfig) (env : Env) (w w' : World) (message : Message.t)
    (o : Outcome EmailProcessor.ProcessResult)
    (Hrun : EmailProcessor.processMessage config env message w = (o, w'))
    (Hchanged : suppressions w' <> suppressions w) :
  exists e rc,
    suppression_rows_for w message = []
    /\ smtp_log w' = smtp_log w ++ [mkSmtpCall (mail_of message) (dkim_for w message)]
    /\ transport_outcome env w message = Refused e
    /\ has_connection_code e = false
    /\ NodeError.responseCode e = Some rc
    /\ 550 <= rc <= 554
    /\ o = Returned (EmailProcessor.mkResult (Message.id message) false
                       MessageStatus.FAILED (Some (NodeError.message e)) (Some false))
    /\ suppressions w' =
       suppressions w
       ++ [Suppression.mk (uuid (next_uuid w)) (Message.apiKeyId message)
             (Js.toLowerCase (Message.toAddress message))
             SuppressionReason.HARD_BOUNCE (now w)].
Proof.
  destruct (suppression_rows_for w message) as [| s rest] eqn:Hsup.
  - destruct (transport_outcome env w message) as [mid resp | e | fault] eqn:Hout.
    + destruct (processMessage_sent config env w message mid resp Hsup Hout)
        as [w1 [Hr [_ [Hs _]]]].
      rewrite Hr in Hrun. inversion Hrun; subst. contradiction.
    + destruct (SmtpError.shouldRetry (classifySmtpError e)
                && (Message.attempts message + 1 <? maxRetries config)) eqn:Hretry.
      * rewrite (processMessage_retry config env w message e Hsup Hout Hretry) in Hrun.
        inversion Hrun; subst. exfalso. now apply Hchanged.
      * destruct (processMessage_terminal config env w message e Hsup Hout Hretry)
          as [w1 [Hr [_ [Hsmtp [_ Hcase]]]]].
        rewrite Hr in Hrun. inversion Hrun; subst.
        destruct (isHardBounce (classifySmtpError e)) eqn:Hhard.
        -- pose proof Hhard as Hclass.
           apply isHardBounce_classify in Hclass as [Hnet [rc [Hrc Hrange]]].
           exists e, rc. destruct Hcase as [Hs _].
           split; [reflexivity |]. split; [exact Hsmtp |].
           split; [reflexivity |]. split; [exact Hnet |]. split; [exact Hrc |].
           split; [lia |]. split; [| exact Hs].
           do 2 f_equal. f_equal.
           unfold classifySmtpError. rewrite Hnet, Hrc.
           repeat match goal with
                  | |- context [if ?b then _ else _] => destruct b
                  end; reflexivity.
        -- destruct Hcase as [Hs _]. contradiction.
    + rewrite (processMessage_to_send _ _ _ _ Hsup) in Hrun.
      rewrite (bind_throw _ _ _ _ _ (send_faulted _ _ _ _ Hout)) in Hrun.
      inversion Hrun; subst. exfalso. now apply Hchanged.
  - pose proof (processMessage_rejected config env w message s rest Hsup) as Hrej.
    cbv zeta in Hrej. rewrite Hrej in Hrun.
    inversion Hrun; subst. exfalso. now apply Hchanged.
Qed.

Lemma insert_desc_perm (x : Webhook.t) (l : list Webhook.t) :
  Permutation (Db.insert_desc x l) (x :: l).
Proof.
  induction l as [| y l IH]; simpl; [apply Permutation_refl |].
  destruct (Webhook.createdAt y <? Webhook.createdAt x); [apply Permutation_refl |].
  eapply perm_trans; [apply perm_skip; exact IH | apply perm_swap].
Qed.

Lemma order_by_created_at_desc_perm (l : list Webhook.t) :
  Permutation (Db.order_by_created_at_desc l) l.
Proof.
  unfold Db.order_by_created_at_desc.
  assert (H : forall acc, Permutation (fold_left (fun acc x => Db.insert_desc x acc) l acc)
                                      (l ++ acc)).
  { induction l as [| x l IH]; intros acc; simpl; [apply Permutation_refl |].
    eapply perm_trans; [apply IH |].
    eapply perm_trans; [apply Permutation_app_head; apply insert_desc_perm |].
    apply Permutation_sym, Permutation_middle. }
  specialize (H []). now rewrite app_nil_r in H.
Qed.

Lemma filter_perm {A : Type} (f : A -> bool) (l l' : list A) :
  Permutation l l' -> Permutation (filter f l) (filter f l').
Proof.
  induction 1 as [| x l l' _ IH | x y l | l l' l'' _ IH1 _ IH2]; simpl.
  - constructor.
  - destruct (f x); [now constructor | exact IH].
  - destruct (f x), (f y); try apply Permutation_refl. apply perm_swap.
  - eapply perm_trans; eassumption.
Qed.

Lemma filter_filter {A : Type} (f g : A -> bool) (l : list A) :
  filter f (filter g l) = filter (fun x => g x && f x) l.
Proof.
  induction l as [| a l IH]; simpl; [reflexivity |].
  destruct (g a); simpl; [destruct (f a); now rewrite IH | exact IH].
Qed.

(** X14. [triggerWebhookEvent] never throws and enqueues exactly one
    pending delivery for each webhook that belongs to the tenant, is
    active and is subscribed to the event, and none for any other webhook:
    an event does not reach another tenant's endpoint, an inactive webhook
    or one not subscribed.  Nothing else in the store changes. *)
Theorem webhook_events_reach_own_subscribers
    (w : World) (tenant messageId event : string) (extra : list (string * Json.t)) :
  exists w' created,
    EmailProcessor.triggerWebhookEvent tenant messageId event extra w = (Returned tt, w')
    /\ only_deliveries_added w w' created
    /\ Permutation (map WebhookDelivery.webhookId created)
         (map Webhook.id
            (filter (fun h => String.eqb (Webhook.apiKeyId h) tenant
                              && Webhook.active h
                              && Js.includes_str (Webhook.events h) event)
                    (webhooks w)))
    /\ Forall (fun d => WebhookDelivery.status d = WebhookDeliveryStatus.PENDING
                        /\ WebhookDelivery.attempts d = 0
                        /\ WebhookDelivery.lastAttemptAt d = None
                        /\ WebhookDelivery.event d = event
                        /\ WebhookDelivery.createdAt d = now w) created.
Proof.
  destruct (triggerWebhookEvent_run w tenant messageId event extra) as [w' [Hrun Hframe]].
  exists w'. eexists. split; [exact Hrun |]. split; [exact Hframe |]. split.
  - rewrite enqueued_hooks. apply Permutation_map. unfold subscribers.
    rewrite <- (filter_filter (fun h => Js.includes_str (Webhook.events h) event)
                  (fun h => String.eqb (Webhook.apiKeyId h) tenant && Webhook.active h)).
    apply filter_perm, order_by_created_at_desc_perm.
  - apply enqueued_all. repeat split.
Qed.

(** X15. A mail is signed only with a key of the sending tenant: when
    [getDkimConfig] answers a configuration, the store holds a domain row
    of the message's tenant, verified, named as the part of the sender
    address after the [@], whose non-empty private key and selector are the
    ones answered.  A row of another tenant or an unverified row is never
    used.  [getDkimConfig] reads only. *)
Theorem dkim_key_of_own_verified_domain
    (w w' : World) (message : Message.t) (cfg : DkimConfig.t)
    (Hrun : EmailProcessor.getDkimConfig message w = (Returned (Some cfg), w')) :
  w' = w
  /\ exists d,
       In d (domains w)
       /\ Domain.apiKeyId d = Message.apiKeyId message
       /\ Domain.verified d = true
       /\ nth_error (split "@" (Message.fromAddress message)) 1 = Some (Domain.domain d)
       /\ Domain.dkimPrivateKey d = Some (DkimConfig.privateKey cfg)
       /\ DkimConfig.privateKey cfg <> EmptyString
       /\ DkimConfig.domainName cfg = Domain.domain d
       /\ DkimConfig.selector cfg = Domain.dkimSelector d.
Proof.
  unfold EmailProcessor.getDkimConfig, try_catch in Hrun.
  destruct (nth_error (split "@" (Message.fromAddress message)) 1) as [dom |] eqn:Hdom;
    [| cbn in Hrun; inversion Hrun].
  unfold truthy in Hrun.
  destruct (String.eqb dom EmptyString); [cbn in Hrun; inversion Hrun |].
  rewrite (bind_run _ _ w w _ (domains_findByDomain_run w _ dom)) in Hrun.
  destruct (hd_error (filter _ (domains w))) as [d |] eqn:Hd; [| inversion Hrun].
  assert (Hin : In d (filter (fun d => String.eqb (Domain.apiKeyId d) (Message.apiKeyId message)
                                       && String.eqb (Domain.domain d) dom)
                             (domains w))).
  { destruct (filter _ (domains w)) as [| x l]; [discriminate |].
    inversion Hd; subst. now left. }
  apply filter_In in Hin as [Hin Hm]. apply andb_true_iff in Hm as [Ht Hn].
  apply String.eqb_eq in Ht, Hn.
  destruct (Domain.verified d) eqn:Hv; [| inversion Hrun].
  destruct (Domain.dkimPrivateKey d) as [key |] eqn:Hkey; [| inversion Hrun].
  cbn [truthy] in Hrun.
  destruct (String.eqb_spec key EmptyString) as [E | NE]; [inversion Hrun |].
  inversion Hrun; subst. split; [reflexivity |].
  exists d. repeat split; auto.
Qed.

(* ====================================================================== *)
(** * The webhook worker, from claim to outcome *)
(* ====================================================================== *)

Lemma dispatch_run (env : Env) (w : World) (delivery : WebhookDelivery.t)
    (webhook : Webhook.t) :
  exists r,
    WebhookProcessor.dispatchWebhook env delivery webhook w =
    (Returned r, with_http_log (http_log w ++ [webhook_request w delivery webhook]) w)
    /\ WebhookProcessor.d_success r
       = answered_2xx (fetch env (http_log w) (webhook_request w delivery webhook))
    /\ (WebhookProcessor.d_success r = true ->
        exists status text,
          fetch env (http_log w) (webhook_request w delivery webhook) = Response status text
          /\ WebhookProcessor.d_status r = Some status).
Proof.
  unfold WebhookProcessor.dispatchWebhook.
  rewrite (bind_run _ _ _ _ _ (generateWebhookHeaders_run w _ _ _)).
  rewrite (bind_run get _ w w w eq_refl).
  unfold bind at 1, modify at 1. fold (webhook_request w delivery webhook).
  destruct (fetch env (http_log w) (webhook_request w delivery webhook))
    as [status text | | msg] eqn:Hf; cbn [answered_2xx].
  - destruct ((200 <=? status) && (status <? 300)); eexists;
      (split; [reflexivity |]); (split; [reflexivity |]); cbn; intros H;
      [exists status, text; now split | discriminate].
  - eexists. split; [reflexivity |]. split; [reflexivity |]. discriminate.
  - eexists. split; [reflexivity |]. split; [reflexivity |]. discriminate.
Qed.

(** One step of the webhook worker on the row it claims. *)
Lemma webhook_step (config : WorkerConfig) (env : Env) (w : World)
    (d : WebhookDelivery.t) :
  NoDup (map WebhookDelivery.id (webhook_deliveries w)) ->
  Sql.select_next_pending (now w) (row_locks w) (webhook_deliveries w) = Some d ->
  exists r w',
    WebhookProcessor.processNext config env w = (Returned (Some r), w')
    /\ WebhookProcessor.deliveryId r = WebhookDelivery.id d
    /\ WebhookProcessor.status r = delivery_verdict config env w d
    /\ WebhookProcessor.success r
       = WebhookDeliveryStatus.eqb (delivery_verdict config env w d)
           WebhookDeliveryStatus.DELIVERED
    /\ webhook_deliveries w'
       = delivery_rows_after (now w) d (delivery_verdict config env w d)
           (webhook_deliveries w)
    /\ http_log w'
       = http_log w
         ++ match live_webhook w d with
            | Some hook => [webhook_request w (Sql.set_claimed (now w) d) hook]
            | None => []
            end
    /\ messages w' = messages w
    /\ suppressions w' = suppressions w
    /\ domains w' = domains w
    /\ webhooks w' = webhooks w
    /\ smtp_log w' = smtp_log w
    /\ now w' = now w.
Proof.
  intros PK Hsel.
  set (claimed := map (fun x => if String.eqb (WebhookDelivery.id x) (WebhookDelivery.id d)
                                then Sql.set_claimed (now w) x else x)
                      (webhook_deliveries w)).
  set (w1 := with_webhook_deliveries (fun _ => claimed) w).
  assert (Hrows : forall st,
            map (fun x => if String.eqb (WebhookDelivery.id x) (WebhookDelivery.id d)
                          then WebhookDeliveryUpdate.apply
                                 (WebhookDeliveryUpdate.mk (Some st)
                                    (Some (WebhookDelivery.attempts d + 2))
                                    (Some (Some (now w)))) x
                          else x) claimed
            = delivery_rows_after (now w) d st (webhook_deliveries w)).
  { intros st. unfold claimed, delivery_rows_after. rewrite map_map.
    apply map_ext. intros x.
    destruct (String.eqb (WebhookDelivery.id x) (WebhookDelivery.id d)) eqn:E.
    - change (WebhookDelivery.id (Sql.set_claimed (now w) x)) with (WebhookDelivery.id x).
      now rewrite E.
    - now rewrite E. }
  assert (Hdelivery :
    exists r w',
      WebhookProcessor.processDelivery config env (Sql.set_claimed (now w) d) w1 = (Returned r, w')
      /\ WebhookProcessor.deliveryId r = WebhookDelivery.id d
      /\ WebhookProcessor.status r = delivery_verdict config env w d
      /\ WebhookProcessor.success r
         = WebhookDeliveryStatus.eqb (delivery_verdict config env w d)
             WebhookDeliveryStatus.DELIVERED
      /\ webhook_deliveries w'
         = delivery_rows_after (now w) d (delivery_verdict config env w d)
             (webhook_deliveries w)
      /\ http_log w'
         = http_log w
           ++ match live_webhook w d with
              | Some hook => [webhook_request w (Sql.set_claimed (now w) d) hook]
              | None => []
              end
      /\ messages w' = messages w
      /\ suppressions w' = suppressions w
      /\ domains w' = domains w
      /\ webhooks w' = webhooks w
      /\ smtp_log w' = smtp_log w
      /\ now w' = now w).
  { unfold WebhookProcessor.processDelivery.
    rewrite (bind_run _ _ _ _ _ (getWebhook_run w1 _)).
    change (WebhookDelivery.webhookId (Sql.set_claimed (now w) d))
      with (WebhookDelivery.webhookId d).
    change (webhooks w1) with (webhooks w).
    change (WebhookDelivery.attempts (Sql.set_claimed (now w) d) + 1)
      with (WebhookDelivery.attempts d + 1 + 1).
    replace (WebhookDelivery.attempts d + 1 + 1) with (WebhookDelivery.attempts d + 2)
      by lia.
    change (WebhookDelivery.id (Sql.set_claimed (now w) d)) with (WebhookDelivery.id d).
    unfold delivery_verdict, live_webhook.
    destruct (hd_error (filter (fun h => String.eqb (Webhook.id h)
                                           (WebhookDelivery.webhookId d)) (webhooks w)))
      as [hook |].
    - destruct (Webhook.active hook); cbn [negb].
      + destruct (dispatch_run env w1 (Sql.set_claimed (now w) d) hook)
          as [res [Hdispatch [Hok _]]].
        rewrite (bind_run _ _ _ _ _ Hdispatch). cbv zeta.
        rewrite Hok.
        change (http_log w1) with (http_log w).
        change (webhook_request w1 (Sql.set_claimed (now w) d) hook)
          with (webhook_request w (Sql.set_claimed (now w) d) hook).
        destruct (answered_2xx
                    (fetch env (http_log w)
                       (webhook_request w (Sql.set_claimed (now w) d) hook))).
        * rewrite (bind_run _ _ _ _ _ (write_back_run _ _ _ _)).
          eexists. eexists. split; [reflexivity |].
          cbn [webhook_deliveries with_webhook_deliveries with_http_log].
          rewrite <- Hrows. repeat split; reflexivity.
        * destruct (maxWebhookRetries config <=? WebhookDelivery.attempts d + 2);
            cbn [negb];
            rewrite (bind_run _ _ _ _ _ (write_back_run _ _ _ _));
            eexists; eexists; (split; [reflexivity |]);
            cbn [webhook_deliveries with_webhook_deliveries with_http_log];
            rewrite <- Hrows; repeat split; reflexivity.
      + rewrite (bind_run _ _ _ _ _ (write_back_run _ _ _ _)).
        eexists. eexists. split; [reflexivity |].
        cbn [webhook_deliveries with_webhook_deliveries http_log].
        rewrite <- Hrows, app_nil_r. repeat split; reflexivity.
    - rewrite (bind_run _ _ _ _ _ (write_back_run _ _ _ _)).
      eexists. eexists. split; [reflexivity |].
      cbn [webhook_deliveries with_webhook_deliveries http_log].
      rewrite <- Hrows, app_nil_r. repeat split; reflexivity. }
  destruct Hdelivery as [r [w' [Hdelivery Hrest]]].
  exists r, w'. split; [| exact Hrest].
  unfold WebhookProcessor.processNext.
  rewrite (bind_run _ _ _ _ _ (webhookDeliveries_claimNext_run w d PK Hsel)).
  fold claimed. fold w1. cbv iota beta.
  unfold try_catch at 1.
  rewrite (bind_run _ _ _ _ _ Hdelivery). reflexivity.
Qed.

Lemma rows_after_status (time : Z) (d x : WebhookDelivery.t)
    (st : WebhookDeliveryStatus.t) (rows : list WebhookDelivery.t) :
  In x (delivery_rows_after time d st rows) ->
  WebhookDelivery.id x = WebhookDelivery.id d ->
  WebhookDelivery.status x = st
  /\ WebhookDelivery.attempts x = WebhookDelivery.attempts d + 2
  /\ WebhookDelivery.lastAttemptAt x = Some time.
Proof.
  unfold delivery_rows_after. intros Hin Hid.
  apply in_map_iff in Hin as [x0 [Hx Hx0]].
  destruct (String.eqb_spec (WebhookDelivery.id x0) (WebhookDelivery.id d)) as [E | NE].
  - subst x. repeat split.
  - subst x. contradiction.
Qed.

Lemma rows_after_others (time : Z) (d x : WebhookDelivery.t)
    (st : WebhookDeliveryStatus.t) (rows : list WebhookDelivery.t) :
  In x (delivery_rows_after time d st rows) ->
  WebhookDelivery.id x <> WebhookDelivery.id d ->
  In x rows.
Proof.
  unfold delivery_rows_after. intros Hin Hid.
  apply in_map_iff in Hin as [x0 [Hx Hx0]].
  destruct (String.eqb_spec (WebhookDelivery.id x0) (WebhookDelivery.id d)) as [E | NE].
  - subst x. exfalso. apply Hid. exact E.
  - now subst x.
Qed.

(** A row that is not pending is never selected. *)
Lemma settled_not_selected (time : Z) (d : WebhookDelivery.t)
    (st : WebhookDeliveryStatus.t) (rows : list WebhookDelivery.t) :
  st <> WebhookDeliveryStatus.PENDING ->
  forall later locked x,
    Sql.select_next_pending later locked (delivery_rows_after time d st rows) = Some x ->
    WebhookDelivery.id x <> WebhookDelivery.id d.
Proof.
  intros Hst later locked x Hsel Hid.
  apply select_next_pending_spec in Hsel as [Hin [Hpending _]].
  destruct (rows_after_status time d x st rows Hin Hid) as [Hs _].
  congruence.
Qed.

(** X16. When the endpoint answers a 2xx status, [processNext] reports
    success, has posted exactly one request (to the webhook's URL), and
    sets the row to [delivered]; the counter then reads two more than
    before the claim.  A delivered row is never claimed again, at any later
    time. *)
Theorem webhook_delivered_on_2xx
    (config : WorkerConfig) (env : Env) (w : World) (d : WebhookDelivery.t)
    (hook : Webhook.t) (status : Z) (statusText : string)
    (PK : NoDup (map WebhookDelivery.id (webhook_deliveries w)))
    (Hsel : Sql.select_next_pending (now w) (row_locks w) (webhook_deliveries w) = Some d)
    (Hlive : live_webhook w d = Some hook)
    (Hfetch : fetch env (http_log w) (webhook_request w (Sql.set_claimed (now w) d) hook)
              = Response status statusText)
    (Hok : 200 <= status < 300) :
  exists r w',
    WebhookProcessor.processNext config env w = (Returned (Some r), w')
    /\ WebhookProcessor.deliveryId r = WebhookDelivery.id d
    /\ WebhookProcessor.success r = true
    /\ WebhookProcessor.status r = WebhookDeliveryStatus.DELIVERED
    /\ http_log w' = http_log w ++ [webhook_request w (Sql.set_claimed (now w) d) hook]
    /\ HttpRequest.url (webhook_request w (Sql.set_claimed (now w) d) hook)
       = Webhook.url hook
    /\ (forall x, In x (webhook_deliveries w') ->
                  WebhookDelivery.id x = WebhookDelivery.id d ->
                  WebhookDelivery.status x = WebhookDeliveryStatus.DELIVERED
                  /\ WebhookDelivery.attempts x = WebhookDelivery.attempts d + 2
                  /\ WebhookDelivery.lastAttemptAt x = Some (now w))
    /\ forall later locked x,
         Sql.select_next_pending later locked (webhook_deliveries w') = Some x ->
         WebhookDelivery.id x <> WebhookDelivery.id d.
Proof.
  destruct (webhook_step config env w d PK Hsel)
    as [r [w' [Hrun [Hid [Hst [Hsucc [Hrows [Hhttp _]]]]]]]].
  assert (Hverdict : delivery_verdict config env w d = WebhookDeliveryStatus.DELIVERED).
  { unfold delivery_verdict. rewrite Hlive, Hfetch. cbn [answered_2xx].
    replace (200 <=? status) with true by (symmetry; apply Z.leb_le; lia).
    replace (status <? 300) with true by (symmetry; apply Z.ltb_lt; lia).
    reflexivity. }
  rewrite Hverdict in Hst, Hsucc, Hrows. rewrite Hlive in Hhttp.
  exists r, w'. split; [exact Hrun |]. split; [exact Hid |].
  split; [exact Hsucc |]. split; [exact Hst |]. split; [exact Hhttp |].
  split; [reflexivity |]. rewrite Hrows. split.
  - intros x Hin Hx. exact (rows_after_status _ _ _ _ _ Hin Hx).
  - apply settled_not_selected. discriminate.
Qed.

(** X17. A delivery whose webhook has been deleted or switched off is
    given up at once: [processNext] sets it to [failed] without posting
    anything, whatever the retry limit, and the row is never claimed
    again. *)
Theorem delivery_to_dead_webhook_fails
    (config : WorkerConfig) (env : Env) (w : World) (d : WebhookDelivery.t)
    (PK : NoDup (map WebhookDelivery.id (webhook_deliveries w)))
    (Hsel : Sql.select_next_pending (now w) (row_locks w) (webhook_deliveries w) = Some d)
    (Hdead : forall h, In h (webhooks w) ->
                       Webhook.id h = WebhookDelivery.webhookId d ->
                       Webhook.active h = false) :
  exists r w',
    WebhookProcessor.processNext config env w = (Returned (Some r), w')
    /\ WebhookProcessor.deliveryId r = WebhookDelivery.id d
    /\ WebhookProcessor.success r = false
    /\ WebhookProcessor.status r = WebhookDeliveryStatus.FAILED
    /\ http_log w' = http_log w
    /\ (forall x, In x (webhook_deliveries w') ->
                  WebhookDelivery.id x = WebhookDelivery.id d ->
                  WebhookDelivery.status x = WebhookDeliveryStatus.FAILED)
    /\ forall later locked x,
         Sql.select_next_pending later locked (webhook_deliveries w') = Some x ->
         WebhookDelivery.id x <> WebhookDelivery.id d.
Proof.
  destruct (webhook_step config env w d PK Hsel)
    as [r [w' [Hrun [Hid [Hst [Hsucc [Hrows [Hhttp _]]]]]]]].
  assert (Hnone : live_webhook w d = None).
  { unfold live_webhook.
    destruct (hd_error (filter (fun h => String.eqb (Webhook.id h)
                                           (WebhookDelivery.webhookId d)) (webhooks w)))
      as [h |] eqn:Hh; [| reflexivity].
    assert (Hin : In h (filter (fun h => String.eqb (Webhook.id h)
                                           (WebhookDelivery.webhookId d)) (webhooks w))).
    { destruct (filter _ (webhooks w)) as [| x l]; [discriminate |].
      inversion Hh; subst. now left. }
    apply filter_In in Hin as [Hin Hm]. apply String.eqb_eq in Hm.
    now rewrite (Hdead h Hin Hm). }
  assert (Hverdict : delivery_verdict config env w d = WebhookDeliveryStatus.FAILED).
  { unfold delivery_verdict. now rewrite Hnone. }
  rewrite Hverdict in Hst, Hsucc, Hrows. rewrite Hnone, app_nil_r in Hhttp.
  exists r, w'. split; [exact Hrun |]. split; [exact Hid |].
  split; [exact Hsucc |]. split; [exact Hst |]. split; [exact Hhttp |].
  rewrite Hrows. split.
  - intros x Hin Hx. exact (proj1 (rows_after_status _ _ _ _ _ Hin Hx)).
  - apply settled_not_selected. discriminate.
Qed.

(** X18. After a POST that failed with retries left, the row is
    [pending] again with [last_attempt_at] the time of the write-back (the
    time of the step), and no claim made up to 30 seconds after it returns
    the row, however few attempts it has had; once more than 30 seconds
    have passed it is ready again.  The wait does not grow with the number
    of attempts. *)
Theorem failed_post_waits_30_seconds
    (config : WorkerConfig) (env : Env) (w : World) (d : WebhookDelivery.t)
    (hook : Webhook.t)
    (PK : NoDup (map WebhookDelivery.id (webhook_deliveries w)))
    (Hsel : Sql.select_next_pending (now w) (row_locks w) (webhook_deliveries w) = Some d)
    (Hlive : live_webhook w d = Some hook)
    (Hfetch : answered_2xx (fetch env (http_log w)
                              (webhook_request w (Sql.set_claimed (now w) d) hook))
              = false)
    (Hleft : WebhookDelivery.attempts d + 2 < maxWebhookRetries config) :
  exists r w',
    WebhookProcessor.processNext config env w = (Returned (Some r), w')
    /\ WebhookProcessor.success r = false
    /\ WebhookProcessor.status r = WebhookDeliveryStatus.PENDING
    /\ List.length (http_log w') = S (List.length (http_log w))
    /\ (forall x, In x (webhook_deliveries w') ->
                  WebhookDelivery.id x = WebhookDelivery.id d ->
                  WebhookDelivery.status x = WebhookDeliveryStatus.PENDING
                  /\ WebhookDelivery.attempts x = WebhookDelivery.attempts d + 2
                  /\ WebhookDelivery.lastAttemptAt x = Some (now w)
                  /\ forall later, Sql.ready later x = (now w + 30000 <? later))
    /\ forall later locked x,
         later <= now w + 30000 ->
         Sql.select_next_pending later locked (webhook_deliveries w') = Some x ->
         WebhookDelivery.id x <> WebhookDelivery.id d.
Proof.
  destruct (webhook_step config env w d PK Hsel)
    as [r [w' [Hrun [Hid [Hst [Hsucc [Hrows [Hhttp _]]]]]]]].
  assert (Hverdict : delivery_verdict config env w d = WebhookDeliveryStatus.PENDING).
  { unfold delivery_verdict. rewrite Hlive, Hfetch.
    replace (maxWebhookRetries config <=? WebhookDelivery.attempts d + 2) with false
      by (symmetry; apply Z.leb_gt; lia).
    reflexivity. }
  rewrite Hverdict in Hst, Hsucc, Hrows. rewrite Hlive in Hhttp.
  assert (Hready : forall x, In x (webhook_deliveries w') ->
                     WebhookDelivery.id x = WebhookDelivery.id d ->
                     forall later, Sql.ready later x = (now w + 30000 <? later)).
  { intros x Hin Hx later. rewrite Hrows in Hin.
    destruct (rows_after_status _ _ _ _ _ Hin Hx) as [Hs [_ Hl]].
    unfold Sql.ready. rewrite Hs, Hl. cbn [WebhookDeliveryStatus.eqb andb].
    destruct (Z.ltb_spec (now w) (later - 30000));
      destruct (Z.ltb_spec (now w + 30000) later); try reflexivity; lia. }
  exists r, w'. split; [exact Hrun |].
  split; [exact Hsucc |]. split; [exact Hst |].
  split; [rewrite Hhttp, length_app; simpl; lia |].
  split.
  - intros x Hin Hx.
    pose proof (Hready x Hin Hx) as Hr. rewrite Hrows in Hin.
    destruct (rows_after_status _ _ _ _ _ Hin Hx) as [Hs [Ha Hl]].
    repeat split; assumption.
  - intros later locked x Hlater Hselx Hx.
    apply select_next_pending_spec in Hselx as [Hin [_ [Hr _]]].
    rewrite (Hready x Hin Hx later) in Hr.
    apply Z.ltb_lt in Hr. lia.
Qed.

Lemma webhookDeliveries_claimNext_none (w : World) :
  Sql.select_next_pending (now w) (row_locks w) (webhook_deliveries w) = None ->
  Db.webhookDeliveries_claimNext w
  = (Returned (ok None), with_webhook_deliveries (fun _ => webhook_deliveries w) w).
Proof.
  intros Hsel.
  unfold Db.webhookDeliveries_claimNext, bind, get, Sql.claim_next_webhook_delivery.
  rewrite Hsel. reflexivity.
Qed.

(** X19. One step of the webhook worker is contained: [processNext]
    always returns, the rows of [webhook_deliveries] keep their place, id,
    webhook, event and payload, only the claimed row changes and a row that
    is [delivered] or [failed] is never touched again, no [attempts]
    counter goes down, at most one request is posted, and the messages,
    suppressions, domains and webhooks are left as they were. *)
Theorem webhook_worker_step_contained
    (config : WorkerConfig) (env : Env) (w : World)
    (PK : NoDup (map WebhookDelivery.id (webhook_deliveries w))) :
  exists o w',
    WebhookProcessor.processNext config env w = (Returned o, w')
    /\ webhook_step_frame w w'
    /\ NoDup (map WebhookDelivery.id (webhook_deliveries w')).
Proof.
  destruct (Sql.select_next_pending (now w) (row_locks w) (webhook_deliveries w))
    as [d |] eqn:Hsel.
  - pose proof (select_next_pending_spec _ _ _ _ Hsel) as [Hin [Hpending _]].
    destruct (webhook_step config env w d PK Hsel)
      as [r [w' [Hrun [_ [_ [_ [Hrows [Hhttp [Hm [Hs [Hd [Hh [Hsmtp _]]]]]]]]]]]]].
    set (st := delivery_verdict config env w d) in *.
    set (f := fun x => if String.eqb (WebhookDelivery.id x) (WebhookDelivery.id d)
                       then WebhookDeliveryUpdate.apply
                              (WebhookDeliveryUpdate.mk (Some st)
                                 (Some (WebhookDelivery.attempts d + 2))
                                 (Some (Some (now w))))
                              (Sql.set_claimed (now w) x)
                       else x).
    assert (Hprop : forall x, In x (webhook_deliveries w) ->
              WebhookDelivery.id (f x) = WebhookDelivery.id x
              /\ WebhookDelivery.webhookId (f x) = WebhookDelivery.webhookId x
              /\ WebhookDelivery.event (f x) = WebhookDelivery.event x
              /\ WebhookDelivery.payload (f x) = WebhookDelivery.payload x
              /\ WebhookDelivery.attempts x <= WebhookDelivery.attempts (f x)
              /\ (WebhookDelivery.status x <> WebhookDeliveryStatus.PENDING -> f x = x)
              /\ (WebhookDelivery.id x <> WebhookDelivery.id d -> f x = x)).
    { intros x Hx. unfold f.
      destruct (String.eqb_spec (WebhookDelivery.id x) (WebhookDelivery.id d)) as [E | NE].
      - assert (x = d)
          by (apply (primary_key_row WebhookDelivery.id (webhook_deliveries w)); assumption).
        subst x. repeat split; try reflexivity.
        + cbn. lia.
        + intros Hne. contradiction.
        + intros Hne. contradiction.
      - repeat split; try reflexivity; lia. }
    exists (Some r), w'. split; [exact Hrun |]. split.
    + unfold webhook_step_frame. rewrite Hm, Hs, Hd, Hh, Hsmtp, Hhttp.
      split; [exists f, (WebhookDelivery.id d); split; [exact Hrows | exact Hprop] |].
      split; [| repeat split; reflexivity].
      eexists. split; [reflexivity |].
      destruct (live_webhook w d); simpl; lia.
    + rewrite Hrows. unfold delivery_rows_after. fold f. rewrite map_map.
      rewrite (map_ext_in _ WebhookDelivery.id); [exact PK |].
      intros x Hx. now apply Hprop.
  - exists None, (with_webhook_deliveries (fun _ => webhook_deliveries w) w). split.
    + unfold WebhookProcessor.processNext.
      rewrite (bind_run _ _ _ _ _ (webhookDeliveries_claimNext_none w Hsel)). reflexivity.
    + split; [| exact PK].
      unfold webhook_step_frame. cbn [webhook_deliveries with_webhook_deliveries].
      split.
      { exists (fun d => d), EmptyString. split; [now rewrite map_id |].
        intros d _. repeat split; try reflexivity; lia. }
      split; [exists []; rewrite app_nil_r; split; [reflexivity | simpl; lia] |].
      repeat split; reflexivity.
Qed.

(* ====================================================================== *)
(** * The webhook service *)
(* ====================================================================== *)

Lemma webhook_get_run (w : World) (apiKeyId webhookId : string) :
  WebhookService.get apiKeyId webhookId w =
  (Returned
     match hd_error (filter (fun h => String.eqb (Webhook.id h) webhookId) (webhooks w)) with
     | Some hook =>
         if String.eqb (Webhook.apiKeyId hook) apiKeyId then ok hook
         else err (RecordNotFoundError "Webhook" webhookId)
     | None => err (RecordNotFoundError "Webhook" webhookId)
     end, w).
Proof.
  unfold WebhookService.get.
  rewrite (bind_run _ _ _ _ _ (webhooks_findById_run w webhookId)).
  destruct (hd_error _) as [hook |]; [| reflexivity].
  destruct (String.eqb (Webhook.apiKeyId hook) apiKeyId); reflexivity.
Qed.

Lemma filter_not_id_none {A : Type} (id : A -> string) (k : string) (rows : list A) :
  filter (fun x => String.eqb (id x) k)
         (filter (fun x => negb (String.eqb (id x) k)) rows) = [].
Proof. apply (filter_out_then_in (fun x => String.eqb (id x) k)). Qed.

(** X20. Only the owner can read or delete a webhook.  For a stored
    webhook, [get] and [remove] by another tenant answer
    [RECORD_NOT_FOUND] (404), the same as for an id that does not exist,
    and change nothing.  [remove] by the owner answers [true], deletes the
    webhook and with it every delivery queued for it, and leaves the other
    webhooks and deliveries as they were; afterwards [get] no longer finds
    it. *)
Theorem webhook_remove_by_owner_only
    (w : World) (tenant webhookId : string) (hook : Webhook.t)
    (PK : NoDup (map Webhook.id (webhooks w)))
    (Hrow : In hook (webhooks w))
    (Hid : Webhook.id hook = webhookId) :
  if String.eqb (Webhook.apiKeyId hook) tenant then
    exists w',
      WebhookService.get tenant webhookId w = (Returned (ok hook), w)
      /\ WebhookService.remove tenant webhookId w = (Returned (ok true), w')
      /\ webhooks w'
         = filter (fun h => negb (String.eqb (Webhook.id h) webhookId)) (webhooks w)
      /\ webhook_deliveries w'
         = filter (fun d => negb (String.eqb (WebhookDelivery.webhookId d) webhookId))
                  (webhook_deliveries w)
      /\ (forall d, In d (webhook_deliveries w') ->
                    WebhookDelivery.webhookId d <> webhookId)
      /\ (forall h, In h (webhooks w) -> Webhook.id h <> webhookId -> In h (webhooks w'))
      /\ messages w' = messages w
      /\ suppressions w' = suppressions w
      /\ WebhookService.get tenant webhookId w'
         = (Returned (err (RecordNotFoundError "Webhook" webhookId)), w')
  else
    WebhookService.get tenant webhookId w
    = (Returned (err (RecordNotFoundError "Webhook" webhookId)), w)
    /\ WebhookService.remove tenant webhookId w
       = (Returned (err (RecordNotFoundError "Webhook" webhookId)), w).
Proof.
  assert (Hfound : filter (fun h => String.eqb (Webhook.id h) webhookId) (webhooks w)
                   = [hook]).
  { subst webhookId. apply (filter_id_one Webhook.id); assumption. }
  assert (Hget : WebhookService.get tenant webhookId w =
                 (Returned (if String.eqb (Webhook.apiKeyId hook) tenant then ok hook
                            else err (RecordNotFoundError "Webhook" webhookId)), w)).
  { rewrite webhook_get_run, Hfound. reflexivity. }
  destruct (String.eqb (Webhook.apiKeyId hook) tenant) eqn:Hown.
  - eexists. split; [exact Hget |]. split.
    { unfold WebhookService.remove. rewrite (bind_run _ _ _ _ _ Hget).
      unfold Store.webhooks_delete.
      rewrite (bind_run get _ w w w eq_refl).
      unfold bind at 1, modify at 1. unfold bind at 1, modify at 1.
      assert (He : existsb (fun h => String.eqb (Webhook.id h) webhookId) (webhooks w)
                   = true).
      { apply existsb_exists. exists hook. split; [exact Hrow |].
        now apply String.eqb_eq. }
      rewrite He. reflexivity. }
    cbn [webhooks webhook_deliveries messages suppressions
         Store.with_webhooks with_webhook_deliveries].
    split; [reflexivity |]. split; [reflexivity |].
    split.
    { intros d Hd Heq. apply filter_In in Hd as [_ Hd].
      apply negb_true_iff, String.eqb_neq in Hd. contradiction. }
    split.
    { intros h Hh Hne. apply filter_In. split; [exact Hh |].
      now apply negb_true_iff, String.eqb_neq. }
    split; [reflexivity |]. split; [reflexivity |].
    rewrite webhook_get_run.
    cbn [webhooks Store.with_webhooks with_webhook_deliveries].
    now rewrite (filter_not_id_none Webhook.id).
  - split; [exact Hget |].
    unfold WebhookService.remove. rewrite (bind_run _ _ _ _ _ Hget). reflexivity.
Qed.

Lemma buckets_get_set_same (key : string) (b : RateLimit.RateLimitBucket)
    (buckets : RateLimit.Buckets) :
  RateLimit.buckets_get key (RateLimit.buckets_set key b buckets) = Some b.
Proof.
  induction buckets as [| [k v] rest IH]; simpl.
  - now rewrite String.eqb_refl.
  - destruct (String.eqb k key) eqn:E; simpl; rewrite E; [reflexivity | exact IH].
Qed.

Lemma buckets_get_set_other (key other : string) (b : RateLimit.RateLimitBucket)
    (buckets : RateLimit.Buckets) :
  other <> key ->
  RateLimit.buckets_get key (RateLimit.buckets_set other b buckets)
  = RateLimit.buckets_get key buckets.
Proof.
  intros Hne. induction buckets as [| [k v] rest IH]; simpl.
  - apply String.eqb_neq in Hne. now rewrite Hne.
  - destruct (String.eqb_spec k other) as [-> | Hko]; simpl.
    + apply String.eqb_neq in Hne. now rewrite Hne.
    + destruct (String.eqb k key); [reflexivity | exact IH].
Qed.

Lemma floor_within_second (e : Z) : -1000 < e < 1000 -> e / 1000 <= 0.
Proof. intros H. Z.div_mod_to_equations. lia. Qed.

Lemma floor_after_second (e : Z) : 1000 <= e -> 1 <= e / 1000.
Proof. intros H. Z.div_mod_to_equations. lia. Qed.

(** A request of another key, or one that is not authenticated, leaves
    the bucket of [key] alone. *)
Lemma rateLimit_other (key : string) (r : Request) (buckets : RateLimit.Buckets) :
  request_of key r = false ->
  RateLimit.buckets_get key
    (snd (RateLimit.rateLimit (req_auth r) (req_time r) buckets))
  = RateLimit.buckets_get key buckets.
Proof.
  unfold request_of, RateLimit.rateLimit. intros Hother.
  destruct (req_auth r) as [[k l] |]; [| reflexivity].
  apply String.eqb_neq in Hother. cbv zeta.
  match goal with
  | |- context [if ?c then (RateLimit.Limited _ _ _ _, _) else _] => destruct c
  end; cbn [snd]; now apply buckets_get_set_other.
Qed.

(** The step of the middleware on a request of [key], by its three
    outcomes on the bucket. *)
Lemma rateLimit_step (key : string) (l now : Z) (buckets : RateLimit.Buckets) :
  let b0 := match RateLimit.buckets_get key buckets with
            | Some b => b
            | None => RateLimit.mkBucket l now l
            end in
  let add := ((now - RateLimit.lastRefill b0) / 1000) * l in
  let b1 := if 0 <? add
            then RateLimit.mkBucket (Z.min l (RateLimit.tokens b0 + add)) now
                   (RateLimit.limit b0)
            else b0 in
  exists v buckets',
    RateLimit.rateLimit (Some (key, l)) now buckets = (v, buckets')
    /\ if RateLimit.tokens b1 <? 1 then
         passed v = false
         /\ RateLimit.buckets_get key buckets' = Some b1
       else
         passed v = true
         /\ RateLimit.buckets_get key buckets'
            = Some (RateLimit.mkBucket (RateLimit.tokens b1 - 1)
                      (RateLimit.lastRefill b1) (RateLimit.limit b1)).
Proof.
  intros b0 add b1. unfold RateLimit.rateLimit. cbv zeta.
  fold b0. fold add. fold b1.
  destruct (RateLimit.tokens b1 <? 1); eexists; eexists;
    (split; [reflexivity |]); (split; [reflexivity |]); apply buckets_get_set_same.
Qed.

Lemma in_window_tail (key : string) (L t0 : Z) (r : Request) (rest : list Request) :
  in_window key L t0 (r :: rest) -> in_window key L t0 rest.
Proof. intros H r' k l Hin. apply H. now right. Qed.

(** Once the bucket was refilled inside the window, it is not refilled
    again: no more requests pass than it holds tokens. *)
Lemma passes_after_refill (key : string) (L t0 : Z) (HL : 0 <= L)
    (requests : list Request) :
  forall buckets b,
    in_window key L t0 requests ->
    RateLimit.buckets_get key buckets = Some b ->
    t0 <= RateLimit.lastRefill b < t0 + 1000 ->
    Z.of_nat (passes_of key requests buckets) <= Z.max 0 (RateLimit.tokens b).
Proof.
  induction requests as [| r rest IH]; intros buckets b Hwin Hget Hlast.
  - simpl. lia.
  - cbn [passes_of].
    destruct (request_of key r) eqn:Hk.
    + unfold request_of in Hk.
      destruct (req_auth r) as [[k l] |] eqn:Hauth; [| discriminate].
      apply String.eqb_eq in Hk. subst k.
      destruct (Hwin r key l (or_introl eq_refl) Hauth eq_refl) as [-> Ht].
      pose proof (rateLimit_step key L (req_time r) buckets) as Hstep.
      cbv zeta in Hstep. rewrite Hget in Hstep.
      assert (Hadd : (0 <? (req_time r - RateLimit.lastRefill b) / 1000 * L) = false).
      { apply Z.ltb_ge.
        pose proof (floor_within_second (req_time r - RateLimit.lastRefill b)
                      ltac:(lia)). nia. }
      rewrite Hadd in Hstep.
      destruct Hstep as [v [buckets' [Hrun Hcase]]]. rewrite Hrun.
      destruct (Z.ltb_spec (RateLimit.tokens b) 1) as [Hlow | Hhigh].
      * destruct Hcase as [Hv Hget']. rewrite Hv. cbn [andb Nat.add].
        apply (IH buckets' b (in_window_tail _ _ _ _ _ Hwin) Hget' Hlast).
      * destruct Hcase as [Hv Hget']. rewrite Hv. cbn [andb].
        pose proof (IH buckets' _ (in_window_tail _ _ _ _ _ Hwin) Hget' Hlast) as Hrest.
        cbn [RateLimit.tokens RateLimit.lastRefill] in Hrest. lia.
    + pose proof (rateLimit_other key r buckets Hk) as Hsame.
      destruct (RateLimit.rateLimit (req_auth r) (req_time r) buckets) as [v buckets'].
      cbn [snd] in Hsame. cbn [andb Nat.add].
      apply (IH buckets' b (in_window_tail _ _ _ _ _ Hwin)); [now rewrite Hsame | exact Hlast].
Qed.

(** Before that, the bucket may be refilled once. *)
Lemma passes_in_window (key : string) (L t0 : Z) (HL : 0 <= L)
    (requests : list Request) :
  forall buckets,
    in_window key L t0 requests ->
    match RateLimit.buckets_get key buckets with
    | Some b => RateLimit.tokens b <= L /\ RateLimit.lastRefill b <= t0
    | None => True
    end ->
    Z.of_nat (passes_of key requests buckets)
    <= match RateLimit.buckets_get key buckets with
       | Some b => Z.max 0 (RateLimit.tokens b) + L
       | None => L
       end.
Proof.
  induction requests as [| r rest IH]; intros buckets Hwin Hinv.
  - simpl. destruct (RateLimit.buckets_get key buckets); lia.
  - cbn [passes_of].
    destruct (request_of key r) eqn:Hk.
    + unfold request_of in Hk.
      destruct (req_auth r) as [[k l] |] eqn:Hauth; [| discriminate].
      apply String.eqb_eq in Hk. subst k.
      destruct (Hwin r key l (or_introl eq_refl) Hauth eq_refl) as [-> Ht].
      pose proof (rateLimit_step key L (req_time r) buckets) as Hstep.
      cbv zeta in Hstep.
      destruct (RateLimit.buckets_get key buckets) as [b |] eqn:Hget.
      * destruct Hinv as [Htok Hlast].
        destruct (0 <? (req_time r - RateLimit.lastRefill b) / 1000 * L) eqn:Hadd.
        -- (* refilled now: the rest of the window runs on this bucket *)
           destruct Hstep as [v [buckets' [Hrun Hcase]]]. rewrite Hrun.
           cbn [RateLimit.tokens RateLimit.lastRefill RateLimit.limit] in Hcase.
           set (filled := Z.min L (RateLimit.tokens b
                                   + (req_time r - RateLimit.lastRefill b) / 1000 * L))
             in *.
           assert (Hfilled : filled <= L) by (unfold filled; lia).
           destruct (Z.ltb_spec filled 1) as [Hlow | Hhigh];
             destruct Hcase as [Hv Hget']; rewrite Hv; cbn [andb];
             pose proof (passes_after_refill key L t0 HL rest buckets' _
                           (in_window_tail _ _ _ _ _ Hwin) Hget' Ht) as Hrest;
             cbn [RateLimit.tokens] in Hrest; lia.
        -- destruct Hstep as [v [buckets' [Hrun Hcase]]]. rewrite Hrun.
           destruct (Z.ltb_spec (RateLimit.tokens b) 1) as [Hlow | Hhigh];
             destruct Hcase as [Hv Hget']; rewrite Hv; cbn [andb];
             pose proof (IH buckets' (in_window_tail _ _ _ _ _ Hwin)) as Hrest;
             rewrite Hget' in Hrest;
             cbn [RateLimit.tokens RateLimit.lastRefill] in Hrest.
           ++ specialize (Hrest (conj Htok Hlast)). lia.
           ++ specialize (Hrest ltac:(split; lia)). lia.
      * (* first request of the key: the bucket is created full *)
        cbn [RateLimit.tokens RateLimit.lastRefill RateLimit.limit] in Hstep.
        replace (req_time r - req_time r) with 0 in Hstep by lia.
        change (0 / 1000 * L) with (0 * L) in Hstep.
        rewrite Z.mul_0_l in Hstep. cbn [Z.ltb Z.compare] in Hstep.
        destruct Hstep as [v [buckets' [Hrun Hcase]]]. rewrite Hrun.
        cbn [RateLimit.tokens RateLimit.lastRefill RateLimit.limit] in Hcase.
        destruct (Z.ltb_spec L 1) as [Hlow | Hhigh];
          destruct Hcase as [Hv Hget']; rewrite Hv; cbn [andb];
          pose proof (passes_after_refill key L t0 HL rest buckets' _
                        (in_window_tail _ _ _ _ _ Hwin) Hget' Ht) as Hrest;
          cbn [RateLimit.tokens] in Hrest; lia.
    + pose proof (rateLimit_other key r buckets Hk) as Hsame.
      destruct (RateLimit.rateLimit (req_auth r) (req_time r) buckets) as [v buckets'].
      cbn [snd] in Hsame. cbn [andb Nat.add].
      pose proof (IH buckets' (in_window_tail _ _ _ _ _ Hwin)) as Hrest.
      rewrite Hsame in Hrest. now apply Hrest.
Qed.

(** X21. The rate limit holds over every window shorter than a
    second: among requests handled one after the other, in any order and
    mixed with requests of other keys, those of one API key that fall in a
    window [t0 <= t < t0 + 1000] and pass are at most twice its
    [rateLimitPerSecond] (what was left in the bucket, plus the one refill
    the window can see); for a key met for the first time, at most the
    limit itself. *)
Theorem rate_limit_bounds_every_window
    (key : string) (L t0 : Z) (requests : list Request) (buckets : RateLimit.Buckets)
    (HL : 0 <= L)
    (Hwindow : in_window key L t0 requests)
    (Hbucket : match RateLimit.buckets_get key buckets with
               | Some b => RateLimit.tokens b <= L /\ RateLimit.lastRefill b <= t0
               | None => True
               end) :
  Z.of_nat (passes_of key requests buckets) <= 2 * L
  /\ (RateLimit.buckets_get key buckets = None ->
      Z.of_nat (passes_of key requests buckets) <= L).
Proof.
  pose proof (passes_in_window key L t0 HL requests buckets Hwindow Hbucket) as H.
  destruct (RateLimit.buckets_get key buckets) as [b |].
  - destruct Hbucket as [Htok _]. split; [lia | discriminate].
  - split; [lia | intros _; exact H].
Qed.

(** X22. The advertised wait is enough.  When the middleware answers
    429 for a key with a limit of at least one, the answer carries
    [RATE_LIMIT_EXCEEDED], [X-RateLimit-Remaining: 0] and
    [Retry-After: 1], the bucket is left as it was, and the next request of
    that key one second later or more passes, with the bucket full again
    ([X-RateLimit-Remaining] reads the limit minus one). *)
Theorem retry_after_is_enough
    (key : string) (L now : Z) (buckets buckets' : RateLimit.Buckets)
    (b : RateLimit.RateLimitBucket)
    (headers : list (string * string)) (code message : string) (status : Z)
    (HL : 1 <= L)
    (Hget : RateLimit.buckets_get key buckets = Some b)
    (Htokens : 0 <= RateLimit.tokens b)
    (Hclock : RateLimit.lastRefill b <= now)
    (Hlimited : RateLimit.rateLimit (Some (key, L)) now buckets
                = (RateLimit.Limited headers code message status, buckets')) :
  status = 429
  /\ code = "RATE_LIMIT_EXCEEDED"
  /\ header "X-RateLimit-Remaining" headers = Some "0"
  /\ header "Retry-After" headers = Some "1"
  /\ RateLimit.buckets_get key buckets' = Some b
  /\ forall later,
       now + 1000 <= later ->
       exists headers' buckets'',
         RateLimit.rateLimit (Some (key, L)) later buckets'
         = (RateLimit.Passed headers', buckets'')
         /\ header "X-RateLimit-Remaining" headers' = Some (Js.num_toString (L - 1))
         /\ RateLimit.buckets_get key buckets''
            = Some (RateLimit.mkBucket (L - 1) later (RateLimit.limit b)).
Proof.
  assert (Hquiet : (0 <? (now - RateLimit.lastRefill b) / 1000 * L) = false
                   /\ now - RateLimit.lastRefill b < 1000
                   /\ RateLimit.tokens b < 1).
  { unfold RateLimit.rateLimit in Hlimited. rewrite Hget in Hlimited.
    cbv zeta in Hlimited.
    destruct (0 <? (now - RateLimit.lastRefill b) / 1000 * L) eqn:Hadd.
    - cbn [RateLimit.tokens] in Hlimited. apply Z.ltb_lt in Hadd.
      destruct (Z.ltb_spec (Z.min L (RateLimit.tokens b
                                     + (now - RateLimit.lastRefill b) / 1000 * L)) 1)
        as [Hlow | Hhigh]; [lia | discriminate].
    - destruct (Z.ltb_spec (RateLimit.tokens b) 1) as [Hlow | Hhigh]; [| discriminate].
      split; [reflexivity |]. split; [| exact Hlow].
      apply Z.ltb_ge in Hadd.
      destruct (Z_lt_le_dec (now - RateLimit.lastRefill b) 1000) as [Hlt | Hge];
        [exact Hlt |].
      pose proof (floor_after_second _ Hge). nia. }
  destruct Hquiet as [Hadd [Hshort Hlow]].
  assert (Hretry : Z.max 1 (RateLimit.ceil_div_1000
                              (1000 - (now - RateLimit.lastRefill b))) = 1).
  { unfold RateLimit.ceil_div_1000.
    assert (- (1000 - (now - RateLimit.lastRefill b)) / 1000 = -1)
      by (Z.div_mod_to_equations; lia).
    lia. }
  unfold RateLimit.rateLimit in Hlimited. rewrite Hget in Hlimited.
  cbv zeta in Hlimited. rewrite Hadd in Hlimited.
  apply Z.ltb_lt in Hlow. rewrite Hlow in Hlimited.
  rewrite Hretry in Hlimited.
  inversion Hlimited; subst.
  split; [reflexivity |]. split; [reflexivity |].
  split; [reflexivity |]. split; [reflexivity |].
  split; [apply buckets_get_set_same |].
  intros later Hlater.
  unfold RateLimit.rateLimit. rewrite buckets_get_set_same. cbv zeta.
  pose proof (floor_after_second (later - RateLimit.lastRefill b) ltac:(lia)) as Hfloor.
  replace (0 <? (later - RateLimit.lastRefill b) / 1000 * L) with true
    by (symmetry; apply Z.ltb_lt; nia).
  cbn [RateLimit.tokens RateLimit.lastRefill RateLimit.limit].
  replace (Z.min L (RateLimit.tokens b + (later - RateLimit.lastRefill b) / 1000 * L))
    with L by (apply Z.ltb_lt in Hlow; nia).
  replace (L <? 1) with false by (symmetry; apply Z.ltb_ge; lia).
  eexists. eexists. split; [reflexivity |].
  split.
  - cbn [header]. cbn. replace (Z.max 0 (L - 1)) with (L - 1) by lia. reflexivity.
  - apply buckets_get_set_same.
Qed.

Lemma cleanup_keeps_fresh (key : string) (time : Z) (buckets : RateLimit.Buckets)
    (b : RateLimit.RateLimitBucket) :
  RateLimit.buckets_get key buckets = Some b ->
  time - RateLimit.lastRefill b <= RateLimit.BUCKET_TTL_MS ->
  RateLimit.buckets_get key (RateLimit.cleanup time buckets) = Some b.
Proof.
  intros Hget Hfresh. induction buckets as [| [k v] rest IH]; [discriminate |].
  simpl in Hget. unfold RateLimit.cleanup. cbn [filter snd].
  destruct (String.eqb k key) eqn:E.
  - inversion Hget; subst v.
    replace (RateLimit.BUCKET_TTL_MS <? time - RateLimit.lastRefill b) with false
      by (symmetry; apply Z.ltb_ge; lia).
    cbn [negb RateLimit.buckets_get]. now rewrite E.
  - destruct (negb _); [cbn [RateLimit.buckets_get]; rewrite E |]; now apply IH.
Qed.

Lemma buckets_get_absent (key : string) (buckets : RateLimit.Buckets) :
  ~ In key (map fst buckets) -> RateLimit.buckets_get key buckets = None.
Proof.
  induction buckets as [| [k v] rest IH]; intros Hnot; [reflexivity |].
  simpl. destruct (String.eqb_spec k key) as [-> | _].
  - exfalso. apply Hnot. now left.
  - apply IH. intros Hin. apply Hnot. now right.
Qed.

Lemma cleanup_keys (time : Z) (buckets : RateLimit.Buckets) (key : string) :
  In key (map fst (RateLimit.cleanup time buckets)) -> In key (map fst buckets).
Proof.
  unfold RateLimit.cleanup. intros Hin.
  apply in_map_iff in Hin as [[k v] [Hk Hin]]. apply filter_In in Hin as [Hin _].
  apply in_map_iff. now exists (k, v).
Qed.

Lemma cleanup_drops_stale (key : string) (time : Z) (buckets : RateLimit.Buckets)
    (b : RateLimit.RateLimitBucket) :
  NoDup (map fst buckets) ->
  RateLimit.buckets_get key buckets = Some b ->
  RateLimit.BUCKET_TTL_MS < time - RateLimit.lastRefill b ->
  RateLimit.buckets_get key (RateLimit.cleanup time buckets) = None.
Proof.
  intros Hnd Hget Hstale. induction buckets as [| [k v] rest IH]; [discriminate |].
  simpl in Hget, Hnd. inversion Hnd as [| ? ? Hnotin Hnd']; subst.
  unfold RateLimit.cleanup. cbn [filter snd].
  destruct (String.eqb_spec k key) as [-> | Hne].
  - inversion Hget; subst v.
    replace (RateLimit.BUCKET_TTL_MS <? time - RateLimit.lastRefill b) with true
      by (symmetry; apply Z.ltb_lt; lia).
    cbn [negb]. apply buckets_get_absent. intros Hin.
    apply Hnotin. now apply (cleanup_keys time).
  - destruct (negb _).
    + cbn [RateLimit.buckets_get]. apply String.eqb_neq in Hne. rewrite Hne.
      now apply IH.
    + now apply IH.
Qed.

(** X23. The clean-up of idle buckets does not change what a client
    is allowed.  It keeps every bucket refilled within the last hour; and
    for a key whose bucket it drops (idle for more than an hour), the next
    request is answered exactly as if the bucket were still there: it
    passes with the same headers and leaves the key with a full bucket less
    one token, refilled at that time. *)
Theorem cleanup_is_transparent
    (key : string) (L time now : Z) (buckets : RateLimit.Buckets)
    (b : RateLimit.RateLimitBucket)
    (HL : 1 <= L)
    (Hkeys : NoDup (map fst buckets))
    (Hget : RateLimit.buckets_get key buckets = Some b)
    (Htokens : 0 <= RateLimit.tokens b)
    (Hlater : time <= now) :
  if RateLimit.BUCKET_TTL_MS <? time - RateLimit.lastRefill b then
    exists headers kept dropped,
      RateLimit.rateLimit (Some (key, L)) now buckets = (RateLimit.Passed headers, kept)
      /\ RateLimit.rateLimit (Some (key, L)) now (RateLimit.cleanup time buckets)
         = (RateLimit.Passed headers, dropped)
      /\ RateLimit.buckets_get key kept
         = Some (RateLimit.mkBucket (L - 1) now (RateLimit.limit b))
      /\ RateLimit.buckets_get key dropped = Some (RateLimit.mkBucket (L - 1) now L)
  else
    RateLimit.buckets_get key (RateLimit.cleanup time buckets) = Some b.
Proof.
  destruct (Z.ltb_spec RateLimit.BUCKET_TTL_MS (time - RateLimit.lastRefill b))
    as [Hstale | Hfresh].
  - pose proof (cleanup_drops_stale key time buckets b Hkeys Hget Hstale) as Hgone.
    unfold RateLimit.BUCKET_TTL_MS in Hstale.
    unfold RateLimit.rateLimit. rewrite Hget, Hgone. cbv zeta.
    cbn [RateLimit.tokens RateLimit.lastRefill RateLimit.limit].
    pose proof (floor_after_second (now - RateLimit.lastRefill b) ltac:(lia)) as Hfloor.
    replace (0 <? (now - RateLimit.lastRefill b) / 1000 * L) with true
      by (symmetry; apply Z.ltb_lt; nia).
    replace (now - now) with 0 by lia.
    change (0 / 1000 * L) with (0 * L). rewrite Z.mul_0_l.
    cbn [Z.ltb Z.compare RateLimit.tokens RateLimit.lastRefill RateLimit.limit].
    replace (Z.min L (RateLimit.tokens b + (now - RateLimit.lastRefill b) / 1000 * L))
      with L by nia.
    replace (L <? 1) with false by (symmetry; apply Z.ltb_ge; lia).
    eexists. eexists. eexists.
    split; [reflexivity |]. split; [reflexivity |].
    split; apply buckets_get_set_same.
  - now apply cleanup_keeps_fresh.
Qed.

(* ====================================================================== *)
(** * Retries of a message *)
(* ====================================================================== *)

Lemma first_by_map {A : Type} (key : A -> Z) (f : A -> A) (l : list A) :
  (forall x, key (f x) = key x) ->
  Sql.first_by key (map f l) = option_map f (Sql.first_by key l).
Proof.
  intros Hkey. induction l as [| a l IH]; [reflexivity |].
  cbn [map Sql.first_by]. rewrite IH.
  destruct (Sql.first_by key l) as [y |]; cbn [option_map]; [| reflexivity].
  rewrite !Hkey. destruct (key y <? key a); reflexivity.
Qed.

Lemma filter_map_same {A : Type} (p : A -> bool) (f : A -> A) (l : list A) :
  (forall x, In x l -> p (f x) = p x) ->
  filter p (map f l) = map f (filter p l).
Proof.
  induction l as [| a l IH]; intros Hp; [reflexivity |].
  cbn [map filter]. rewrite (Hp a (or_introl eq_refl)).
  rewrite IH by (intros x Hx; apply Hp; now right).
  destruct (p a); reflexivity.
Qed.

(** X24. A retried message does not wait.  When the send of the
    claimed message fails and is retried, the row is written back [queued]
    with its place in the queue unchanged, so the very next [processNext]
    can claim the same message again, with [attempts] one higher: the
    worker applies no delay between the attempts of a message
    ([retry_delay_ms] does not enter). *)
Theorem retried_message_is_next_again {rt : Js.Strings}
    (config : WorkerConfig) (env : Env) (w : World) (m : Message.t) (e : NodeError.t)
    (PK : NoDup (map Message.id (messages w)))
    (Hclaim : Sql.select_next_queued (row_locks w) (messages w) = Some m)
    (Hnot : suppression_rows_for w m = [])
    (Hsend : transport_outcome env w m = Refused e)
    (Hretry : SmtpError.shouldRetry (classifySmtpError e)
              && (Message.attempts m + 1 <? maxRetries config) = true) :
  exists r w' again,
    EmailProcessor.processNext config env w = (Returned (Some r), w')
    /\ EmailProcessor.status r = MessageStatus.QUEUED
    /\ now w' = now w
    /\ Sql.select_next_queued (row_locks w') (messages w') = Some again
    /\ Message.id again = Message.id m
    /\ Message.attempts again = Message.attempts m + 1
    /\ Message.createdAt again = Message.createdAt m.
Proof.
  pose proof (select_next_queued_spec _ _ _ Hclaim) as [Hin [Hst _]].
  pose proof (claimNext_run w m PK Hclaim) as Hclaimed.
  set (w1 := with_messages _ w) in Hclaimed.
  assert (Hout : transport_outcome env w1 (Sql.set_processing m) = Refused e).
  { unfold transport_outcome. rewrite (dkim_for_same w w1 _ eq_refl). exact Hsend. }
  pose proof (processMessage_retry config env w1 (Sql.set_processing m) e Hnot Hout Hretry)
    as Hrun.
  set (upd := MessageUpdate.mk (Some MessageStatus.QUEUED)
                (Some (Message.attempts m + 1)) None None None
                (Some (Some (SmtpError.message (classifySmtpError e))))).
  destruct (step_rows (messages w) m upd PK Hin Hst ltac:(now right))
    as [f0 [Hrows _]].
  set (f := fun x => if String.eqb (Message.id x) (Message.id m)
                     then MessageUpdate.apply upd (Sql.set_processing x) else x).
  assert (Hf : update_rows (Message.id m) upd (messages w1) = map f (messages w)).
  { unfold update_rows, f. cbn [w1 messages with_messages]. rewrite map_map.
    apply map_ext. intros x.
    destruct (String.eqb (Message.id x) (Message.id m)) eqn:E.
    - change (Message.id (Sql.set_processing x)) with (Message.id x). now rewrite E.
    - now rewrite E. }
  eexists. eexists. exists (f m).
  split; [exact (processNext_returns config env w w1 _ _ _ Hclaimed Hrun) |].
  split; [reflexivity |]. split; [reflexivity |].
  split.
  - cbn [messages with_messages with_smtp_log row_locks].
    change (Message.id (Sql.set_processing m)) with (Message.id m).
    change (Message.attempts (Sql.set_processing m)) with (Message.attempts m).
    fold upd. rewrite Hf.
    unfold Sql.select_next_queued in *.
    rewrite filter_map_same.
    + rewrite first_by_map.
      * change (row_locks w1) with (row_locks w). now rewrite Hclaim.
      * intros x. unfold f. destruct (String.eqb _ _); reflexivity.
    + intros x Hx. unfold f.
      destruct (String.eqb_spec (Message.id x) (Message.id m)) as [E | NE];
        [| reflexivity].
      assert (x = m) by (apply (primary_key_row Message.id (messages w)); assumption).
      subst x. cbn. now rewrite Hst.
  - unfold f. rewrite String.eqb_refl. repeat split.
Qed.

(* ====================================================================== *)
(** * Runs on concrete stores *)
(* ====================================================================== *)

(** The runs take the ASCII functions for the runtime's. *)
#[local] Existing Instance Js.ascii_strings.

Lemma C10_witness :
  exists s1 w1,
    Db.suppressions_create
      (SuppressionInsert.mk None "key-1" "Gone@Example.com" SuppressionReason.HARD_BOUNCE)
      (mkWorld [] [] [] [] [] [] 1000 0 [] []) = (Returned (ok s1), w1)
    /\ Db.suppressions_create
         (SuppressionInsert.mk (Some "uuid-0") "key-1" "GONE@example.COM"
            SuppressionReason.MANUAL) w1 = (Returned (ok s1), w1)
    /\ Suppression.reason s1 = SuppressionReason.HARD_BOUNCE
    /\ List.length (suppressions w1) = 1%nat.
Proof.
  eexists. eexists. split; [vm_compute; reflexivity |]. split.
  - apply (C10_suppressions_create_idempotent (rt := Js.ascii_strings)
             (mkWorld [] [] [] [] [] [] 1000 0 [] []) _
             (SuppressionInsert.mk None "key-1" "Gone@Example.com"
                SuppressionReason.HARD_BOUNCE)
             (SuppressionInsert.mk (Some "uuid-0") "key-1" "GONE@example.COM"
                SuppressionReason.MANUAL)); vm_compute; reflexivity.
  - split; reflexivity.
Defined.

Lemma C3_witness :
  (exists result w',
     EmailProcessor.processMessage default_config env_421 msg_a world_mail
     = (Returned result, w')
     /\ result = EmailProcessor.mkResult "m-a" false MessageStatus.QUEUED
                   (Some "421 4.3.2 try again later") (Some true)
     /\ map (fun m => (Message.id m, Message.status m, Message.attempts m,
                       Message.failedAt m, Message.failureReason m)) (messages w')
        = [("m-b", MessageStatus.QUEUED, 7, None, None);
           ("m-a", MessageStatus.QUEUED, 1, None, Some "421 4.3.2 try again later")]
     /\ webhook_deliveries w' = [])
  /\ (exists result w',
        EmailProcessor.processMessage (mkConfig 0 5000 5) env_421 msg_a world_mail
        = (Returned result, w')
        /\ EmailProcessor.status result = MessageStatus.FAILED
        /\ map (fun m => (Message.id m, Message.status m, Message.attempts m,
                          Message.failedAt m, Message.failureReason m)) (messages w')
           = [("m-b", MessageStatus.QUEUED, 7, None, None);
              ("m-a", MessageStatus.FAILED, 1, Some 1000,
               Some "421 4.3.2 try again later")]).
Proof.
  split.
  - destruct (C3_send_failure_retry_or_fail (rt := Js.ascii_strings)
              default_config env_421 world_mail
                msg_a (NodeError.mk "421 4.3.2 try again later" (Some "EENVELOPE")
                         (Some 421)) eq_refl eq_refl)
      as [result [w' [Hrun [Hcase _]]]].
    exists result, w'. split; [exact Hrun |].
    cbv zeta in Hcase.
    change (SmtpError.shouldRetry _ && _) with true in Hcase.
    destruct Hcase as [Hres [Hrows [_ [Hdel _]]]].
    split; [exact Hres |]. split; [rewrite Hrows; reflexivity |].
    rewrite Hdel. reflexivity.
  - destruct (C3_send_failure_retry_or_fail (rt := Js.ascii_strings)
              (mkConfig 0 5000 5) env_421 world_mail
                msg_a (NodeError.mk "421 4.3.2 try again later" (Some "EENVELOPE")
                         (Some 421)) eq_refl eq_refl)
      as [result [w' [Hrun [Hcase [_ Hzero]]]]].
    exists result, w'. split; [exact Hrun |].
    destruct (Hzero eq_refl ltac:(simpl; lia)) as [_ [Hst _]].
    split; [exact Hst |].
    cbv zeta in Hcase.
    change (SmtpError.shouldRetry _ && _) with false in Hcase.
    destruct Hcase as [_ [Hrows _]]. rewrite Hrows. reflexivity.
Defined.


Lemma C5_witness :
  exists w',
    EmailProcessor.processMessage default_config env_550 msg_a world_suppressed
    = (Returned (EmailProcessor.mkResult "m-a" false MessageStatus.REJECTED
                   (Some "Recipient suppressed: manual") (Some false)), w')
    /\ map (fun m => (Message.id m, Message.status m, Message.attempts m,
                      Message.failedAt m, Message.failureReason m)) (messages w')
       = [("m-a", MessageStatus.REJECTED, 0, Some 1000,
           Some "Recipient suppressed: manual")]
    /\ smtp_log w' = []
    /\ webhook_deliveries w' = [].
Proof.
  destruct (C5_suppressed_recipient_rejected (rt := Js.ascii_strings)
              default_config env_550 world_suppressed
              msg_a sup_gone ltac:(unfold suppressions_unique; solve_nodup)
              ltac:(left; reflexivity) eq_refl eq_refl)
    as [w' [Hrun [Hrows [_ [_ [Hsmtp [Hdel _]]]]]]].
  exists w'. split; [exact Hrun |].
  split; [rewrite Hrows; reflexivity |]. split; assumption.
Defined.

Lemma C9_witness :
  exists w',
    EmailProcessor.processNext default_config env_fault world_worn
    = (Returned (Some (EmailProcessor.mkResult "m-b" false MessageStatus.QUEUED
                         (Some "Cannot read properties of undefined (reading 'code')")
                         (Some true))), w')
    /\ map (fun m => (Message.status m, Message.attempts m)) (messages w')
       = [(MessageStatus.QUEUED, 8)]
    /\ maxRetries default_config = 3.
Proof.
  destruct (C9_exception_requeues_without_bound (rt := Js.ascii_strings)
              default_config env_fault world_worn
              msg_b "Cannot read properties of undefined (reading 'code')"
              ltac:(solve_nodup) eq_refl eq_refl eq_refl)
    as [w' [Hrun _]].
  exists w'. split; [exact Hrun |].
  split; [| reflexivity].
  assert (Hw : snd (EmailProcessor.processNext default_config env_fault world_worn) = w')
    by (rewrite Hrun; reflexivity).
  rewrite <- Hw. vm_compute. reflexivity.
Defined.

(** A 421 with attempts left: the message goes back to [queued], and no
    webhook delivery is created. *)
Example temporary_failure_requeues :
  let w' := snd (EmailProcessor.processNext default_config env_421 world_mail) in
  map (fun m => (Message.id m, Message.status m, Message.attempts m)) (messages w')
  = [("m-b", MessageStatus.QUEUED, 7); ("m-a", MessageStatus.QUEUED, 1)]
  /\ webhook_deliveries w' = []
  /\ List.length (smtp_log w') = 1%nat.
Proof. vm_compute. repeat split; reflexivity. Qed.

Lemma suppressions_create_keeps_index_witness :
  suppressions_unique
    (suppressions
       (snd (Db.suppressions_create
               (SuppressionInsert.mk None "key-1" "New@Example.com" SuppressionReason.MANUAL)
               world_suppressed)))
  /\ map Suppression.email
       (suppressions
          (snd (Db.suppressions_create
                  (SuppressionInsert.mk None "key-1" "New@Example.com"
                     SuppressionReason.MANUAL)
                  world_suppressed)))
     = ["gone@example.com"; "new@example.com"]
  /\ (forall s,
        In s (suppressions
                (snd (Db.suppressions_create
                        (SuppressionInsert.mk None "key-1" "New@Example.com"
                           SuppressionReason.MANUAL)
                        world_suppressed))) ->
        Js.toLowerCase (Suppression.email s) = Suppression.email s).
Proof.
  destruct (suppressions_create_keeps_index (rt := Js.ascii_strings) world_suppressed _
              (SuppressionInsert.mk None "key-1" "New@Example.com"
                 SuppressionReason.MANUAL)
              (fst (Db.suppressions_create
                      (SuppressionInsert.mk None "key-1" "New@Example.com"
                         SuppressionReason.MANUAL)
                      world_suppressed))
              ltac:(unfold suppressions_unique; solve_nodup)
              ltac:(vm_compute; reflexivity))
    as [Hunique [_ Hlower]].
  split; [exact Hunique |]. split; [reflexivity |].
  apply Hlower.
  - intros s [<- | []]. reflexivity.
  - reflexivity.
Defined.

Lemma suppression_service_round_trip_witness :
  exists s w1 w2,
    SuppressionService.add "key-1" "  Gone@Example.COM " SuppressionReason.MANUAL
      world_empty = (Returned (ok s), w1)
    /\ Suppression.email s = "gone@example.com"
    /\ SuppressionService.isSuppressed "key-1" "GONE@example.com" w1
       = (Returned (ok true), w1)
    /\ SuppressionService.remove "key-1" "GONE@example.com" w1 = (Returned (ok true), w2)
    /\ SuppressionService.isSuppressed "key-1" "GONE@example.com" w2
       = (Returned (ok false), w2).
Proof.
  destruct (suppression_service_round_trip (rt := Js.ascii_strings)
              world_empty "key-1" "  Gone@Example.COM "
              "GONE@example.com" SuppressionReason.MANUAL eq_refl)
    as [s [w1 [w2 [Hadd [_ [Hemail [Hsup [_ [Hrem [Hfree _]]]]]]]]]].
  exists s, w1, w2. repeat split; assumption.
Defined.

Lemma messages_create_idempotency_key_witness :
  exists w1,
    Store.messages_create (sent_insert "key-1" req_hello (Some "idem-1")) world_empty
    = (Returned (ok (sent_row world_empty "key-1" req_hello (Some "idem-1"))), w1)
    /\ exists e,
         Store.messages_create (sent_insert "key-1" req_other (Some "idem-1")) w1
         = (Returned (err e), w1)
         /\ DbError.statusCode e = 409.
Proof.
  destruct (messages_create_idempotency_key world_empty
              (sent_insert "key-1" req_hello (Some "idem-1")) "idem-1" eq_refl eq_refl)
    as [w1 [Hrun [_ [_ [_ Hagain]]]]].
  exists w1. split; [exact Hrun |].
  destruct (Hagain (sent_insert "key-1" req_other (Some "idem-1")) eq_refl eq_refl)
    as [e [Hdup [_ Hstatus]]].
  exists e. split; assumption.
Defined.

Lemma sendEmail_idempotent_replay_witness :
  EmailService.sendEmail "key-1" req_other (Some "idem-1")
    (snd (EmailService.sendEmail "key-1" req_hello (Some "idem-1") world_empty))
  = (Returned (Ok (EmailService.mkResponse "uuid-0" MessageStatus.QUEUED)),
     snd (EmailService.sendEmail "key-1" req_hello (Some "idem-1") world_empty)).
Proof.
  apply (sendEmail_idempotent_replay (rt := Js.ascii_strings)
              world_empty _ "key-1" "idem-1" req_hello req_other
           (EmailService.mkResponse "uuid-0" MessageStatus.QUEUED)).
  - discriminate.
  - vm_compute. reflexivity.
Defined.

Lemma sendEmail_refuses_suppressed_witness :
  exists r,
    EmailService.sendEmail "key-1" req_hello None world_api = (Returned r, world_api)
    /\ r = Err (EmailService.mkError "EMAIL_SUPPRESSED"
                  "Recipient Gone@Example.com is on the suppression list"
                  (Some "to") 422).
Proof.
  destruct (sendEmail_refuses_suppressed (rt := Js.ascii_strings)
              world_api "key-1" req_hello None sup_gone
              ltac:(left; reflexivity) eq_refl eq_refl) as [r [Hrun [Hr _]]].
  exists r. split; [exact Hrun |]. exact (Hr eq_refl eq_refl).
Defined.

Lemma sendEmail_unverified_domain_witness :
  EmailService.sendEmail "key-1" req_corp None world_api =
  (Returned (Err (EmailService.mkError "DOMAIN_NOT_VERIFIED"
                    "Domain corp.example is not verified" (Some "from") 403)),
   world_api).
Proof.
  apply (sendEmail_unverified_domain (rt := Js.ascii_strings) world_api "key-1" req_corp None
           "me@Corp.example" "me" "Corp.example" eq_refl eq_refl).
  - discriminate.
  - discriminate.
  - discriminate.
  - intros d [<- | [<- | []]] Ht Hd; [discriminate Ht | discriminate Hd].
Defined.

Lemma getEmailStatus_tenant_isolation_witness :
  EmailService.getEmailStatus "key-2" "m-b" world_api = (Returned (Ok None), world_api)
  /\ exists st,
       EmailService.getEmailStatus "key-1" "m-b" world_api
       = (Returned (Ok (Some st)), world_api)
       /\ EmailService.s_to st = "someone@example.com".
Proof.
  split.
  - exact (getEmailStatus_tenant_isolation world_api "key-2" "m-b" msg_b
             ltac:(solve_nodup) ltac:(left; reflexivity) eq_refl).
  - eexists. split.
    + exact (getEmailStatus_tenant_isolation world_api "key-1" "m-b" msg_b
               ltac:(solve_nodup) ltac:(left; reflexivity) eq_refl).
    + reflexivity.
Defined.

Lemma processMessage_accepted_marks_sent_witness :
  exists w',
    EmailProcessor.processMessage default_config env_503 msg_a world_mail =
    (Returned (EmailProcessor.mkResult "m-a" true MessageStatus.SENT None None), w')
    /\ map WebhookDelivery.webhookId (webhook_deliveries w') = ["wh-b"; "wh-a"]
    /\ forall m, In m (messages w') -> Message.id m = "m-a" ->
                 Message.status m = MessageStatus.SENT.
Proof.
  destruct (processMessage_accepted_marks_sent (rt := Js.ascii_strings)
              default_config env_503 world_mail
              msg_a msg_a "<id@relay>" "250 OK" eq_refl eq_refl
              ltac:(right; left; reflexivity) eq_refl)
    as [w' [row' [created [Hrun [_ [_ [_ [_ [_ [_ [Hall [_ [Hdel [Hhooks _]]]]]]]]]]]]]].
  exists w'. split; [exact Hrun |]. split; [| exact Hall].
  rewrite Hdel. simpl. rewrite Hhooks. reflexivity.
Defined.

Lemma accepted_request_is_delivered_witness :
  exists w2 row,
    EmailProcessor.processNext default_config env_ok
      (snd (EmailService.sendEmail "key-1" req_other None world_empty)) =
    (Returned (Some (EmailProcessor.mkResult "uuid-0" true MessageStatus.SENT None None)),
     w2)
    /\ map (fun c => EmailMessage.to (call_mail c)) (smtp_log w2) = ["else@example.com"]
    /\ In row (messages w2)
    /\ Message.status row = MessageStatus.SENT.
Proof.
  destruct (accepted_request_is_delivered (rt := Js.ascii_strings)
              default_config env_ok world_empty _ "key-1"
              req_other None (EmailService.mkResponse "uuid-0" MessageStatus.QUEUED)
              "<id@relay>" "250 OK"
              ltac:(solve_nodup) ltac:(intros []) eq_refl eq_refl
              ltac:(intros k Hk; discriminate Hk) eq_refl eq_refl)
    as [w2 [row [Hrun [Hsmtp [Hin [_ [_ [Hst _]]]]]]]].
  exists w2, row. split; [exact Hrun |]. split; [| split; assumption].
  rewrite Hsmtp. reflexivity.
Defined.

Lemma hard_bounce_blocks_later_sends_witness :
  exists r w1 w2,
    EmailProcessor.processMessage default_config env_550 msg_a world_mail
    = (Returned r, w1)
    /\ EmailProcessor.processMessage default_config env_ok
         (Message.mk "m-z" "key-1" None "email" MessageStatus.PROCESSING
            "sender@t.example" "GONE@EXAMPLE.COM" (Some "Again") None None None
            0 70 None None None None) w1
       = (Returned (EmailProcessor.mkResult "m-z" false MessageStatus.REJECTED
                      (Some "Recipient suppressed: hard_bounce") (Some false)), w2)
    /\ smtp_log w2 = smtp_log w1.
Proof.
  destruct (hard_bounce_blocks_later_sends (rt := Js.ascii_strings)
              default_config env_550 env_ok world_mail msg_a
              (Message.mk "m-z" "key-1" None "email" MessageStatus.PROCESSING
                 "sender@t.example" "GONE@EXAMPLE.COM" (Some "Again") None None None
                 0 70 None None None None)
              (NodeError.mk "550 5.1.1 user unknown" (Some "EENVELOPE") (Some 550))
              eq_refl eq_refl eq_refl eq_refl eq_refl)
    as [r [w1 [w2 [Hfirst [_ [Hlater [Hsmtp _]]]]]]].
  exists r, w1, w2. repeat split; assumption.
Defined.

Lemma email_worker_step_contained_witness :
  exists o w',
    EmailProcessor.processNext default_config env_fault world_mail = (Returned o, w')
    /\ email_step_frame world_mail w'.
Proof.
  destruct (email_worker_step_contained (rt := Js.ascii_strings) default_config env_fault world_mail
              ltac:(solve_nodup)) as [o [w' [Hrun [Hframe _]]]].
  exists o, w'. split; assumption.
Defined.

Lemma suppression_only_on_hard_bounce_witness :
  exists e rc,
    suppression_rows_for world_mail msg_a = []
    /\ transport_outcome env_550 world_mail msg_a = Refused e
    /\ NodeError.responseCode e = Some rc
    /\ 550 <= rc <= 554
    /\ map (fun s => (Suppression.apiKeyId s, Suppression.email s, Suppression.reason s))
         (suppressions
            (snd (EmailProcessor.processMessage default_config env_550 msg_a world_mail)))
       = [("key-1", "gone@example.com", SuppressionReason.HARD_BOUNCE)].
Proof.
  assert (Hrun : EmailProcessor.processMessage default_config env_550 msg_a world_mail
                 = (fst (EmailProcessor.processMessage default_config env_550 msg_a
                           world_mail),
                    snd (EmailProcessor.processMessage default_config env_550 msg_a
                           world_mail)))
    by (vm_compute; reflexivity).
  destruct (suppression_only_on_hard_bounce default_config env_550 world_mail _ msg_a _
              Hrun ltac:(vm_compute; discriminate))
    as [e [rc [Hsup [_ [Hout [_ [Hrc [Hrange [_ Hrows]]]]]]]]].
  exists e, rc. split; [exact Hsup |]. split; [exact Hout |]. split; [exact Hrc |].
  split; [lia |]. rewrite Hrows. reflexivity.
Defined.

Lemma dkim_key_of_own_verified_domain_witness :
  exists d,
    In d (domains world_api)
    /\ Domain.apiKeyId d = "key-1"
    /\ Domain.verified d = true
    /\ Domain.dkimPrivateKey d = Some "KEY-1".
Proof.
  destruct (dkim_key_of_own_verified_domain world_api world_api msg_b
              (DkimConfig.mk "t.example" "s1" "KEY-1") eq_refl)
    as [_ [d [Hin [Ht [Hv [_ [Hkey _]]]]]]].
  exists d. repeat split; assumption.
Defined.

Lemma webhook_delivered_on_2xx_witness :
  exists r w',
    WebhookProcessor.processNext default_config env_ok world_hook = (Returned (Some r), w')
    /\ WebhookProcessor.status r = WebhookDeliveryStatus.DELIVERED
    /\ List.length (http_log w') = 1%nat
    /\ Sql.select_next_pending 999999 [] (webhook_deliveries w') = None.
Proof.
  destruct (webhook_delivered_on_2xx default_config env_ok world_hook del_a hook_a
              200 "OK" ltac:(solve_nodup) eq_refl eq_refl eq_refl ltac:(lia))
    as [r [w' [Hrun [_ [_ [Hst [Hhttp [_ [_ Hnever]]]]]]]]].
  exists r, w'. split; [exact Hrun |]. split; [exact Hst |].
  split; [rewrite Hhttp; reflexivity |].
  assert (Hw : snd (WebhookProcessor.processNext default_config env_ok world_hook) = w')
    by (rewrite Hrun; reflexivity).
  rewrite <- Hw. vm_compute. reflexivity.
Defined.

Lemma delivery_to_dead_webhook_fails_witness :
  exists r w',
    WebhookProcessor.processNext default_config env_ok world_off = (Returned (Some r), w')
    /\ WebhookProcessor.status r = WebhookDeliveryStatus.FAILED
    /\ http_log w' = [].
Proof.
  destruct (delivery_to_dead_webhook_fails default_config env_ok world_off del_c
              ltac:(solve_nodup) eq_refl
              ltac:(intros h [<- | []] _; reflexivity))
    as [r [w' [Hrun [_ [_ [Hst [Hhttp _]]]]]]].
  exists r, w'. repeat split; assumption.
Defined.

Lemma failed_post_waits_30_seconds_witness :
  exists r w',
    WebhookProcessor.processNext default_config env_503 world_hook = (Returned (Some r), w')
    /\ WebhookProcessor.status r = WebhookDeliveryStatus.PENDING
    /\ forall x, Sql.select_next_pending 31000 [] (webhook_deliveries w') = Some x ->
                 WebhookDelivery.id x <> "d-a".
Proof.
  destruct (failed_post_waits_30_seconds default_config env_503 world_hook del_a hook_a
              ltac:(solve_nodup) eq_refl eq_refl eq_refl ltac:(simpl; lia))
    as [r [w' [Hrun [_ [Hst [_ [_ Hwait]]]]]]].
  exists r, w'. split; [exact Hrun |]. split; [exact Hst |].
  intros x Hsel. apply (Hwait 31000 [] x); [simpl; lia | exact Hsel].
Defined.

Lemma webhook_worker_step_contained_witness :
  exists o w',
    WebhookProcessor.processNext default_config env_503 world_hooks = (Returned o, w')
    /\ webhook_step_frame world_hooks w'.
Proof.
  destruct (webhook_worker_step_contained default_config env_503 world_hooks
              ltac:(solve_nodup)) as [o [w' [Hrun [Hframe _]]]].
  exists o, w'. split; assumption.
Defined.

Lemma webhook_remove_by_owner_only_witness :
  WebhookService.remove "key-1" "wh-c" world_hooks
  = (Returned (err (RecordNotFoundError "Webhook" "wh-c")), world_hooks)
  /\ exists w',
       WebhookService.remove "key-1" "wh-a" world_hooks = (Returned (ok true), w')
       /\ map Webhook.id (webhooks w') = ["wh-c"]
       /\ map WebhookDelivery.id (webhook_deliveries w') = ["d-c"].
Proof.
  split.
  - exact (proj2 (webhook_remove_by_owner_only world_hooks "key-1" "wh-c" hook_off
                    ltac:(solve_nodup) ltac:(right; left; reflexivity) eq_refl)).
  - destruct (webhook_remove_by_owner_only world_hooks "key-1" "wh-a" hook_a
                ltac:(solve_nodup) ltac:(left; reflexivity) eq_refl)
      as [w' [_ [Hrun [Hhooks [Hdel _]]]]].
    exists w'. split; [exact Hrun |]. rewrite Hhooks, Hdel. split; reflexivity.
Defined.

Lemma rate_limit_bounds_every_window_witness :
  Z.of_nat (passes_of "key-1" burst buckets_full) <= 4
  /\ passes_of "key-1" burst buckets_full = 4%nat.
Proof.
  split; [| reflexivity].
  apply (rate_limit_bounds_every_window "key-1" 2 10000 burst buckets_full).
  - lia.
  - intros r k l Hin Hauth Hk. unfold burst in Hin. simpl in Hin.
    destruct Hin as [<- | [<- | [<- | [<- | [<- | [<- | [<- | []]]]]]]];
      simpl in Hauth; inversion Hauth; subst; simpl; try (split; [reflexivity | lia]);
      discriminate.
  - simpl. lia.
Defined.

Lemma retry_after_is_enough_witness :
  passed (fst (RateLimit.rateLimit (Some ("key-1", 2)) 10000 buckets_now)) = false
  /\ passed (fst (RateLimit.rateLimit (Some ("key-1", 2)) 11000
                    (snd (RateLimit.rateLimit (Some ("key-1", 2)) 10000 buckets_now))))
     = true.
Proof.
  split; [reflexivity |].
  destruct (retry_after_is_enough "key-1" 2 10000 buckets_now
              (snd (RateLimit.rateLimit (Some ("key-1", 2)) 10000 buckets_now))
              (RateLimit.mkBucket 0 9600 2) _ _ _ _
              ltac:(lia) eq_refl ltac:(simpl; lia) ltac:(simpl; lia)
              ltac:(vm_compute; reflexivity))
    as [_ [_ [_ [_ [_ Hnext]]]]].
  destruct (Hnext 11000 ltac:(lia)) as [hs [b'' [Hpass _]]].
  rewrite Hpass. reflexivity.
Defined.

Lemma cleanup_is_transparent_witness :
  RateLimit.cleanup 7300000 buckets_idle = []
  /\ exists headers kept dropped,
       RateLimit.rateLimit (Some ("key-1", 2)) 7300500 buckets_idle
       = (RateLimit.Passed headers, kept)
       /\ RateLimit.rateLimit (Some ("key-1", 2)) 7300500
            (RateLimit.cleanup 7300000 buckets_idle)
          = (RateLimit.Passed headers, dropped)
       /\ header "X-RateLimit-Remaining" headers = Some "1".
Proof.
  split; [reflexivity |].
  pose proof (cleanup_is_transparent "key-1" 2 7300000 7300500 buckets_idle
                (RateLimit.mkBucket 1 0 2) ltac:(lia) ltac:(solve_nodup) eq_refl
                ltac:(simpl; lia) ltac:(lia)) as H.
  change (RateLimit.BUCKET_TTL_MS <? 7300000 - RateLimit.lastRefill (RateLimit.mkBucket 1 0 2))
    with true in H.
  destruct H as [headers [kept [dropped [Hkept [Hdropped _]]]]].
  exists headers, kept, dropped. split; [exact Hkept |]. split; [exact Hdropped |].
  assert (Hh : match fst (RateLimit.rateLimit (Some ("key-1", 2)) 7300500 buckets_idle) with
               | RateLimit.Passed hs => hs
               | RateLimit.Limited hs _ _ _ => hs
               end = headers) by (rewrite Hkept; reflexivity).
  rewrite <- Hh. vm_compute. reflexivity.
Defined.

Lemma retried_message_is_next_again_witness :
  exists r w' again,
    EmailProcessor.processNext default_config env_421 world_one
    = (Returned (Some r), w')
    /\ Sql.select_next_queued (row_locks w') (messages w') = Some again
    /\ Message.id again = "m-a"
    /\ Message.attempts again = 1.
Proof.
  destruct (retried_message_is_next_again (rt := Js.ascii_strings) default_config env_421
              world_one msg_a
              (NodeError.mk "421 4.3.2 try again later" (Some "EENVELOPE") (Some 421))
              ltac:(solve_nodup) eq_refl eq_refl eq_refl eq_refl)
    as [r [w' [again [Hrun [_ [_ [Hsel [Hid [Hatt _]]]]]]]]].
  exists r, w', again. repeat split; assumption.
Defined.
